(** * Top-1k Clash SQL database: deck hashing, dedup, classification, aggregation

    A shallow embedding of the snapshot pipeline of
    [scripts/etl_snapshot_top20.py], [src/clashdb/hash_utils.py],
    [src/analysist/deck_type.py] and [src/analysist/battle_filters.py].

    Conventions of the embedding.
    - A Python [str] is a [string]; the characters the pipeline handles
      (player tags, card names, timestamps) are ASCII, and the string
      operations below are the ASCII fragment of Python's.
    - A JSON document of the game API is a record whose fields are [option]s:
      [None] is a missing key or a JSON null, so that [d.get(k) or default]
      is written out with the truthiness of the value. Where the source reads
      a field with [d.get(k, default)], which tells a missing key from a
      null, the field is a [Field].
    - Integers are [Z]; elixir costs, which Python holds as int or float, are
      rationals [Q].
    - A [dict] / [defaultdict] is a [gmap]; a [set] is a [gset]. *)

From Stdlib Require Import ZArith QArith Ascii String DecimalString List Permutation Sorted Lia.
From Stdlib Require Import DecimalPos DecimalZ.
From stdpp Require Import gmap strings list fin_maps sorting.

Local Open Scope Z_scope.

(* ===================================================================== *)
(** * Python built-ins used by the pipeline *)
(* ===================================================================== *)

Module Py.

(** [str.isspace] on one ASCII character: TAB, LF, VT, FF, CR, the four
    separators FS GS RS US, and the space. *)
Definition isspace (a : ascii) : bool :=
  let n := N_of_ascii a in
  ((9 <=? n)%N && (n <=? 13)%N) || ((28 <=? n)%N && (n <=? 32)%N).

Fixpoint lstrip (s : string) : string :=
  match s with
  | EmptyString => EmptyString
  | String a s' => if isspace a then lstrip s' else s
  end.

Fixpoint rstrip (s : string) : string :=
  match s with
  | EmptyString => EmptyString
  | String a s' =>
      match rstrip s' with
      | EmptyString => if isspace a then EmptyString else String a EmptyString
      | r => String a r
      end
  end.

(** [s.strip()] *)
Definition strip (s : string) : string := rstrip (lstrip s).

Definition upper_char (a : ascii) : ascii :=
  let n := N_of_ascii a in
  if ((97 <=? n)%N && (n <=? 122)%N)%bool then ascii_of_N (n - 32) else a.

(** [s.upper()] *)
Fixpoint upper (s : string) : string :=
  match s with
  | EmptyString => EmptyString
  | String a s' => String (upper_char a) (upper s')
  end.

(** [s.startswith(c)] for a one-character prefix. *)
Definition startswith (s : string) (c : ascii) : bool :=
  match s with
  | String a _ => if ascii_dec a c then true else false
  | EmptyString => false
  end.

(** [str(n)] for an integer. *)
Definition str_of_int (n : Z) : string := NilZero.string_of_int (Z.to_int n).

(** Truthiness of a string and of an integer. *)
Definition truthy_str (s : string) : bool :=
  match s with EmptyString => false | _ => true end.
Definition truthy_int (n : Z) : bool := negb (n =? 0).

(** [x or default] for an optional string and an optional integer. *)
Definition str_or (x : option string) (d : string) : string :=
  match x with Some s => if truthy_str s then s else d | None => d end.
Definition int_or (x : option Z) (d : Z) : Z :=
  match x with Some n => if truthy_int n then n else d | None => d end.

(** [sep.join(parts)] *)
Fixpoint join (sep : string) (parts : list string) : string :=
  match parts with
  | [] => EmptyString
  | [p] => p
  | p :: rest => (p ++ sep ++ join sep rest)%string
  end.

(** A stable ascending sort by a key compared with [leb], as [list.sort]
    and [sorted] are: an element is placed before the first element of the
    already sorted tail whose key is not smaller, so elements with equal
    keys keep their order. *)
Section sort.
Context {A : Type} (leb : A → A → bool).

Fixpoint insert_sorted (x : A) (l : list A) : list A :=
  match l with
  | [] => [x]
  | y :: l' => if leb x y then x :: l else y :: insert_sorted x l'
  end.

Fixpoint sort (l : list A) : list A :=
  match l with
  | [] => []
  | x :: l' => insert_sorted x (sort l')
  end.
End sort.

End Py.

(* ===================================================================== *)
(** * [hashlib.sha1(...).hexdigest()] *)
(* ===================================================================== *)

(** SHA-1 (FIPS 180-4) over the bytes of a string, on 32-bit words held in
    [Z] with the wrap-around written out. *)
Module Hashlib.

Definition w32 : Z := 2 ^ 32.
Definition add32 (a b : Z) : Z := (a + b) mod w32.
Definition rotl (n x : Z) : Z :=
  Z.lor (Z.shiftl x n mod w32) (Z.shiftr x (32 - n)).
Definition not32 (x : Z) : Z := Z.lxor x (w32 - 1).

(** [s.encode("utf-8")] for an ASCII string. *)
Fixpoint bytes_of (s : string) : list Z :=
  match s with
  | EmptyString => []
  | String a s' => Z.of_N (N_of_ascii a) :: bytes_of s'
  end.

(** Big-endian bytes of [x], [n] of them. *)
Fixpoint be_bytes (n : nat) (x : Z) : list Z :=
  match n with
  | O => []
  | S n' => be_bytes n' (x / 256) ++ [x mod 256]
  end.

Definition pad (msg : list Z) : list Z :=
  let l := Z.of_nat (length msg) in
  let zeros := Z.to_nat ((55 - l) mod 64) in
  msg ++ [128] ++ repeat 0 zeros ++ be_bytes 8 (8 * l).

Fixpoint words_of (n : nat) (bs : list Z) : list Z :=
  match n with
  | O => []
  | S n' =>
      match bs with
      | b0 :: b1 :: b2 :: b3 :: rest =>
          (((b0 * 256 + b1) * 256 + b2) * 256 + b3) :: words_of n' rest
      | _ => []
      end
  end.

(** The message schedule, most recent word first. *)
Fixpoint schedule (n : nat) (w : list Z) : list Z :=
  match n with
  | O => w
  | S n' =>
      let x := Z.lxor (Z.lxor (nth 2 w 0) (nth 7 w 0))
                      (Z.lxor (nth 13 w 0) (nth 15 w 0)) in
      schedule n' (rotl 1 x :: w)
  end.

Definition state : Type := Z * Z * Z * Z * Z.

Definition round (t : Z) (s : state) (wt : Z) : state :=
  let '(a, b, c, d, e) := s in
  let '(f, k) :=
    if t <? 20 then (Z.lor (Z.land b c) (Z.land (not32 b) d), 0x5A827999)
    else if t <? 40 then (Z.lxor (Z.lxor b c) d, 0x6ED9EBA1)
    else if t <? 60 then
      (Z.lor (Z.lor (Z.land b c) (Z.land b d)) (Z.land c d), 0x8F1BBCDC)
    else (Z.lxor (Z.lxor b c) d, 0xCA62C1D6) in
  let temp := add32 (add32 (add32 (add32 (rotl 5 a) f) e) k) wt in
  (temp, a, rotl 30 b, c, d).

Fixpoint rounds (t : Z) (s : state) (ws : list Z) : state :=
  match ws with
  | [] => s
  | wt :: ws' => rounds (t + 1) (round t s wt) ws'
  end.

Definition compress (h : state) (block : list Z) : state :=
  let ws := rev (schedule 64 (rev (words_of 16 block))) in
  let '(h0, h1, h2, h3, h4) := h in
  let '(a, b, c, d, e) := rounds 0 h ws in
  (add32 h0 a, add32 h1 b, add32 h2 c, add32 h3 d, add32 h4 e).

Fixpoint blocks (n : nat) (h : state) (bs : list Z) : state :=
  match n with
  | O => h
  | S n' => blocks n' (compress h (firstn 64 bs)) (skipn 64 bs)
  end.

Definition init : state :=
  (0x67452301, 0xEFCDAB89, 0x98BADCFE, 0x10325476, 0xC3D2E1F0).

Definition hex_digit (n : Z) : ascii :=
  ascii_of_N (Z.to_N (if n <? 10 then 48 + n else 87 + n)).

Fixpoint hex (n : nat) (x : Z) (acc : string) : string :=
  match n with
  | O => acc
  | S n' => hex n' (x / 16) (String (hex_digit (x mod 16)) acc)
  end.

Definition sha1_hexdigest (s : string) : string :=
  let bs := pad (bytes_of s) in
  let '(h0, h1, h2, h3, h4) := blocks (length bs / 64) init bs in
  hex 8 h0 (hex 8 h1 (hex 8 h2 (hex 8 h3 (hex 8 h4 EmptyString)))).

End Hashlib.

(* ===================================================================== *)
(** * [json.dumps] on the dedup payload *)
(* ===================================================================== *)

Module Json.

Definition dquote : ascii := "034"%char.
Definition backslash : ascii := "092"%char.

Definition char_str (a : ascii) : string := String a EmptyString.

(** One character of a JSON string with [ensure_ascii=True]: everything
    outside [' ' .. '~'], the quote and the backslash is escaped. *)
Definition escape_char (a : ascii) : string :=
  let n := N_of_ascii a in
  if ascii_dec a dquote then String backslash (char_str dquote)
  else if ascii_dec a backslash then String backslash (char_str backslash)
  else if (n =? 8)%N then String backslash "b"
  else if (n =? 12)%N then String backslash "f"
  else if (n =? 10)%N then String backslash "n"
  else if (n =? 13)%N then String backslash "r"
  else if (n =? 9)%N then String backslash "t"
  else if ((32 <=? n)%N && (n <=? 126)%N)%bool then char_str a
  else String backslash (String "u" (Hashlib.hex 4 (Z.of_N n) EmptyString)).

Fixpoint escape (s : string) : string :=
  match s with
  | EmptyString => EmptyString
  | String a s' => (escape_char a ++ escape s')%string
  end.

(** [json.dumps(s)] for a string. *)
Definition dumps_str (s : string) : string :=
  String dquote (escape s ++ char_str dquote)%string.

(** [json.dumps(n)] for an integer. *)
Definition dumps_int (n : Z) : string := Py.str_of_int n.

(** ["key":] *)
Definition key (k : string) : string := (dumps_str k ++ ":")%string.

End Json.

(* ===================================================================== *)
(** * The raw records of the battle log *)
(* ===================================================================== *)

(** One entry of a participant's ["cards"] list. *)
Record RawCard := {
  rc_id : option Z;
  rc_name : option string;
  rc_evolutionLevel : option Z
}.

(** One entry of ["team"] or ["opponent"]. *)
Record Participant := {
  p_tag : option string;
  p_crowns : option Z;
  p_cards : option (list RawCard)
}.

Record GameMode := {
  gm_id : option Z;
  gm_name : option string
}.

Record Battle := {
  b_battleTime : option string;
  b_gameMode : option GameMode;
  b_type : option string;
  b_team : option (list Participant);
  b_opponent : option (list Participant)
}.

(** [x or []] *)
Definition list_or {A} (x : option (list A)) : list A :=
  match x with Some l => l | None => [] end.

(** The same battle as the other participant's log presents it. *)
Definition swap_sides (b : Battle) : Battle :=
  {| b_battleTime := b_battleTime b;
     b_gameMode := b_gameMode b;
     b_type := b_type b;
     b_team := b_opponent b;
     b_opponent := b_team b |}.

(* ===================================================================== *)
(** * [src/clashdb/hash_utils.py] *)
(* ===================================================================== *)

(** [(card_id, variant)], both strings. *)
Definition CardKey : Type := string * string.

(** Python's [<=] on the sort key [(x[0], x[1])]: the first components
    decide unless they are equal. *)
Definition cardkey_leb (x y : CardKey) : bool :=
  if decide (x.1 = y.1) then String.leb x.2 y.2 else String.leb x.1 y.1.

Definition card_segment (k : CardKey) : string := (k.1 ++ ":" ++ k.2)%string.

Definition canonical_deck_signature (cards : list CardKey) : string :=
  let normalized := cards in
  Py.join "|" (card_segment <$> Py.sort cardkey_leb normalized).

Definition deck_hash_from_signature (sig : string) : string :=
  Hashlib.sha1_hexdigest sig.

(** The dedup payload entry [{"tag": tag, "crowns": crowns}]. *)
Record SideEntry := { se_tag : string; se_crowns : Z }.

Definition side_payload (side : list Participant) : list SideEntry :=
  let out :=
    (λ p, {| se_tag := Py.upper (Py.str_or (p_tag p) "");
             se_crowns := Py.int_or (p_crowns p) 0 |}) <$> side in
  Py.sort (λ x y, String.leb (se_tag x) (se_tag y)) out.

Definition mode_key (b : Battle) : string :=
  let game_mode := b_gameMode b in
  let mode_id := game_mode ≫= gm_id in
  let mode_name := game_mode ≫= gm_name in
  match mode_id with
  | Some n => if Py.truthy_int n then Py.str_of_int n
              else Py.str_or mode_name (Py.str_or (b_type b) "")
  | None => Py.str_or mode_name (Py.str_or (b_type b) "")
  end.

Record Payload := {
  pl_battleTime : string;
  pl_mode : string;
  pl_team : list SideEntry;
  pl_opponent : list SideEntry
}.

Definition match_payload (b : Battle) : Payload :=
  {| pl_battleTime := Py.str_or (b_battleTime b) "";
     pl_mode := mode_key b;
     pl_team := side_payload (list_or (b_team b));
     pl_opponent := side_payload (list_or (b_opponent b)) |}.

(** [json.dumps(entry, sort_keys=True, separators=(",", ":"))]: the keys in
    sorted order are ["crowns"], ["tag"]. *)
Definition dumps_entry (e : SideEntry) : string :=
  ("{" ++ Json.key "crowns" ++ Json.dumps_int (se_crowns e) ++ ","
       ++ Json.key "tag" ++ Json.dumps_str (se_tag e) ++ "}")%string.

Definition dumps_side (l : list SideEntry) : string :=
  ("[" ++ Py.join "," (dumps_entry <$> l) ++ "]")%string.

(** [json.dumps(payload, sort_keys=True, separators=(",", ":"))]: the keys in
    sorted order are ["battleTime"], ["mode"], ["opponent"], ["team"]. *)
Definition dumps_payload (p : Payload) : string :=
  ("{" ++ Json.key "battleTime" ++ Json.dumps_str (pl_battleTime p) ++ ","
       ++ Json.key "mode" ++ Json.dumps_str (pl_mode p) ++ ","
       ++ Json.key "opponent" ++ dumps_side (pl_opponent p) ++ ","
       ++ Json.key "team" ++ dumps_side (pl_team p) ++ "}")%string.

Definition match_hash (b : Battle) : string :=
  let blob := dumps_payload (match_payload b) in
  Hashlib.sha1_hexdigest blob.

(* ===================================================================== *)
(** * [src/analysist/battle_filters.py] *)
(* ===================================================================== *)

Definition RANKED_MODE_ID_WHITELIST : list Z := [72000006; 72000464].

Definition is_ranked_1v1_battle (b : Battle) : bool :=
  let team := list_or (b_team b) in
  let opponent := list_or (b_opponent b) in
  if negb ((length team =? 1)%nat && (length opponent =? 1)%nat) then false
  else
    match b_gameMode b ≫= gm_id with
    | Some mode_id => bool_decide (mode_id ∈ RANKED_MODE_ID_WHITELIST)
    | None => false
    end.

(* ===================================================================== *)
(** * Card metadata ([src/data/card_metadata.json]) *)
(* ===================================================================== *)

(** One row of the card metadata table. The table itself is a data file that
    the pipeline reads at start-up; every definition that consults it takes
    it as the list of its rows. *)
Record CardMeta := {
  cm_id : Z;
  cm_name : string;
  cm_elixir : option Q;
  cm_is_bait_piece : bool;
  cm_is_bridge_spam_piece : bool;
  cm_is_big_tank : bool
}.

(** [{c["name"]: c for c in _CARD_META_LIST}]: a later row replaces an
    earlier one of the same name. *)
Definition card_meta_by_name (rows : list CardMeta) : gmap string CardMeta :=
  foldl (λ m c, <[cm_name c := c]> m) ∅ rows.

(** [load_card_metadata]: the rows keyed by [str(row["id"])]. *)
Definition load_card_metadata (rows : list CardMeta) : gmap string CardMeta :=
  foldl (λ out row, <[Py.str_of_int (cm_id row) := row]> out) ∅ rows.

(** [card_name_from_id] of [src/clashdb/card_metadata.py]. *)
Definition card_name_from_id (meta : gmap string CardMeta) (card_id : string)
  : option string :=
  match meta !! card_id with
  | None => None
  | Some row =>
      if Py.truthy_str (cm_name row) then Some (Py.strip (cm_name row)) else None
  end.

(* ===================================================================== *)
(** * [src/analysist/deck_type.py] *)
(* ===================================================================== *)

Definition ARCHETYPE_SIEGE : string := "Siege".
Definition ARCHETYPE_BAIT : string := "Bait".
Definition ARCHETYPE_CYCLE : string := "Cycle".
Definition ARCHETYPE_BRIDGE_SPAM : string := "Bridge Spam".
Definition ARCHETYPE_BEATDOWN : string := "Beatdown".
Definition ARCHETYPE_HYBRID : string := "Hybrid".

Definition SIEGE_XBOW : string := "X-Bow".
Definition SIEGE_MORTAR : string := "Mortar".

Record DeckValues := {
  avg_elixir : Q;
  four_card_cycle_cost : Q;
  has_xbow : bool;
  has_mortar : bool;
  bait_pieces : nat;
  bridge_spam_count : nat;
  big_tank_count : nat
}.

(** [sum(xs)] *)
Definition qsum (xs : list Q) : Q := foldl Qplus (0 # 1)%Q xs.

Section deck_type.
(** [_CARD_META_BY_NAME] *)
Variable _CARD_META_BY_NAME : gmap string CardMeta.

(** [_get_card_meta]: the row of the card, if there is one; the empty
    dictionary of the source is [None]. *)
Definition _get_card_meta (card_name : string) : option CardMeta :=
  _CARD_META_BY_NAME !! card_name.

(** [m.get(flag)] on a row or on the empty dictionary. *)
Definition meta_flag (flag : CardMeta → bool) (m : option CardMeta) : bool :=
  match m with Some row => flag row | None => false end.

Definition _precompute_deck_values (cards : list string) : DeckValues :=
  let metas := _get_card_meta <$> cards in
  let elixirs := omap (λ m, m ≫= cm_elixir) metas in
  let '(avg, four_cycle) :=
    if (length elixirs =? 0)%nat then ((3 # 1)%Q, (12 # 1)%Q)
    else ((qsum elixirs / (8 # 1))%Q, qsum (take 4 (Py.sort Qle_bool elixirs))) in
  {| avg_elixir := avg;
     four_card_cycle_cost := four_cycle;
     has_xbow := bool_decide (SIEGE_XBOW ∈ cards);
     has_mortar := bool_decide (SIEGE_MORTAR ∈ cards);
     bait_pieces := length (filter (λ m, meta_flag cm_is_bait_piece m = true) metas);
     bridge_spam_count :=
       length (filter (λ m, meta_flag cm_is_bridge_spam_piece m = true) metas);
     big_tank_count := length (filter (λ m, meta_flag cm_is_big_tank m = true) metas) |}.

Definition classify_deck (cards : list string) : string :=
  match cards with
  | [] => ARCHETYPE_HYBRID
  | _ =>
      let v := _precompute_deck_values cards in
      if has_xbow v then ARCHETYPE_SIEGE
      else if has_mortar v then ARCHETYPE_SIEGE
      else if (3 <=? bait_pieces v)%nat then ARCHETYPE_BAIT
      else if Qle_bool (four_card_cycle_cost v) (9 # 1) then ARCHETYPE_CYCLE
      else if (2 <=? bridge_spam_count v)%nat then ARCHETYPE_BRIDGE_SPAM
      else if (1 <=? big_tank_count v)%nat && Qle_bool (7 # 2) (avg_elixir v)
           then ARCHETYPE_BEATDOWN
      else ARCHETYPE_HYBRID
  end.
End deck_type.

(* ===================================================================== *)
(** * [scripts/etl_snapshot_top20.py]: helpers *)
(* ===================================================================== *)

Definition _normalize_tag (tag : option string) : string :=
  let t := Py.upper (Py.strip (Py.str_or tag "")) in
  if Py.truthy_str t && negb (Py.startswith t "#") then String "#" t else t.

Definition card_variant_from_evolution_level (evolution_level : option Z) : string :=
  let lvl := Py.int_or evolution_level 0 in
  if lvl =? 1 then "evo" else if lvl =? 2 then "hero" else "normal".

Record CardObs := {
  card_id : Z;
  card_name : string;
  card_variant : string;
  slot : Z
}.

(** The identity of a card inside a deck. *)
Definition obs_key (x : CardObs) : Z * string := (card_id x, card_variant x).

Section extract.
(** [card_meta], as [load_card_metadata] returns it. *)
Variable card_meta : gmap string CardMeta.

(** The body of the loop of [_extract_8_cards] for the entry at [idx]. *)
Definition observe_card (idx : Z) (c : RawCard) : option CardObs :=
  match rc_id c with
  | None => None
  | Some cid_int =>
      let nm := Py.strip (Py.str_or (rc_name c) "") in
      let nm := if Py.truthy_str nm then nm
                else Py.str_or (card_name_from_id card_meta (Py.str_of_int cid_int)) "" in
      let variant := card_variant_from_evolution_level (rc_evolutionLevel c) in
      Some {| card_id := cid_int; card_name := nm; card_variant := variant; slot := idx |}
  end.

(** [for idx, c in enumerate(cards, start=idx)], leaving at the first entry
    without an identifier. *)
Fixpoint observe_cards (idx : Z) (cards : list RawCard) : option (list CardObs) :=
  match cards with
  | [] => Some []
  | c :: rest =>
      match observe_card idx c with
      | None => None
      | Some x =>
          match observe_cards (idx + 1) rest with
          | None => None
          | Some out => Some (x :: out)
          end
      end
  end.

Definition _extract_8_cards (participant : Participant) : option (list CardObs) :=
  let cards := list_or (p_cards participant) in
  if (length cards <? 8)%nat then None
  else
    match observe_cards 1 (take 8 cards) with
    | None => None
    | Some out =>
        let uniq : gset (Z * string) := list_to_set (obs_key <$> out) in
        if negb (size uniq =? 8)%nat then None else Some out
    end.
End extract.

Definition _participant_is_win_ranked_1v1 (battle : Battle) (participant_tag : string) : bool :=
  let participant_tag := _normalize_tag (Some participant_tag) in
  match list_or (b_team battle), list_or (b_opponent battle) with
  | [t0], [o0] =>
      let team_tag := _normalize_tag (p_tag t0) in
      let opp_tag := _normalize_tag (p_tag o0) in
      let team_crowns := Py.int_or (p_crowns t0) 0 in
      let opp_crowns := Py.int_or (p_crowns o0) 0 in
      if decide (participant_tag = team_tag) then opp_crowns <? team_crowns
      else if decide (participant_tag = opp_tag) then team_crowns <? opp_crowns
      else false
  | _, _ => false
  end.

(* ===================================================================== *)
(** * Aggregate counters *)
(* ===================================================================== *)

(** [{"uses": u, "wins": w}] *)
Record Counter := { uses : Z; wins : Z }.

Definition zero_counter : Counter := {| uses := 0; wins := 0 |}.

Section defaultdict.
Context `{Countable K}.

(** [d[k]] on a [defaultdict(lambda: {"uses": 0, "wins": 0})]. *)
Definition dd_get (d : gmap K Counter) (k : K) : Counter :=
  default zero_counter (d !! k).

(** [d[k]["uses"] += n] *)
Definition add_uses (k : K) (n : Z) (d : gmap K Counter) : gmap K Counter :=
  let c := dd_get d k in <[k := {| uses := uses c + n; wins := wins c |}]> d.

(** [d[k]["wins"] += n] *)
Definition add_wins (k : K) (n : Z) (d : gmap K Counter) : gmap K Counter :=
  let c := dd_get d k in <[k := {| uses := uses c; wins := wins c + n |}]> d.

(** The pair of statements [d[k]["uses"] += 1; d[k]["wins"] += 1 if won else 0]. *)
Definition count_use (k : K) (won : bool) (d : gmap K Counter) : gmap K Counter :=
  add_wins k (if won then 1 else 0) (add_uses k 1 d).
End defaultdict.

(* ===================================================================== *)
(** * [scripts/etl_snapshot_top20.py]: the scan of [main] *)
(* ===================================================================== *)

(** One entry of the ranking, as [fetch_top_players] returns it. *)
Record RawPlayer := {
  rp_tag : option string;
  rp_name : option string;
  rp_trophies : option Z;
  rp_rank : option Z
}.

Record TopPlayer := {
  player_tag : string;
  player_name : string;
  trophies : Z;
  rank_global : Z
}.

(** [for i, p in enumerate(raw, start=i)]: entries without a tag are left out. *)
Fixpoint top_players_from (i : Z) (raw : list RawPlayer) : list TopPlayer :=
  match raw with
  | [] => []
  | p :: rest =>
      let tag := _normalize_tag (rp_tag p) in
      if negb (Py.truthy_str tag) then top_players_from (i + 1) rest
      else {| player_tag := tag;
              player_name := Py.strip (Py.str_or (rp_name p) "");
              trophies := Py.int_or (rp_trophies p) 0;
              rank_global := Py.int_or (rp_rank p) i |}
           :: top_players_from (i + 1) rest
  end.

(** The mutable variables of [main] during the scan. *)
Record State := {
  seen_matches : gset string;
  scanned_entries : Z;
  deduped_matches : Z;
  cards_dim : gmap Z string;
  deck_hash_to_type : gmap string string;
  deck_hash_to_cards : gmap string (list CardObs);
  player_decks_top : gmap (string * string) Counter;
  meta_deck_types : gmap string Counter;
  meta_type_deck_ids : gmap (string * string) Counter;
  meta_type_cards : gmap (string * Z * string) Counter
}.

Definition init_state : State :=
  {| seen_matches := ∅; scanned_entries := 0; deduped_matches := 0;
     cards_dim := ∅; deck_hash_to_type := ∅; deck_hash_to_cards := ∅;
     player_decks_top := ∅; meta_deck_types := ∅; meta_type_deck_ids := ∅;
     meta_type_cards := ∅ |}.

(** [scanned_entries += n] *)
Definition add_scanned (n : Z) (st : State) : State :=
  {| seen_matches := seen_matches st;
     scanned_entries := scanned_entries st + n;
     deduped_matches := deduped_matches st;
     cards_dim := cards_dim st;
     deck_hash_to_type := deck_hash_to_type st;
     deck_hash_to_cards := deck_hash_to_cards st;
     player_decks_top := player_decks_top st;
     meta_deck_types := meta_deck_types st;
     meta_type_deck_ids := meta_type_deck_ids st;
     meta_type_cards := meta_type_cards st |}.

(** [seen_matches.add(mh); deduped_matches += 1] *)
Definition mark_seen (mh : string) (st : State) : State :=
  {| seen_matches := {[mh]} ∪ seen_matches st;
     scanned_entries := scanned_entries st;
     deduped_matches := deduped_matches st + 1;
     cards_dim := cards_dim st;
     deck_hash_to_type := deck_hash_to_type st;
     deck_hash_to_cards := deck_hash_to_cards st;
     player_decks_top := player_decks_top st;
     meta_deck_types := meta_deck_types st;
     meta_type_deck_ids := meta_type_deck_ids st;
     meta_type_cards := meta_type_cards st |}.

(** [if dh not in deck_hash_to_type: deck_hash_to_type[dh] = dtype;
    deck_hash_to_cards[dh] = card_obs] *)
Definition store_deck_dims (dh dtype : string) (card_obs : list CardObs) (st : State) : State :=
  match deck_hash_to_type st !! dh with
  | Some _ => st
  | None =>
      {| seen_matches := seen_matches st;
         scanned_entries := scanned_entries st;
         deduped_matches := deduped_matches st;
         cards_dim := cards_dim st;
         deck_hash_to_type := <[dh := dtype]> (deck_hash_to_type st);
         deck_hash_to_cards := <[dh := card_obs]> (deck_hash_to_cards st);
         player_decks_top := player_decks_top st;
         meta_deck_types := meta_deck_types st;
         meta_type_deck_ids := meta_type_deck_ids st;
         meta_type_cards := meta_type_cards st |}
  end.

(** [for c in card_obs: if c.card_name: cards_dim[c.card_id] = c.card_name] *)
Definition store_cards_dim (card_obs : list CardObs) (st : State) : State :=
  {| seen_matches := seen_matches st;
     scanned_entries := scanned_entries st;
     deduped_matches := deduped_matches st;
     cards_dim :=
       foldl (λ d c, if Py.truthy_str (card_name c) then <[card_id c := card_name c]> d else d)
             (cards_dim st) card_obs;
     deck_hash_to_type := deck_hash_to_type st;
     deck_hash_to_cards := deck_hash_to_cards st;
     player_decks_top := player_decks_top st;
     meta_deck_types := meta_deck_types st;
     meta_type_deck_ids := meta_type_deck_ids st;
     meta_type_cards := meta_type_cards st |}.

(** A change of the four counter maps, everything else kept. *)
Definition with_counters
    (fp : gmap (string * string) Counter → gmap (string * string) Counter)
    (ft : gmap string Counter → gmap string Counter)
    (fd : gmap (string * string) Counter → gmap (string * string) Counter)
    (fc : gmap (string * Z * string) Counter → gmap (string * Z * string) Counter)
    (st : State) : State :=
  {| seen_matches := seen_matches st;
     scanned_entries := scanned_entries st;
     deduped_matches := deduped_matches st;
     cards_dim := cards_dim st;
     deck_hash_to_type := deck_hash_to_type st;
     deck_hash_to_cards := deck_hash_to_cards st;
     player_decks_top := fp (player_decks_top st);
     meta_deck_types := ft (meta_deck_types st);
     meta_type_deck_ids := fd (meta_type_deck_ids st);
     meta_type_cards := fc (meta_type_cards st) |}.

(** [for c in card_obs: meta_type_cards[(dtype, c.card_id, c.card_variant)]...] *)
Definition count_cards (dtype : string) (won : bool) (card_obs : list CardObs)
    (d : gmap (string * Z * string) Counter) : gmap (string * Z * string) Counter :=
  foldl (λ d c, count_use (dtype, card_id c, card_variant c) won d) d card_obs.

(** [[c.card_name for c in card_obs if c.card_name]] *)
Definition names_for_classifier (card_obs : list CardObs) : list string :=
  card_name <$> filter (λ c, Py.truthy_str (card_name c) = true) card_obs.

(** [[(str(c.card_id), c.card_variant) for c in card_obs]] *)
Definition card_keys (card_obs : list CardObs) : list CardKey :=
  (λ c, (Py.str_of_int (card_id c), card_variant c)) <$> card_obs.

Definition deck_hash (card_obs : list CardObs) : string :=
  deck_hash_from_signature (canonical_deck_signature (card_keys card_obs)).

Section main.
(** The rows of the card metadata file, the manual override table and the
    battle log of each player: what [main] reads from outside. *)
Variable rows : list CardMeta.
Variable deck_type_overrides : gmap string string.
Variable get_player_battlelog : string → list Battle.
(** [top_tags] *)
Variable top_tags : gset string.

(** [deck_type_overrides.get(dh) or classify_deck(names_for_classifier)] *)
Definition resolve_deck_type (dh : string) (names : list string) : string :=
  match deck_type_overrides !! dh with
  | Some dt => if Py.truthy_str dt then dt
               else classify_deck (card_meta_by_name rows) names
  | None => classify_deck (card_meta_by_name rows) names
  end.

(** The aggregation of one extracted deck: the body of the loop over the
    two sides, after the extraction. *)
Definition aggregate (b : Battle) (tag : string) (card_obs : list CardObs)
    (st : State) : State :=
  let dh := deck_hash card_obs in
  let dtype := resolve_deck_type dh (names_for_classifier card_obs) in
  let won := _participant_is_win_ranked_1v1 b tag in
  let st := store_deck_dims dh dtype card_obs st in
  let st := store_cards_dim card_obs st in
  let st := with_counters id (count_use dtype won) id id st in
  let st := with_counters id id (count_use (dtype, dh) won) id st in
  let st := with_counters id id id (count_cards dtype won card_obs) st in
  if decide (tag ∈ top_tags)
  then with_counters (count_use (tag, dh) won) id id id st
  else st.

(** The body of [for part in (team[0], opp[0])]. *)
Definition process_participant (b : Battle) (st : State) (part : Participant) : State :=
  let tag := _normalize_tag (p_tag part) in
  if negb (Py.truthy_str tag) then st
  else
    match _extract_8_cards (load_card_metadata rows) part with
    | None => st
    | Some card_obs => aggregate b tag card_obs st
    end.

(** The body of [for b in battles]. *)
Definition scan_battle (st : State) (b : Battle) : State :=
  if negb (is_ranked_1v1_battle b) then st
  else
    let mh := match_hash b in
    if decide (mh ∈ seen_matches st) then st
    else
      let st := mark_seen mh st in
      match list_or (b_team b), list_or (b_opponent b) with
      | [t0], [o0] => foldl (process_participant b) st [t0; o0]
      | _, _ => st
      end.

(** The body of [for pl in top_players]. *)
Definition scan_player (st : State) (pl : TopPlayer) : State :=
  let battles := get_player_battlelog (player_tag pl) in
  let st := add_scanned (Z.of_nat (length battles)) st in
  foldl scan_battle st battles.

Definition scan (top_players : list TopPlayer) : State :=
  foldl scan_player init_state top_players.
End main.

(** The second pass: [player_type_cards_top] from [player_decks_top]. The
    additions commute, so the order in which the entries are visited does not
    show in the result. *)
Definition fan_out (st : State) (k : string * string) (rec : Counter)
    (acc : gmap (string * string * Z * string) Counter)
  : gmap (string * string * Z * string) Counter :=
  let '(ptag, dh) := k in
  let dtype := default "Hybrid" (deck_hash_to_type st !! dh) in
  foldl (λ acc c,
           add_wins (ptag, dtype, card_id c, card_variant c) (wins rec)
             (add_uses (ptag, dtype, card_id c, card_variant c) (uses rec) acc))
        acc (default [] (deck_hash_to_cards st !! dh)).

Definition player_type_cards_top (st : State) : gmap (string * string * Z * string) Counter :=
  map_fold (fan_out st) ∅ (player_decks_top st).

(** [main] up to the summary: the ranking is normalised, the logs of the
    ranked players are scanned, and the per-card player counters derived. *)
Definition main_scan (rows : list CardMeta) (deck_type_overrides : gmap string string)
    (raw : list RawPlayer) (get_player_battlelog : string → list Battle) : State :=
  let top_players := top_players_from 1 raw in
  let top_tags : gset string := list_to_set (player_tag <$> top_players) in
  scan rows deck_type_overrides get_player_battlelog top_tags top_players.

(* ===================================================================== *)
(** * Vocabulary of the statements *)
(* ===================================================================== *)

(** A string that [lstrip] leaves alone: empty, or starting with a character
    that is not white space. *)
Definition no_leading_space (s : string) : Prop :=
  match s with
  | EmptyString => True
  | String a _ => Py.isspace a = false
  end.

(** The elixir costs that [_precompute_deck_values] collects. *)
Definition known_elixirs (M : gmap string CardMeta) (cards : list string) : list Q :=
  omap (λ m : option CardMeta, m ≫= cm_elixir) (_get_card_meta M <$> cards).

(** The archetype that [aggregate] counts a deck under. *)
Definition deck_type_of (rows : list CardMeta) (deck_type_overrides : gmap string string)
    (card_obs : list CardObs) : string :=
  resolve_deck_type rows deck_type_overrides (deck_hash card_obs) (names_for_classifier card_obs).

(** One more use, and one more win when [won]. *)
Definition bump (won : bool) (c : Counter) : Counter :=
  {| uses := uses c + 1; wins := wins c + (if won then 1 else 0) |}.

(** [wins ≤ uses], with both counted from 0. *)
Definition counter_ok (c : Counter) : Prop := 0 ≤ wins c ≤ uses c.

(** Every counter of a map has [wins ≤ uses]. *)
Definition map_ok `{Countable K} (d : gmap K Counter) : Prop :=
  ∀ k c, d !! k = Some c → counter_ok c.

(** The keys of [meta_type_cards] that a deck touches. *)
Definition card_counter_keys (dtype : string) (obs : list CardObs) : list (string * Z * string) :=
  (λ c, (dtype, card_id c, card_variant c)) <$> obs.

(** [int(p.get("crowns") or 0)] *)
Definition crowns_of (p : Participant) : Z := Py.int_or (p_crowns p) 0.

(** All four counter maps of a state keep [wins ≤ uses]. *)
Definition counters_ok (st : State) : Prop :=
  map_ok (player_decks_top st) ∧ map_ok (meta_deck_types st)
  ∧ map_ok (meta_type_deck_ids st) ∧ map_ok (meta_type_cards st).

(** The conditions under which [scan_battle] reaches [aggregate] for the
    participant [part] of [b]. *)
Definition aggregated (rows : list CardMeta) (b : Battle) (part : Participant) (obs : list CardObs) : Prop :=
  is_ranked_1v1_battle b = true
  ∧ (∃ t0 o0, list_or (b_team b) = [t0] ∧ list_or (b_opponent b) = [o0]
              ∧ (part = t0 ∨ part = o0))
  ∧ _normalize_tag (p_tag part) ≠ ""
  ∧ _extract_8_cards (load_card_metadata rows) part = Some obs.

(** The sum of [f] over the counters whose key is selected by [sel]. *)
Definition total `{Countable K} (f : Counter → Z) (sel : K → bool) (d : gmap K Counter) : Z :=
  map_fold (λ k c acc, if sel k then acc + f c else acc) 0 d.

(** Every deck a player counter refers to is stored, with its 8 cards. *)
Definition decks_ok (st : State) : Prop :=
  (∀ dh, is_Some (deck_hash_to_type st !! dh) → is_Some (deck_hash_to_cards st !! dh))
  ∧ (∀ dh obs, deck_hash_to_cards st !! dh = Some obs →
               length obs = 8%nat ∧ NoDup (obs_key <$> obs))
  ∧ (∀ k, is_Some (player_decks_top st !! k) → is_Some (deck_hash_to_type st !! k.2)).

(** The archetype and the cards that the second pass reads for a deck. *)
Definition stored_type (st : State) (dh : string) : string :=
  default "Hybrid" (deck_hash_to_type st !! dh).
Definition stored_cards (st : State) (dh : string) : list CardObs :=
  default [] (deck_hash_to_cards st !! dh).

(** The per-card counters of a player under an archetype. *)
Definition sel_player_type (ptag dtype : string) (k : string * string * Z * string) : bool :=
  bool_decide (k.1.1.1 = ptag ∧ k.1.1.2 = dtype).

(** The per-deck counters of a player for the decks of an archetype. *)
Definition sel_player_decks (st : State) (ptag dtype : string) (k : string * string) : bool :=
  bool_decide (k.1 = ptag ∧ stored_type st k.2 = dtype).

(** The per-deck counters of a player for the decks of an archetype that
    hold a given card. *)
Definition sel_player_decks_with (st : State) (ptag dtype : string) (card : Z * string)
    (k : string * string) : bool :=
  bool_decide (k.1 = ptag ∧ stored_type st k.2 = dtype
               ∧ card ∈ obs_key <$> stored_cards st k.2).

(** [top_tags] of [main]. *)
Definition top_tags_of (raw : list RawPlayer) : gset string :=
  list_to_set (player_tag <$> top_players_from 1 raw).

(* ===================================================================== *)
(** * Further functions of the pipeline *)
(* ===================================================================== *)

(** [_compute_result] of [src/analysist/battle_filters.py]. *)
Definition _compute_result (team_crowns opp_crowns : Z) : string :=
  if opp_crowns <? team_crowns then "win"
  else if team_crowns <? opp_crowns then "loss"
  else "draw".

(** [load_deck_type_overrides]: [rows] is what the query on
    [deck_type_overrides] returns, a [(deck_hash, deck_type)] pair per row
    with [None] for a NULL column. *)
Definition load_deck_type_overrides (rows : list (option string * option string))
  : gmap string string :=
  foldl (λ overrides r,
           match r with
           | (Some dh, Some dt) =>
               if Py.truthy_str dh && Py.truthy_str dt then <[dh := dt]> overrides
               else overrides
           | _ => overrides
           end) ∅ rows.

(** [deck_type_labels = sorted(set(deck_hash_to_type.values()))] of [main]. *)
Definition deck_type_labels (st : State) : list string :=
  Py.sort String.leb (elements (list_to_set (snd <$> map_to_list (deck_hash_to_type st)) : gset string)).

(** [dc_rows] of [main]: a row [(deck_hash, card_id, card_variant, slot)] per
    card of each stored deck. *)
Definition dc_rows (st : State) : list (string * Z * string * Z) :=
  map_to_list (deck_hash_to_cards st) ≫=
    (λ e, (λ c, (e.1, card_id c, card_variant c, slot c)) <$> e.2).

(** The accumulation loop of [summarize_deck_types] of
    [src/analysist/deck_type.py]: the two dictionaries [my_stats] and
    [opp_stats] as they are when the loop ends. (The lists that the function
    returns add a win rate in floating point to each bucket and are sorted by
    it; they are not part of the model.) *)
Module Summary.

(** One entry of [battles_normalized]. *)
Record NormalizedBattle := {
  result : option string;
  my_cards : option (list string);
  opp_cards : option (list string)
}.

(** [{"games": g, "wins": w, "losses": l, "draws": d}] *)
Record Bucket := { games : Z; wins : Z; losses : Z; draws : Z }.

Definition empty_bucket : Bucket := {| games := 0; wins := 0; losses := 0; draws := 0 |}.

(** The outcome as one side sees it. *)
Inductive Outcome := Win | Loss | Draw.

(** [bucket["games"] += 1] and the counter of the outcome. *)
Definition record_game (o : Outcome) (b : Bucket) : Bucket :=
  match o with
  | Win => {| games := games b + 1; wins := wins b + 1; losses := losses b; draws := draws b |}
  | Loss => {| games := games b + 1; wins := wins b; losses := losses b + 1; draws := draws b |}
  | Draw => {| games := games b + 1; wins := wins b; losses := losses b; draws := draws b + 1 |}
  end.

(** [_ensure_bucket(stats, key)] followed by the update of the bucket. *)
Definition update_bucket (key : string) (o : Outcome) (stats : gmap string Bucket)
  : gmap string Bucket :=
  <[key := record_game o (default empty_bucket (stats !! key))]> stats.

(** The branch taken on [result] for the own deck, and for the opponent's
    deck, where win and loss are exchanged. *)
Definition my_outcome (r : option string) : Outcome :=
  if decide (r = Some "win") then Win else if decide (r = Some "loss") then Loss else Draw.
Definition opp_outcome (r : option string) : Outcome :=
  if decide (r = Some "win") then Loss else if decide (r = Some "loss") then Win else Draw.

Section summarize.
Variable _CARD_META_BY_NAME : gmap string CardMeta.

(** [classify_deck(cards) if len(cards) == 8 else None] *)
Definition deck_type_if_8 (cards : list string) : option string :=
  if (length cards =? 8)%nat then Some (classify_deck _CARD_META_BY_NAME cards) else None.

(** The body of [for battle in battles_normalized]. *)
Definition summarize_step (stats : gmap string Bucket * gmap string Bucket)
    (battle : NormalizedBattle) : gmap string Bucket * gmap string Bucket :=
  let my_type := deck_type_if_8 (list_or (my_cards battle)) in
  let opp_type := deck_type_if_8 (list_or (opp_cards battle)) in
  let my_stats :=
    match my_type with
    | Some ty => update_bucket ty (my_outcome (result battle)) stats.1
    | None => stats.1
    end in
  let opp_stats :=
    match opp_type with
    | Some ty => update_bucket ty (opp_outcome (result battle)) stats.2
    | None => stats.2
    end in
  (my_stats, opp_stats).

Definition summarize_stats (battles_normalized : list NormalizedBattle)
  : gmap string Bucket * gmap string Bucket :=
  foldl summarize_step (∅, ∅) battles_normalized.
End summarize.

(** The sum of [f] over the buckets of a dictionary. *)
Definition sum_buckets (f : Bucket → Z) (stats : gmap string Bucket) : Z :=
  map_fold (λ _ b acc, acc + f b) 0 stats.

End Summary.

(* ===================================================================== *)
(** * Further vocabulary *)
(* ===================================================================== *)

(** A character of a decimal numeral: a digit or the minus sign. *)
Definition numeral_char (a : ascii) : Prop :=
  a = "-"%char ∨ (48 ≤ N_of_ascii a ≤ 57)%N.

(** A lowercase hexadecimal digit. *)
Definition hex_char (a : ascii) : Prop :=
  (48 ≤ N_of_ascii a ≤ 57)%N ∨ (97 ≤ N_of_ascii a ≤ 102)%N.

(** The characters of a string. *)
Fixpoint chars (s : string) : list ascii :=
  match s with
  | EmptyString => []
  | String a s' => a :: chars s'
  end.

(** The three variant labels. *)
Definition is_variant (v : string) : Prop := v = "normal" ∨ v = "evo" ∨ v = "hero".

(** The display name that [_extract_8_cards] gives a raw card. *)
Definition resolved_name (card_meta : gmap string CardMeta) (c : RawCard) (cid : Z) : string :=
  let nm := Py.strip (default "" (rc_name c)) in
  if decide (nm = "") then default "" (card_name_from_id card_meta (Py.str_of_int cid)) else nm.

(** The last row of the card table with a given identifier. *)
Definition last_row_with_id (rows : list CardMeta) (i : Z) : option CardMeta :=
  last (filter (λ r, cm_id r = i) rows).

(** All counters of a map, selected. *)
Definition sel_all {K} (k : K) : bool := true.

(** The counters of one archetype in [meta_type_deck_ids]. *)
Definition sel_type_decks (dtype : string) (k : string * string) : bool :=
  bool_decide (k.1 = dtype).

(** The counters of one archetype in [meta_type_cards]. *)
Definition sel_type_cards (dtype : string) (k : string * Z * string) : bool :=
  bool_decide (k.1.1 = dtype).

(** The six archetype labels. *)
Definition ARCHETYPES : list string :=
  [ARCHETYPE_SIEGE; ARCHETYPE_BAIT; ARCHETYPE_CYCLE; ARCHETYPE_BRIDGE_SPAM;
   ARCHETYPE_BEATDOWN; ARCHETYPE_HYBRID].

(** The rules of [classify_deck] on the statistics of a deck. *)
Definition cascade (v : DeckValues) : string :=
  if has_xbow v then ARCHETYPE_SIEGE
  else if has_mortar v then ARCHETYPE_SIEGE
  else if (3 <=? bait_pieces v)%nat then ARCHETYPE_BAIT
  else if Qle_bool (four_card_cycle_cost v) (9 # 1) then ARCHETYPE_CYCLE
  else if (2 <=? bridge_spam_count v)%nat then ARCHETYPE_BRIDGE_SPAM
  else if (1 <=? big_tank_count v)%nat && Qle_bool (7 # 2) (avg_elixir v)
       then ARCHETYPE_BEATDOWN
  else ARCHETYPE_HYBRID.

(** The observation that [_extract_8_cards] builds for the raw card [c] with
    identifier [cid] in slot [idx]. *)
Definition observation_of (card_meta : gmap string CardMeta) (idx : Z) (c : RawCard) (cid : Z)
  : CardObs :=
  {| card_id := cid;
     card_name := resolved_name card_meta c cid;
     card_variant := card_variant_from_evolution_level (rc_evolutionLevel c);
     slot := idx |}.

(** The totals of the three meta maps agree, overall and per archetype. *)
Definition meta_consistent (st : State) : Prop :=
  (∀ ty,
     total uses (sel_type_decks ty) (meta_type_deck_ids st) = uses (dd_get (meta_deck_types st) ty)
     ∧ total wins (sel_type_decks ty) (meta_type_deck_ids st)
       = wins (dd_get (meta_deck_types st) ty)
     ∧ total uses (sel_type_cards ty) (meta_type_cards st)
       = 8 * uses (dd_get (meta_deck_types st) ty)
     ∧ total wins (sel_type_cards ty) (meta_type_cards st)
       = 8 * wins (dd_get (meta_deck_types st) ty))
  ∧ total uses sel_all (meta_type_deck_ids st) = total uses sel_all (meta_deck_types st)
  ∧ total wins sel_all (meta_type_deck_ids st) = total wins sel_all (meta_deck_types st)
  ∧ total uses sel_all (meta_type_cards st) = 8 * total uses sel_all (meta_deck_types st)
  ∧ total wins sel_all (meta_type_cards st) = 8 * total wins sel_all (meta_deck_types st).

(** The uses counted over all archetypes, and over all player decks. *)
Definition meta_uses (st : State) : Z := total uses sel_all (meta_deck_types st).
Definition player_uses (st : State) : Z := total uses sel_all (player_decks_top st).

(** How far a piece of the scan may move the counts of a state: it reads no
    new log entry, marks at most [n] matches, counts at most 2 uses per marked
    match, and a player use only together with a meta use. *)
Definition counts_step (n : Z) (st st' : State) : Prop :=
  scanned_entries st' = scanned_entries st
  ∧ 0 ≤ deduped_matches st' - deduped_matches st ≤ n
  ∧ 0 ≤ meta_uses st' - meta_uses st ≤ 2 * (deduped_matches st' - deduped_matches st)
  ∧ 0 ≤ player_uses st' - player_uses st ≤ meta_uses st' - meta_uses st.

(** The natural key [(deck_hash, card_id, card_variant)] of a row of
    [deck_cards]. *)
Definition dc_key (r : string * Z * string * Z) : string * Z * string :=
  (r.1.1.1, r.1.1.2, r.1.2).

(** What the dimension and counter maps of a state refer to is there: the
    decks are stored with their type and their 8 cards under their own hash,
    the deck counters are those of stored decks, and the named cards of the
    stored decks are in the card dimension. *)
Definition snapshot_ok (st : State) : Prop :=
  (∀ dh, is_Some (deck_hash_to_type st !! dh) ↔ is_Some (deck_hash_to_cards st !! dh))
  ∧ (∀ dh obs, deck_hash_to_cards st !! dh = Some obs →
               deck_hash obs = dh ∧ length obs = 8%nat ∧ NoDup (obs_key <$> obs)
               ∧ slot <$> obs = [1; 2; 3; 4; 5; 6; 7; 8])
  ∧ (∀ k, is_Some (meta_type_deck_ids st !! k) → is_Some (deck_hash_to_type st !! k.2))
  ∧ (∀ k, is_Some (player_decks_top st !! k) → is_Some (deck_hash_to_type st !! k.2))
  ∧ (∀ dh obs c, deck_hash_to_cards st !! dh = Some obs → c ∈ obs → card_name c ≠ "" →
                 is_Some (cards_dim st !! card_id c)).

(** A segment of a deck signature that can be read back: it is not empty and
    the separator of the segments is not in it. *)
Definition plain_segment (s : string) : Prop :=
  s ≠ "" ∧ "|"%char ∉ chars s.

(** A key as the scan builds it: a decimal identifier and a variant label. *)
Definition pipeline_key (k : CardKey) : Prop :=
  (∃ i : Z, k.1 = Py.str_of_int i) ∧ is_variant k.2.

(** A string of ASCII characters: the strings on which the operations of
    [Py] are those of Python. *)
Definition ascii_string (s : string) : Prop :=
  Forall (λ a, (N_of_ascii a < 128)%N) (chars s).

(** A bucket adds up: every game is a win, a loss or a draw. *)
Definition bucket_ok (b : Summary.Bucket) : Prop :=
  Summary.games b = Summary.wins b + Summary.losses b + Summary.draws b
  ∧ 0 ≤ Summary.wins b ∧ 0 ≤ Summary.losses b ∧ 0 ≤ Summary.draws b
  ∧ 0 < Summary.games b.

(** The battles whose own deck, and whose opponent deck, has 8 names. *)
Definition my_deck_valid (nb : Summary.NormalizedBattle) : Prop :=
  length (list_or (Summary.my_cards nb)) = 8%nat.
Definition opp_deck_valid (nb : Summary.NormalizedBattle) : Prop :=
  length (list_or (Summary.opp_cards nb)) = 8%nat.

(** What the two dictionaries hold after the battles of a list. *)
Definition summary_inv (battles : list Summary.NormalizedBattle)
    (s : gmap string Summary.Bucket * gmap string Summary.Bucket) : Prop :=
  (∀ ty b, s.1 !! ty = Some b → bucket_ok b ∧ ty ∈ ARCHETYPES)
  ∧ (∀ ty b, s.2 !! ty = Some b → bucket_ok b ∧ ty ∈ ARCHETYPES)
  ∧ Summary.sum_buckets Summary.games s.1
    = Z.of_nat (length (filter my_deck_valid battles))
  ∧ Summary.sum_buckets Summary.games s.2
    = Z.of_nat (length (filter opp_deck_valid battles))
  ∧ (Forall (λ nb, my_deck_valid nb ↔ opp_deck_valid nb) battles →
     Summary.sum_buckets Summary.wins s.1 = Summary.sum_buckets Summary.losses s.2
     ∧ Summary.sum_buckets Summary.losses s.1 = Summary.sum_buckets Summary.wins s.2
     ∧ Summary.sum_buckets Summary.draws s.1 = Summary.sum_buckets Summary.draws s.2).

(** The same participant with the entries after the eighth card left out. *)
Definition first_8_cards (p : Participant) : Participant :=
  {| p_tag := p_tag p; p_crowns := p_crowns p; p_cards := Some (take 8 (list_or (p_cards p))) |}.

(* ===================================================================== *)
(** * [src/analysist/battle_filters.py]: normalisation *)
(* ===================================================================== *)

(** A field of a JSON object as [d.get(k, default)] tells the cases apart:
    the key is absent, its value is null, or it has a value. *)
Inductive Field (A : Type) : Type :=
| Absent
| Null
| Value (a : A).
Arguments Absent {A}.
Arguments Null {A}.
Arguments Value {A} a.

(** [d.get(k, default)]: the default for an absent key only; [None] is
    Python's [None], the value of a null field. *)
Definition get_default {A} (f : Field A) (d : A) : option A :=
  match f with Absent => Some d | Null => None | Value a => Some a end.

(** [d.get(k)], which is how the scan and the filter read a field. *)
Definition get {A} (f : Field A) : option A :=
  match f with Value a => Some a | _ => None end.

(** One entry of ["team"] or ["opponent"], and a battle of the log, with the
    crowns and the cards of an entry as [normalize_battle] reads them. *)
Record Entry := {
  e_tag : option string;
  e_crowns : Field Z;
  e_cards : Field (list RawCard)
}.

Record RawBattle := {
  rb_battleTime : option string;
  rb_gameMode : option GameMode;
  rb_type : option string;
  rb_team : option (list Entry);
  rb_opponent : option (list Entry)
}.

(** The same records as the scan and the filter read them. *)
Definition participant_of (e : Entry) : Participant :=
  {| p_tag := e_tag e; p_crowns := get (e_crowns e); p_cards := get (e_cards e) |}.

Definition battle_of (b : RawBattle) : Battle :=
  {| b_battleTime := rb_battleTime b;
     b_gameMode := rb_gameMode b;
     b_type := rb_type b;
     b_team := fmap (M := list) participant_of <$> rb_team b;
     b_opponent := fmap (M := list) participant_of <$> rb_opponent b |}.

(** The same battle as the other participant's log presents it. *)
Definition swap_raw_sides (b : RawBattle) : RawBattle :=
  {| rb_battleTime := rb_battleTime b;
     rb_gameMode := rb_gameMode b;
     rb_type := rb_type b;
     rb_team := rb_opponent b;
     rb_opponent := rb_team b |}.

(** The dictionary that [normalize_battle] returns. *)
Record Normalized := {
  nb_battle_time : option string;
  nb_result : string;
  nb_my_cards : list string;
  nb_opp_cards : list string;
  nb_mode_name : string
}.

(** [team[0] if team else {}] for [team = battle.get("team", [{}])]: the
    first entry of a side; [None] is the empty dictionary, for a side that is
    absent, null or the empty list. *)
Definition first_side (side : option (list Entry)) : option Entry :=
  head (list_or side).

(** [side.get("crowns", 0)] and [side.get("cards", [])]: the value, the
    default on the empty dictionary and for an absent key, and Python's
    [None] for a null. *)
Definition side_crowns (side : option Entry) : option Z :=
  match side with Some e => get_default (e_crowns e) 0 | None => Some 0 end.
Definition side_cards (side : option Entry) : option (list RawCard) :=
  match side with Some e => get_default (e_cards e) [] | None => Some [] end.

(** [[c.get("name", "").strip() for c in cards if ... c.get("name")]] *)
Definition entry_names (cards : list RawCard) : list string :=
  omap (λ c, match rc_name c with
             | Some n => if Py.truthy_str n then Some (Py.strip n) else None
             | None => None
             end) cards.

(** [normalize_battle]; the result is [None] when the source raises: the
    comparison of the crowns in [_compute_result] raises on a [None], and so
    does the loop over the cards. *)
Definition normalize_battle (battle : RawBattle) : option Normalized :=
  let my_side := first_side (rb_team battle) in
  let opp_side := first_side (rb_opponent battle) in
  my_crowns ← side_crowns my_side;
  opp_crowns ← side_crowns opp_side;
  let result := _compute_result my_crowns opp_crowns in
  my_cards ← side_cards my_side;
  opp_cards ← side_cards opp_side;
  Some {| nb_battle_time := rb_battleTime battle;
          nb_result := result;
          nb_my_cards := entry_names my_cards;
          nb_opp_cards := entry_names opp_cards;
          nb_mode_name := Py.str_or (rb_gameMode battle ≫= gm_name)
                            (Py.str_or (rb_type battle) "") |}.

(** The loop of [filter_and_normalize_ranked_1v1]; it raises when a
    normalisation does. *)
Definition filter_and_normalize_ranked_1v1 (battles_raw : list RawBattle)
  : option (list Normalized) :=
  mapM normalize_battle
    (filter (λ b, is_ranked_1v1_battle (battle_of b) = true) battles_raw).

(** A normalised battle as [summarize_deck_types] reads it. *)
Definition summary_input (nb : Normalized) : Summary.NormalizedBattle :=
  {| Summary.result := Some (nb_result nb);
     Summary.my_cards := Some (nb_my_cards nb);
     Summary.opp_cards := Some (nb_opp_cards nb) |}.

(** The result as the other side sees it. *)
Definition flip_result (r : string) : string :=
  if decide (r = "win") then "loss" else if decide (r = "loss") then "win" else r.

(** A normalised battle as the other side sees it. *)
Definition mirror (nb : Normalized) : Normalized :=
  {| nb_battle_time := nb_battle_time nb;
     nb_result := flip_result (nb_result nb);
     nb_my_cards := nb_opp_cards nb;
     nb_opp_cards := nb_my_cards nb;
     nb_mode_name := nb_mode_name nb |}.

(** An entry of a side that makes [normalize_battle] raise: its crowns or
    its cards are null. *)
Definition has_null (side : option Entry) : Prop :=
  ∃ e, side = Some e ∧ (e_crowns e = Null ∨ e_cards e = Null).

(* ===================================================================== *)
(** * Sample data *)
(* ===================================================================== *)

(** A small card table, two players and the battle they played against each
    other, as each of the two battle logs presents it. *)
Module Sample.

Definition row (i : Z) (n : string) (e : Z) (bait spam tank : bool) : CardMeta :=
  {| cm_id := i; cm_name := n; cm_elixir := Some (inject_Z e);
     cm_is_bait_piece := bait; cm_is_bridge_spam_piece := spam; cm_is_big_tank := tank |}.

Definition rows : list CardMeta :=
  [ row 26000000 "Knight" 3 false false false;
    row 26000001 "Archers" 3 false false false;
    row 26000010 "Skeletons" 1 false false false;
    row 26000030 "Ice Spirit" 1 false false false;
    row 28000011 "The Log" 2 false false false;
    row 28000000 "Fireball" 4 false false false;
    row 27000008 "X-Bow" 6 false false false;
    row 27000006 "Tesla" 4 false false false;
    row 28000004 "Goblin Barrel" 3 true false false;
    row 26000026 "Princess" 3 true false false;
    row 26000041 "Goblin Gang" 3 true false false;
    row 26000009 "Golem" 8 false false true;
    row 26000015 "Baby Dragon" 4 false false false;
    row 26000036 "Battle Ram" 4 false true false;
    row 26000046 "Bandit" 3 false true false ].

Definition raw_card (i : Z) : RawCard :=
  {| rc_id := Some i; rc_name := None; rc_evolutionLevel := None |}.

(** X-Bow, Tesla and six cheap cards. *)
Definition siege_cards : list RawCard :=
  raw_card <$> [27000008; 27000006; 26000010; 26000030; 28000011; 28000000; 26000000; 26000001].

(** Seven cards of the table and one card, 99, that the table does not have. *)
Definition spam_cards : list RawCard :=
  raw_card <$> [26000009; 26000015; 26000036; 26000046; 28000000; 26000000; 26000001; 99].

Definition alice : Participant :=
  {| p_tag := Some "#abc"; p_crowns := Some 3; p_cards := Some siege_cards |}.
Definition bob : Participant :=
  {| p_tag := Some "#2pp"; p_crowns := Some 1; p_cards := Some spam_cards |}.

(** The battle as the log of [alice] has it. *)
Definition battle : Battle :=
  {| b_battleTime := Some "20240101T120000.000Z";
     b_gameMode := Some {| gm_id := Some 72000006; gm_name := Some "Ladder" |};
     b_type := Some "PvP";
     b_team := Some [alice];
     b_opponent := Some [bob] |}.

Definition ranking : list RawPlayer :=
  [ {| rp_tag := Some "#ABC"; rp_name := Some "alice"; rp_trophies := Some 9000; rp_rank := Some 1 |};
    {| rp_tag := Some "2pp"; rp_name := Some "bob"; rp_trophies := Some 8990; rp_rank := Some 2 |} ].

(** The two battle logs: each player's log has the battle with that player
    as the team. *)
Definition logs (tag : string) : list Battle :=
  if decide (tag = "#ABC") then [battle]
  else if decide (tag = "#2PP") then [swap_sides battle]
  else [].

Definition run : State := main_scan rows ∅ ranking logs.

(** The decks of the two players, as extracted. *)
Definition siege_obs : list CardObs :=
  default [] (_extract_8_cards (load_card_metadata rows) alice).
Definition spam_obs : list CardObs :=
  default [] (_extract_8_cards (load_card_metadata rows) bob).

(** A participant with 7 cards. *)
Definition carol : Participant :=
  {| p_tag := Some "#CRL"; p_crowns := Some 0; p_cards := Some (take 7 siege_cards) |}.

Definition siege_names : list string :=
  ["X-Bow"; "Tesla"; "Skeletons"; "Ice Spirit"; "The Log"; "Fireball"; "Knight"; "Archers"].

(** Three bait pieces and a four-card cycle of 1 + 1 + 2 + 3 = 7. *)
Definition bait_names : list string :=
  ["Goblin Barrel"; "Princess"; "Goblin Gang"; "Skeletons"; "Ice Spirit"; "The Log";
   "Knight"; "Archers"].

(** Eight names that the card table does not have. *)
Definition unknown_names : list string :=
  ["Card A"; "Card B"; "Card C"; "Card D"; "Card E"; "Card F"; "Card G"; "Card H"].

End Sample.

(** A battle record whose two entries carry one player's tag, written with
    and without the ["#"]: the team entry has 3 crowns, the opponent entry 1. *)
Module SameTag.

Definition opp : Participant :=
  {| p_tag := Some "abc"; p_crowns := Some 1; p_cards := Some Sample.spam_cards |}.

Definition battle : Battle :=
  {| b_battleTime := b_battleTime Sample.battle;
     b_gameMode := b_gameMode Sample.battle;
     b_type := b_type Sample.battle;
     b_team := Some [Sample.alice];
     b_opponent := Some [opp] |}.

Definition logs (tag : string) : list Battle :=
  if decide (tag = "#ABC") then [battle] else [].

End SameTag.

(** Two battles of one ranked player with one deck: in the second the API
    names the first card of the deck ["X-Bow"]. The other side has 7 cards. *)
Module Renamed.

Definition bob_renamed : Participant :=
  {| p_tag := p_tag Sample.bob;
     p_crowns := p_crowns Sample.bob;
     p_cards := Some ({| rc_id := Some 26000009; rc_name := Some "X-Bow";
                         rc_evolutionLevel := None |} :: drop 1 Sample.spam_cards) |}.

Definition first : Battle :=
  {| b_battleTime := b_battleTime Sample.battle;
     b_gameMode := b_gameMode Sample.battle;
     b_type := b_type Sample.battle;
     b_team := Some [Sample.bob];
     b_opponent := Some [Sample.carol] |}.

Definition second : Battle :=
  {| b_battleTime := Some "20240103T090000.000Z";
     b_gameMode := b_gameMode Sample.battle;
     b_type := b_type Sample.battle;
     b_team := Some [bob_renamed];
     b_opponent := Some [Sample.carol] |}.

Definition logs (tag : string) : list Battle :=
  if decide (tag = "#2PP") then [first; second] else [].

Definition run : State := main_scan Sample.rows ∅ (drop 1 Sample.ranking) logs.

End Renamed.

(** Normalised battles for the deck type summary: a win and a draw with two
    decks of 8 names, and a loss where neither side has 8 names. *)
Module SampleSummary.

Definition normalized : list Summary.NormalizedBattle :=
  [ {| Summary.result := Some "win";
       Summary.my_cards := Some Sample.siege_names;
       Summary.opp_cards := Some Sample.bait_names |};
    {| Summary.result := Some "loss";
       Summary.my_cards := None;
       Summary.opp_cards := Some (take 7 Sample.bait_names) |};
    {| Summary.result := None;
       Summary.my_cards := Some Sample.bait_names;
       Summary.opp_cards := Some Sample.unknown_names |} ].

(** A card entry with a name only, as the normalisation reads it. *)
Definition named (n : string) : RawCard :=
  {| rc_id := None; rc_name := Some n; rc_evolutionLevel := None |}.

(** A ranked battle won 2 to 0 by a siege deck against a bait deck whose
    entry has no crowns key, and the same battle in a mode that is not
    ranked. *)
Definition ranked : RawBattle :=
  {| rb_battleTime := Some "20240102T080000.000Z";
     rb_gameMode := Some {| gm_id := Some 72000464; gm_name := Some "Ranked1v1" |};
     rb_type := Some "pathOfLegend";
     rb_team := Some [{| e_tag := Some "#ABC"; e_crowns := Value 2;
                         e_cards := Value (named <$> Sample.siege_names) |}];
     rb_opponent := Some [{| e_tag := Some "#2PP"; e_crowns := Absent;
                             e_cards := Value (named <$> Sample.bait_names) |}] |}.
Definition friendly : RawBattle :=
  {| rb_battleTime := rb_battleTime ranked;
     rb_gameMode := Some {| gm_id := Some 72000001; gm_name := Some "Friendly" |};
     rb_type := Some "friendly";
     rb_team := rb_team ranked;
     rb_opponent := rb_opponent ranked |}.

Definition log : list RawBattle := [ranked; friendly].

Definition normalized_log : list Normalized :=
  default [] (filter_and_normalize_ranked_1v1 log).

End SampleSummary.

(* ===================================================================== *)
(** * The model on concrete inputs *)
(* ===================================================================== *)

Example strip_ex : Py.strip "  #ab c  " = "#ab c".
Proof. reflexivity. Qed.

Example upper_ex : Py.upper "#2pp0lq-z{" = "#2PP0LQ-Z{".
Proof. reflexivity. Qed.

Example str_of_int_ex :
  Py.str_of_int 26000015 = "26000015" ∧ Py.str_of_int 0 = "0" ∧ Py.str_of_int (-7) = "-7".
Proof. repeat split; reflexivity. Qed.

Example sha1_empty :
  Hashlib.sha1_hexdigest "" = "da39a3ee5e6b4b0d3255bfef95601890afd80709".
Proof. vm_compute. reflexivity. Qed.

Example sha1_abc :
  Hashlib.sha1_hexdigest "abc" = "a9993e364706816aba3e25717850c26c9cd0d89d".
Proof. vm_compute. reflexivity. Qed.

Example sha1_two_blocks :
  Hashlib.sha1_hexdigest "abcdbcdecdefdefgefghfghighijhijkijkljklmklmnlmnomnopnopq"
  = "84983e441c3bd26ebaae4aa1f95129e5e54670f1".
Proof. vm_compute. reflexivity. Qed.

Example dumps_payload_ex :
  dumps_payload (match_payload Sample.battle)
  = Json.escape_char "{" +:+ Json.dumps_str "battleTime" +:+ ":" +:+ Json.dumps_str "20240101T120000.000Z"
    +:+ "," +:+ Json.dumps_str "mode" +:+ ":" +:+ Json.dumps_str "72000006"
    +:+ "," +:+ Json.dumps_str "opponent" +:+ ":[{" +:+ Json.dumps_str "crowns" +:+ ":1,"
    +:+ Json.dumps_str "tag" +:+ ":" +:+ Json.dumps_str "#2PP" +:+ "}]"
    +:+ "," +:+ Json.dumps_str "team" +:+ ":[{" +:+ Json.dumps_str "crowns" +:+ ":3,"
    +:+ Json.dumps_str "tag" +:+ ":" +:+ Json.dumps_str "#ABC" +:+ "}]}".
Proof. vm_compute. reflexivity. Qed.

Example signature_ex :
  canonical_deck_signature
    [("26000015", "normal"); ("26000063", "evo"); ("2600001", "hero"); ("26000015", "evo")]
  = "2600001:hero|26000015:evo|26000015:normal|26000063:evo".
Proof. vm_compute. reflexivity. Qed.

Example classify_siege_ex :
  classify_deck (card_meta_by_name Sample.rows)
    ["X-Bow"; "Tesla"; "Skeletons"; "Ice Spirit"; "The Log"; "Fireball"; "Knight"; "Archers"]
  = "Siege".
Proof. vm_compute. reflexivity. Qed.

Example classify_cycle_ex :
  classify_deck (card_meta_by_name Sample.rows)
    ["Skeletons"; "Ice Spirit"; "The Log"; "Knight"; "Archers"; "Fireball"; "Baby Dragon"; "Golem"]
  = "Cycle".
Proof. vm_compute. reflexivity. Qed.

(* ===================================================================== *)
(** * Strings: [strip] and [upper] *)
(* ===================================================================== *)

Lemma isspace_upper_char a : Py.isspace (Py.upper_char a) = Py.isspace a.
Proof. destruct a as [[] [] [] [] [] [] [] []]; reflexivity. Qed.

Lemma upper_char_idem a : Py.upper_char (Py.upper_char a) = Py.upper_char a.
Proof. destruct a as [[] [] [] [] [] [] [] []]; reflexivity. Qed.

Lemma upper_idem s : Py.upper (Py.upper s) = Py.upper s.
Proof. induction s as [|a s IH]; simpl; [done|]. by rewrite upper_char_idem, IH. Qed.

Lemma upper_empty_iff s : Py.upper s = EmptyString ↔ s = EmptyString.
Proof. destruct s; simpl; split; congruence. Qed.

Lemma upper_lstrip s : Py.upper (Py.lstrip s) = Py.lstrip (Py.upper s).
Proof.
  induction s as [|a s IH]; simpl; [done|].
  rewrite isspace_upper_char. destruct (Py.isspace a); [done|reflexivity].
Qed.

Lemma upper_rstrip s : Py.upper (Py.rstrip s) = Py.rstrip (Py.upper s).
Proof.
  induction s as [|a s IH]; simpl; [done|].
  rewrite <- IH, isspace_upper_char.
  destruct (Py.rstrip s) as [|b r]; simpl; [|done].
  by destruct (Py.isspace a).
Qed.

Lemma upper_strip s : Py.upper (Py.strip s) = Py.strip (Py.upper s).
Proof. unfold Py.strip. by rewrite upper_rstrip, upper_lstrip. Qed.

Lemma lstrip_no_leading_space s : no_leading_space (Py.lstrip s).
Proof.
  induction s as [|a s IH]; simpl; [done|].
  destruct (Py.isspace a) eqn:Ha; [done|]. exact Ha.
Qed.

Lemma lstrip_fixed s : no_leading_space s → Py.lstrip s = s.
Proof. destruct s as [|a s]; simpl; [done|]. by intros ->. Qed.

Lemma rstrip_no_leading_space s : no_leading_space s → no_leading_space (Py.rstrip s).
Proof.
  destruct s as [|a s]; simpl; [done|]. intros Ha.
  rewrite Ha. by destruct (Py.rstrip s).
Qed.

Lemma rstrip_idem s : Py.rstrip (Py.rstrip s) = Py.rstrip s.
Proof.
  induction s as [|a s IH]; simpl; [done|].
  destruct (Py.rstrip s) as [|b r] eqn:Hr.
  - destruct (Py.isspace a) eqn:Ha; simpl; [done|]. by rewrite Ha.
  - change (Py.rstrip (String a (String b r))) with
      (match Py.rstrip (String b r) with
       | EmptyString => if Py.isspace a then EmptyString else String a EmptyString
       | r' => String a r'
       end).
    by rewrite IH.
Qed.

Lemma strip_idem s : Py.strip (Py.strip s) = Py.strip s.
Proof.
  unfold Py.strip.
  rewrite (lstrip_fixed (Py.rstrip (Py.lstrip s))).
  - apply rstrip_idem.
  - apply rstrip_no_leading_space, lstrip_no_leading_space.
Qed.

Lemma strip_no_leading_space s : no_leading_space (Py.strip s).
Proof. apply rstrip_no_leading_space, lstrip_no_leading_space. Qed.

(** A stripped string keeps a leading character that is not white space. *)
Lemma strip_cons_stripped a s :
  Py.isspace a = false → Py.strip s = s → Py.strip (String a s) = String a s.
Proof.
  intros Ha Hs. unfold Py.strip. simpl. rewrite Ha.
  assert (Py.rstrip s = s) as Hr.
  { rewrite <- Hs at 1. unfold Py.strip. by rewrite rstrip_idem. }
  simpl. rewrite Hr, Ha. by destruct s.
Qed.

Lemma str_or_truthy s d : Py.truthy_str s = true → Py.str_or (Some s) d = s.
Proof. unfold Py.str_or. by intros ->. Qed.

Lemma str_or_empty_default (x : option string) :
  Py.str_or x "" = default "" x.
Proof. destruct x as [[|a s]|]; reflexivity. Qed.

(* ===================================================================== *)
(** * [_normalize_tag] *)
(* ===================================================================== *)

(** The tag after normalisation, from the stripped and uppercased text. *)
Lemma normalize_tag_unfold (tag : option string) :
  let t := Py.upper (Py.strip (default "" tag)) in
  _normalize_tag tag =
    match t with
    | EmptyString => EmptyString
    | String a _ => if ascii_dec a "#" then t else String "#" t
    end.
Proof.
  unfold _normalize_tag. rewrite str_or_empty_default.
  destruct (Py.upper (Py.strip (default "" tag))) as [|a t]; simpl; [done|].
  by destruct (ascii_dec a "#").
Qed.

Lemma normalize_tag_stripped tag : Py.strip (_normalize_tag tag) = _normalize_tag tag.
Proof.
  rewrite normalize_tag_unfold. cbv zeta.
  assert (Py.strip (Py.upper (Py.strip (default "" tag)))
          = Py.upper (Py.strip (default "" tag))) as Hs.
  { by rewrite <- upper_strip, strip_idem. }
  destruct (Py.upper (Py.strip (default "" tag))) as [|a t]; [done|].
  destruct (ascii_dec a "#"); [done|].
  by apply strip_cons_stripped.
Qed.

Lemma normalize_tag_upper tag : Py.upper (_normalize_tag tag) = _normalize_tag tag.
Proof.
  rewrite normalize_tag_unfold. cbv zeta.
  pose proof (upper_idem (Py.strip (default "" tag))) as Hu.
  destruct (Py.upper (Py.strip (default "" tag))) as [|a t]; [done|].
  destruct (ascii_dec a "#"); [done|].
  change (Py.upper (String "#" (String a t))) with (String "#" (Py.upper (String a t))).
  by rewrite Hu.
Qed.

Lemma normalize_tag_shape tag :
  _normalize_tag tag = EmptyString ∨ Py.startswith (_normalize_tag tag) "#" = true.
Proof.
  rewrite normalize_tag_unfold. cbv zeta.
  destruct (Py.upper (Py.strip (default "" tag))) as [|a t]; [by left|right].
  destruct (ascii_dec a "#") as [->|]; reflexivity.
Qed.

Lemma normalize_tag_idempotent tag :
  _normalize_tag (Some (_normalize_tag tag)) = _normalize_tag tag.
Proof.
  rewrite (normalize_tag_unfold (Some _)). cbv zeta. simpl default.
  rewrite normalize_tag_stripped, normalize_tag_upper.
  destruct (normalize_tag_shape tag) as [->|Hs]; [done|].
  destruct (_normalize_tag tag) as [|a t]; [done|].
  simpl in Hs. by destruct (ascii_dec a "#").
Qed.

Lemma normalize_tag_case_insensitive (s s' : string) :
  Py.upper s = Py.upper s' → _normalize_tag (Some s) = _normalize_tag (Some s').
Proof.
  intros Hu. rewrite !normalize_tag_unfold. cbv zeta. simpl default.
  by rewrite !upper_strip, Hu.
Qed.

Lemma rstrip_cons_nonspace a s :
  Py.isspace a = false → Py.rstrip (String a s) = String a (Py.rstrip s).
Proof. intros Ha. simpl. rewrite Ha. by destruct (Py.rstrip s). Qed.

Lemma upper_char_hash a : Py.upper_char a = "#"%char → a = "#"%char.
Proof. destruct a as [[] [] [] [] [] [] [] []]; vm_compute; congruence. Qed.

(** A tag that starts with a character other than white space and ["#"]
    normalises as the same tag with ["#"] in front. *)
Lemma normalize_tag_hash_insensitive (a : ascii) (s : string) :
  Py.isspace a = false → a ≠ "#"%char →
  _normalize_tag (Some (String "#" (String a s))) = _normalize_tag (Some (String a s)).
Proof.
  intros Ha Hne. rewrite !normalize_tag_unfold. cbv zeta. simpl default.
  unfold Py.strip.
  rewrite (lstrip_fixed (String "#" (String a s))) by reflexivity.
  rewrite (lstrip_fixed (String a s)) by exact Ha.
  rewrite (rstrip_cons_nonspace "#") by reflexivity.
  rewrite (rstrip_cons_nonspace a) by exact Ha.
  simpl. destruct (ascii_dec (Py.upper_char a) "#") as [He|]; [|done].
  by apply upper_char_hash in He.
Qed.

(* ===================================================================== *)
(** * The stable sort *)
(* ===================================================================== *)

Section sort_facts.
Context {A : Type} (leb : A → A → bool).

Let R : relation A := λ x y, leb x y = true.

Hypothesis leb_total : ∀ x y, leb x y = true ∨ leb y x = true.

Lemma insert_sorted_perm x l : Py.insert_sorted leb x l ≡ₚ x :: l.
Proof.
  induction l as [|y l IH]; simpl; [done|].
  destruct (leb x y); [done|]. rewrite IH. apply Permutation_swap.
Qed.

Lemma sort_perm l : Py.sort leb l ≡ₚ l.
Proof.
  induction l as [|x l IH]; simpl; [done|].
  by rewrite insert_sorted_perm, IH.
Qed.

Lemma insert_sorted_Sorted x l : Sorted R l → Sorted R (Py.insert_sorted leb x l).
Proof.
  induction 1 as [|y l Hl IH Hhd]; simpl.
  - repeat constructor.
  - destruct (leb x y) eqn:Hxy.
    + constructor; [by constructor|]. by constructor.
    + constructor; [exact IH|].
      assert (R y x) as Hyx by (destruct (leb_total x y); [congruence|done]).
      destruct Hhd as [|z l' Hyz]; simpl; [by constructor|].
      destruct (leb x z); by constructor.
Qed.

Lemma sort_Sorted l : Sorted R (Py.sort leb l).
Proof.
  induction l as [|x l IH]; simpl; [constructor|]. by apply insert_sorted_Sorted.
Qed.

(** With an order on the whole element, the sorted list depends on the
    members only. *)
Lemma sort_perm_eq `{!Transitive R, !AntiSymm (=) R} l l' :
  l ≡ₚ l' → Py.sort leb l = Py.sort leb l'.
Proof.
  intros Hp. apply (Sorted_unique R); [apply sort_Sorted..|].
  by rewrite !sort_perm.
Qed.
End sort_facts.

(* ===================================================================== *)
(** * [canonical_deck_signature] and [deck_hash_from_signature] *)
(* ===================================================================== *)

Lemma string_leb_le s1 s2 : String.leb s1 s2 = true ↔ String.le s1 s2.
Proof. unfold String.le. by rewrite Is_true_true. Qed.

Lemma cardkey_leb_total x y : cardkey_leb x y = true ∨ cardkey_leb y x = true.
Proof.
  unfold cardkey_leb.
  destruct (decide (x.1 = y.1)) as [He|Hne].
  - rewrite decide_True by done. rewrite !string_leb_le. apply String.le_total.
  - rewrite decide_False by congruence. rewrite !string_leb_le. apply String.le_total.
Qed.

Local Instance cardkey_leb_trans : Transitive (λ x y : CardKey, cardkey_leb x y = true).
Proof.
  intros x y z. unfold cardkey_leb.
  destruct (decide (x.1 = y.1)) as [Hxy|Hxy], (decide (y.1 = z.1)) as [Hyz|Hyz];
    rewrite !string_leb_le; intros H1 H2.
  - rewrite decide_True by congruence. apply string_leb_le. by etrans.
  - rewrite decide_False by congruence. apply string_leb_le. by rewrite Hxy.
  - rewrite decide_False by congruence. apply string_leb_le. by rewrite <- Hyz.
  - destruct (decide (x.1 = z.1)) as [Hxz|Hxz].
    + exfalso. apply Hxy. rewrite <- Hxz in H2. by apply (anti_symm String.le).
    + apply string_leb_le. by etrans.
Qed.

Local Instance cardkey_leb_antisym : AntiSymm (=) (λ x y : CardKey, cardkey_leb x y = true).
Proof.
  intros [x1 x2] [y1 y2]. unfold cardkey_leb. simpl.
  destruct (decide (x1 = y1)) as [->|Hne].
  - rewrite decide_True by done. rewrite !string_leb_le. intros H1 H2.
    f_equal. by apply (anti_symm String.le).
  - rewrite decide_False by congruence. rewrite !string_leb_le. intros H1 H2.
    exfalso. apply Hne. by apply (anti_symm String.le).
Qed.

Lemma card_keys_perm (obs obs' : list CardObs) :
  obs_key <$> obs ≡ₚ obs_key <$> obs' → card_keys obs ≡ₚ card_keys obs'.
Proof.
  intros Hp. unfold card_keys.
  assert (∀ l : list CardObs,
            (λ c, (Py.str_of_int (card_id c), card_variant c)) <$> l
            = (λ k : Z * string, (Py.str_of_int k.1, k.2)) <$> (obs_key <$> l)) as Hk.
  { intros l. by rewrite <- list_fmap_compose. }
  rewrite !Hk. by apply fmap_Permutation.
Qed.

(** C2. The signature of a list of [(card_id, variant)] pairs, and so the
    deck hash computed from it, is the same for every permutation of the
    list; for two extractions whose cards are the same up to the order of the
    slots, the pipeline computes one deck hash. *)
Theorem deck_signature_permutation_invariant
    (cards cards' : list CardKey) (obs obs' : list CardObs) :
  cards ≡ₚ cards' →
  obs_key <$> obs ≡ₚ obs_key <$> obs' →
  canonical_deck_signature cards = canonical_deck_signature cards'
  ∧ deck_hash_from_signature (canonical_deck_signature cards)
    = deck_hash_from_signature (canonical_deck_signature cards')
  ∧ deck_hash obs = deck_hash obs'.
Proof.
  intros Hc Ho.
  assert (∀ l l' : list CardKey, l ≡ₚ l' →
            canonical_deck_signature l = canonical_deck_signature l') as Hsig.
  { intros l l' Hp. unfold canonical_deck_signature. cbv zeta.
    by rewrite (sort_perm_eq cardkey_leb cardkey_leb_total l l' Hp). }
  split_and!.
  - by apply Hsig.
  - by rewrite (Hsig _ _ Hc).
  - unfold deck_hash. by rewrite (Hsig _ _ (card_keys_perm _ _ Ho)).
Qed.

(* ===================================================================== *)
(** * [classify_deck] *)
(* ===================================================================== *)

Section classify_facts.
Variable M : gmap string CardMeta.

Lemma has_xbow_iff cards :
  has_xbow (_precompute_deck_values M cards) = true ↔ SIEGE_XBOW ∈ cards.
Proof.
  unfold _precompute_deck_values.
  destruct (length _ =? 0)%nat; simpl; apply bool_decide_eq_true.
Qed.

Lemma has_mortar_iff cards :
  has_mortar (_precompute_deck_values M cards) = true ↔ SIEGE_MORTAR ∈ cards.
Proof.
  unfold _precompute_deck_values.
  destruct (length _ =? 0)%nat; simpl; apply bool_decide_eq_true.
Qed.

Lemma known_elixirs_none cards :
  (∀ c, c ∈ cards → (M !! c) ≫= cm_elixir = None) → known_elixirs M cards = [].
Proof.
  unfold known_elixirs, _get_card_meta.
  induction cards as [|c cards IH]; intros Hc; simpl; [done|].
  rewrite (Hc c) by left. apply IH. intros c' Hc'. apply Hc. by right.
Qed.

Lemma default_stats cards :
  known_elixirs M cards = [] →
  avg_elixir (_precompute_deck_values M cards) = (3 # 1)%Q
  ∧ four_card_cycle_cost (_precompute_deck_values M cards) = (12 # 1)%Q.
Proof.
  unfold known_elixirs, _precompute_deck_values. intros ->. by simpl.
Qed.

(** The cascade, rule by rule: a label is returned exactly when its rule
    holds and no earlier rule does. *)
Lemma classify_deck_cascade cards :
  let v := _precompute_deck_values M cards in
  let siege := has_xbow v || has_mortar v in
  let bait := (3 <=? bait_pieces v)%nat in
  let cycle := Qle_bool (four_card_cycle_cost v) (9 # 1) in
  let spam := (2 <=? bridge_spam_count v)%nat in
  let beat := (1 <=? big_tank_count v)%nat && Qle_bool (7 # 2) (avg_elixir v) in
  cards ≠ [] →
  (classify_deck M cards = ARCHETYPE_SIEGE ↔ siege = true)
  ∧ (classify_deck M cards = ARCHETYPE_BAIT ↔ siege = false ∧ bait = true)
  ∧ (classify_deck M cards = ARCHETYPE_CYCLE ↔
       siege = false ∧ bait = false ∧ cycle = true)
  ∧ (classify_deck M cards = ARCHETYPE_BRIDGE_SPAM ↔
       siege = false ∧ bait = false ∧ cycle = false ∧ spam = true)
  ∧ (classify_deck M cards = ARCHETYPE_BEATDOWN ↔
       siege = false ∧ bait = false ∧ cycle = false ∧ spam = false ∧ beat = true)
  ∧ (classify_deck M cards = ARCHETYPE_HYBRID ↔
       siege = false ∧ bait = false ∧ cycle = false ∧ spam = false ∧ beat = false).
Proof.
  intros v siege bait cycle spam beat Hne.
  assert (classify_deck M cards =
            if has_xbow v then ARCHETYPE_SIEGE
            else if has_mortar v then ARCHETYPE_SIEGE
            else if bait then ARCHETYPE_BAIT
            else if cycle then ARCHETYPE_CYCLE
            else if spam then ARCHETYPE_BRIDGE_SPAM
            else if beat then ARCHETYPE_BEATDOWN
            else ARCHETYPE_HYBRID) as ->.
  { destruct cards; [done|reflexivity]. }
  subst siege.
  destruct (has_xbow v), (has_mortar v), bait, cycle, spam, beat; simpl;
    unfold ARCHETYPE_SIEGE, ARCHETYPE_BAIT, ARCHETYPE_CYCLE, ARCHETYPE_BRIDGE_SPAM,
      ARCHETYPE_BEATDOWN, ARCHETYPE_HYBRID;
    repeat split; intros; destruct_and?; congruence.
Qed.
End classify_facts.

(** C3. [classify_deck] is a cascade in which the first rule that holds
    decides: a card list with the X-Bow card is Siege whatever its elixir
    costs are, and a card list with at least 3 bait pieces and neither siege
    card is Bait, also when its four-card cycle cost is at most 9. *)
Theorem classify_deck_precedence (M : gmap string CardMeta) (cards : list string) :
  (SIEGE_XBOW ∈ cards → classify_deck M cards = ARCHETYPE_SIEGE)
  ∧ (SIEGE_XBOW ∉ cards → SIEGE_MORTAR ∉ cards →
     (3 ≤ bait_pieces (_precompute_deck_values M cards))%nat →
     classify_deck M cards = ARCHETYPE_BAIT)
  ∧ (cards ≠ [] →
     (classify_deck M cards = ARCHETYPE_CYCLE) ↔
       (SIEGE_XBOW ∉ cards) ∧ (SIEGE_MORTAR ∉ cards)
       ∧ (bait_pieces (_precompute_deck_values M cards) < 3)%nat
       ∧ Qle_bool (four_card_cycle_cost (_precompute_deck_values M cards)) (9 # 1) = true).
Proof.
  split_and!.
  - intros Hx.
    assert (cards ≠ []) as Hne by (intros ->; by apply not_elem_of_nil in Hx).
    apply (classify_deck_cascade M cards Hne).
    apply (has_xbow_iff M) in Hx. by rewrite Hx.
  - intros Hx Hm Hb.
    assert (cards ≠ []) as Hne.
    { intros ->. unfold _precompute_deck_values in Hb. simpl in Hb. lia. }
    apply (classify_deck_cascade M cards Hne). split.
    + apply orb_false_intro; apply not_true_is_false.
      * by rewrite has_xbow_iff.
      * by rewrite has_mortar_iff.
    + by apply Nat.leb_le.
  - intros Hne.
    destruct (classify_deck_cascade M cards Hne) as (_ & _ & -> & _).
    rewrite orb_false_iff, Nat.leb_gt.
    rewrite <- !not_true_iff_false, has_xbow_iff, has_mortar_iff. tauto.
Qed.

(** C9. For a card list that is not empty and has no card with a known
    elixir cost, the average elixir is 3.0 and the four-card cycle cost 12.0,
    the cycle rule (cost at most 9) does not hold, and the list is not
    classified as Cycle. *)
Theorem unknown_deck_defaults (M : gmap string CardMeta) (cards : list string) :
  cards ≠ [] →
  (∀ c, c ∈ cards → (M !! c) ≫= cm_elixir = None) →
  avg_elixir (_precompute_deck_values M cards) = (3 # 1)%Q
  ∧ four_card_cycle_cost (_precompute_deck_values M cards) = (12 # 1)%Q
  ∧ Qle_bool (four_card_cycle_cost (_precompute_deck_values M cards)) (9 # 1) = false
  ∧ classify_deck M cards ≠ ARCHETYPE_CYCLE.
Proof.
  intros Hne Hc.
  destruct (default_stats M cards (known_elixirs_none M cards Hc)) as [Ha Hf].
  split_and!; [done|done|by rewrite Hf|].
  intros Hcy. apply (classify_deck_cascade M cards Hne) in Hcy as (_ & _ & Hq).
  by rewrite Hf in Hq.
Qed.

(* ===================================================================== *)
(** * [_extract_8_cards] *)
(* ===================================================================== *)

Lemma size_list_to_set_le `{Countable K} (l : list K) :
  (size (list_to_set l : gset K) ≤ length l)%nat.
Proof.
  induction l as [|x l IH]; simpl; [done|].
  rewrite size_union_alt, size_singleton.
  assert (size (list_to_set l ∖ {[x]} : gset K) ≤ size (list_to_set l : gset K))%nat.
  { apply subseteq_size. intros y Hy. by apply elem_of_difference in Hy as [? _]. }
  lia.
Qed.

Lemma size_list_to_set_NoDup `{Countable K} (l : list K) :
  size (list_to_set l : gset K) = length l ↔ NoDup l.
Proof.
  split; [|apply size_list_to_set].
  induction l as [|x l IH]; simpl; intros Hs; [constructor|].
  destruct (decide (x ∈ l)) as [Hx|Hx].
  - exfalso. pose proof (size_list_to_set_le l) as Hle.
    rewrite (subseteq_union_1_L {[x]} (list_to_set l : gset K)) in Hs; [lia|].
    apply singleton_subseteq_l. by apply elem_of_list_to_set.
  - rewrite size_union, size_singleton in Hs.
    + constructor; [done|]. apply IH. lia.
    + apply disjoint_singleton_l. by rewrite elem_of_list_to_set.
Qed.

Section extract_facts.
Variable card_meta : gmap string CardMeta.

Lemma observe_card_None idx c : observe_card card_meta idx c = None ↔ rc_id c = None.
Proof. unfold observe_card. destruct (rc_id c); split; congruence. Qed.

Lemma observe_cards_None idx cards :
  observe_cards card_meta idx cards = None ↔ ∃ c, c ∈ cards ∧ rc_id c = None.
Proof.
  revert idx. induction cards as [|c cards IH]; intros idx; simpl.
  - split; [done|]. intros (c & Hc & _). by apply not_elem_of_nil in Hc.
  - destruct (observe_card card_meta idx c) as [x|] eqn:Hx.
    + destruct (observe_cards card_meta (idx + 1) cards) as [out|] eqn:Hout.
      * split; [done|]. intros (c' & Hc' & Hid).
        apply elem_of_cons in Hc' as [->|Hc'].
        -- apply (observe_card_None idx) in Hid. congruence.
        -- assert (observe_cards card_meta (idx + 1) cards = None) as Hn
             by (apply IH; eauto).
           congruence.
      * split; [|done]. intros _. apply IH in Hout as (c' & Hc' & Hid).
        exists c'. split; [by right|done].
    + split; [|done]. intros _. exists c. split; [left|by apply (observe_card_None idx)].
Qed.

(** What the loop builds: one observation per entry, with the identifier of
    the entry and the slots counted from [idx]. *)
Lemma observe_cards_Some idx cards out :
  observe_cards card_meta idx cards = Some out →
  length out = length cards
  ∧ Some <$> (card_id <$> out) = rc_id <$> cards
  ∧ slot <$> out = seqZ idx (Z.of_nat (length cards)).
Proof.
  revert idx out. induction cards as [|c cards IH]; intros idx out; simpl.
  - intros [= <-]. done.
  - destruct (observe_card card_meta idx c) as [x|] eqn:Hx; [|done].
    destruct (observe_cards card_meta (idx + 1) cards) as [out'|] eqn:Hout; [|done].
    intros [= <-]. destruct (IH _ _ Hout) as (Hl & Hi & Hs).
    unfold observe_card in Hx. destruct (rc_id c) as [cid|] eqn:Hc; [|done].
    injection Hx as <-. rewrite !fmap_cons. cbn [length card_id slot]. split_and!.
    + by rewrite Hl.
    + by rewrite Hi.
    + rewrite Hs, Nat2Z.inj_succ, (seqZ_cons idx) by lia.
      by rewrite Z.pred_succ.
Qed.

Lemma extract_8_cards_Some participant out :
  _extract_8_cards card_meta participant = Some out ↔
    (8 ≤ length (list_or (p_cards participant)))%nat
    ∧ observe_cards card_meta 1 (take 8 (list_or (p_cards participant))) = Some out
    ∧ NoDup (obs_key <$> out).
Proof.
  unfold _extract_8_cards.
  destruct (length (list_or (p_cards participant)) <? 8)%nat eqn:Hlen.
  { apply Nat.ltb_lt in Hlen. split; [done|]. intros (? & _). lia. }
  apply Nat.ltb_ge in Hlen.
  destruct (observe_cards card_meta 1 (take 8 (list_or (p_cards participant))))
    as [out'|] eqn:Hobs; [|split; [done|by intros (_ & ? & _)]].
  destruct (observe_cards_Some _ _ _ Hobs) as (Hl & _).
  rewrite length_take in Hl.
  assert (length (obs_key <$> out') = 8%nat) as Hl' by (rewrite length_fmap; lia).
  destruct (size (list_to_set (obs_key <$> out') : gset _) =? 8)%nat eqn:Hsz; simpl.
  - apply Nat.eqb_eq in Hsz.
    assert (NoDup (obs_key <$> out')) as Hnd
      by (apply size_list_to_set_NoDup; congruence).
    split; [intros [= <-]; split_and!; [lia|done|done]|].
    by intros (_ & [= <-] & _).
  - apply Nat.eqb_neq in Hsz. split; [done|]. intros (_ & [= <-] & Hnd).
    apply size_list_to_set_NoDup in Hnd. congruence.
Qed.
Lemma extract_8_cards_length participant out :
  _extract_8_cards card_meta participant = Some out →
  length out = 8%nat ∧ NoDup (obs_key <$> out).
Proof.
  intros (Hlen & Hobs & Hnd)%extract_8_cards_Some. split; [|done].
  destruct (observe_cards_Some _ _ _ Hobs) as (Hl & _).
  rewrite length_take in Hl. lia.
Qed.
End extract_facts.

(** C6. The extraction returns no observation exactly when the card list has
    fewer than 8 entries, or one of its first 8 entries has no identifier, or
    the 8 observations built from them do not have 8 distinct
    [(card_id, variant)] pairs. What it returns otherwise is 8 observations,
    in slots 1 to 8, whose pairs are 8 distinct ones. The extraction is a
    function of the participant and the card table and changes neither. *)
Theorem extract_8_cards_spec (card_meta : gmap string CardMeta) (participant : Participant) :
  let cards := list_or (p_cards participant) in
  (_extract_8_cards card_meta participant = None ↔
     (length cards < 8)%nat
     ∨ (∃ c, c ∈ take 8 cards ∧ rc_id c = None)
     ∨ (∃ built, observe_cards card_meta 1 (take 8 cards) = Some built
                 ∧ ¬ NoDup (obs_key <$> built)))
  ∧ (∀ out, _extract_8_cards card_meta participant = Some out →
       length out = 8%nat
       ∧ NoDup (obs_key <$> out)
       ∧ size (list_to_set (obs_key <$> out) : gset (Z * string)) = 8%nat
       ∧ slot <$> out = [1; 2; 3; 4; 5; 6; 7; 8]).
Proof.
  intros cards. split.
  - destruct (_extract_8_cards card_meta participant) as [out|] eqn:He.
    + apply extract_8_cards_Some in He as (Hlen & Hobs & Hnd).
      split; [done|]. intros [Hlt|[Hid|(built & Hb & Hdup)]].
      * subst cards. lia.
      * apply (observe_cards_None card_meta 1) in Hid. subst cards. congruence.
      * subst cards. congruence.
    + split; [|done]. intros _.
      destruct (decide (length cards < 8)%nat) as [|Hlen]; [by left|right].
      destruct (observe_cards card_meta 1 (take 8 cards)) as [built|] eqn:Hobs.
      * right. exists built. split; [done|]. intros Hnd.
        assert (_extract_8_cards card_meta participant = Some built) as Hs.
        { apply extract_8_cards_Some. subst cards. split_and!; [lia|done|done]. }
        congruence.
      * left. by apply observe_cards_None in Hobs.
  - intros out (Hlen & Hobs & Hnd)%extract_8_cards_Some.
    destruct (observe_cards_Some _ _ _ _ Hobs) as (Hl & _ & Hs).
    rewrite length_take in Hl, Hs.
    replace (8 `min` length (list_or (p_cards participant)))%nat with 8%nat in * by lia.
    split_and!; [done|done| |done].
    rewrite size_list_to_set by done. by rewrite length_fmap.
Qed.

(* ===================================================================== *)
(** * The aggregation of one deck *)
(* ===================================================================== *)

Section aggregate_facts.
Variable rows : list CardMeta.
Variable deck_type_overrides : gmap string string.
Variable top_tags : gset string.

Lemma aggregate_seen_matches b tag obs st :
  seen_matches (aggregate rows deck_type_overrides top_tags b tag obs st) = seen_matches st.
Proof.
  unfold aggregate, store_deck_dims.
  destruct (deck_hash_to_type st !! deck_hash obs); case_decide; reflexivity.
Qed.

Lemma aggregate_deduped_matches b tag obs st :
  deduped_matches (aggregate rows deck_type_overrides top_tags b tag obs st) = deduped_matches st.
Proof.
  unfold aggregate, store_deck_dims.
  destruct (deck_hash_to_type st !! deck_hash obs); case_decide; reflexivity.
Qed.

Lemma aggregate_deck_hash_to_type b tag obs st :
  deck_hash_to_type (aggregate rows deck_type_overrides top_tags b tag obs st) =
    match deck_hash_to_type st !! deck_hash obs with
    | Some _ => deck_hash_to_type st
    | None => <[deck_hash obs := deck_type_of rows deck_type_overrides obs]> (deck_hash_to_type st)
    end.
Proof.
  unfold aggregate, store_deck_dims.
  destruct (deck_hash_to_type st !! deck_hash obs); case_decide; reflexivity.
Qed.

Lemma aggregate_deck_hash_to_cards b tag obs st :
  deck_hash_to_cards (aggregate rows deck_type_overrides top_tags b tag obs st) =
    match deck_hash_to_type st !! deck_hash obs with
    | Some _ => deck_hash_to_cards st
    | None => <[deck_hash obs := obs]> (deck_hash_to_cards st)
    end.
Proof.
  unfold aggregate, store_deck_dims.
  destruct (deck_hash_to_type st !! deck_hash obs); case_decide; reflexivity.
Qed.

Lemma aggregate_meta_deck_types b tag obs st :
  meta_deck_types (aggregate rows deck_type_overrides top_tags b tag obs st) =
    count_use (deck_type_of rows deck_type_overrides obs) (_participant_is_win_ranked_1v1 b tag) (meta_deck_types st).
Proof.
  unfold aggregate, store_deck_dims.
  destruct (deck_hash_to_type st !! deck_hash obs); case_decide; reflexivity.
Qed.

Lemma aggregate_meta_type_deck_ids b tag obs st :
  meta_type_deck_ids (aggregate rows deck_type_overrides top_tags b tag obs st) =
    count_use (deck_type_of rows deck_type_overrides obs, deck_hash obs) (_participant_is_win_ranked_1v1 b tag)
      (meta_type_deck_ids st).
Proof.
  unfold aggregate, store_deck_dims.
  destruct (deck_hash_to_type st !! deck_hash obs); case_decide; reflexivity.
Qed.

Lemma aggregate_meta_type_cards b tag obs st :
  meta_type_cards (aggregate rows deck_type_overrides top_tags b tag obs st) =
    count_cards (deck_type_of rows deck_type_overrides obs) (_participant_is_win_ranked_1v1 b tag) obs
      (meta_type_cards st).
Proof.
  unfold aggregate, store_deck_dims.
  destruct (deck_hash_to_type st !! deck_hash obs); case_decide; reflexivity.
Qed.

Lemma aggregate_player_decks_top b tag obs st :
  player_decks_top (aggregate rows deck_type_overrides top_tags b tag obs st) =
    if decide (tag ∈ top_tags)
    then count_use (tag, deck_hash obs) (_participant_is_win_ranked_1v1 b tag)
           (player_decks_top st)
    else player_decks_top st.
Proof.
  unfold aggregate, store_deck_dims.
  destruct (deck_hash_to_type st !! deck_hash obs); case_decide; reflexivity.
Qed.
End aggregate_facts.

(* ===================================================================== *)
(** * The names handed to the classifier *)
(* ===================================================================== *)

Lemma names_for_classifier_filter (obs : list CardObs) :
  names_for_classifier obs = filter (λ n : string, n ≠ "") (card_name <$> obs).
Proof.
  unfold names_for_classifier.
  induction obs as [|c obs IH]; [done|].
  rewrite fmap_cons, !filter_cons, <- IH.
  destruct (decide (Py.truthy_str (card_name c) = true)) as [Ht|Ht];
    destruct (decide (card_name c ≠ "")) as [Hn|Hn]; try done.
  - exfalso. apply Hn. intros He. by rewrite He in Ht.
  - exfalso. apply Ht. by destruct (card_name c).
Qed.

(** C8, as the code has it. For an extracted deck the classifier gets the
    display names of the 8 cards that are not empty, in slot order: a card
    whose name could not be resolved is left out of the list, which then has
    fewer than 8 names, and the list never holds an empty string. When the
    override table has no entry for the deck, the archetype recorded for a
    deck seen for the first time is the classifier's answer on that list. *)
Theorem classifier_gets_resolved_names
    (rows : list CardMeta) (deck_type_overrides : gmap string string)
    (top_tags : gset string) (participant : Participant) (obs : list CardObs)
    (b : Battle) (tag : string) (st : State) :
  _extract_8_cards (load_card_metadata rows) participant = Some obs →
  names_for_classifier obs = filter (λ n : string, n ≠ "") (card_name <$> obs)
  ∧ (length (names_for_classifier obs) ≤ 8)%nat
  ∧ ("" ∉ names_for_classifier obs)
  ∧ (length (names_for_classifier obs) = 8%nat ↔ "" ∉ card_name <$> obs)
  ∧ (deck_type_overrides !! deck_hash obs = None →
     deck_hash_to_type st !! deck_hash obs = None →
     deck_hash_to_type (aggregate rows deck_type_overrides top_tags b tag obs st)
       !! deck_hash obs
     = Some (classify_deck (card_meta_by_name rows) (names_for_classifier obs))).
Proof.
  intros Hex.
  destruct (extract_8_cards_length _ _ _ Hex) as (Hlen & _).
  assert (length (card_name <$> obs) = 8%nat) as Hl8 by by rewrite length_fmap.
  rewrite names_for_classifier_filter.
  split_and!.
  - done.
  - rewrite <- Hl8. apply length_filter.
  - intros Hin. by apply list_elem_of_filter in Hin as [? _].
  - rewrite <- Hl8. generalize (card_name <$> obs). clear. intros l.
    induction l as [|n l IH]; [by split; [intros _; apply not_elem_of_nil|]|].
    rewrite filter_cons. destruct (decide (n ≠ "")) as [Hn|Hn]; simpl.
    + rewrite not_elem_of_cons. split.
      * intros [= Hl]. split; [done|]. by apply IH.
      * intros [_ Hl]. f_equal. by apply IH.
    + apply dec_stable in Hn as ->. split.
      * intros Hl. pose proof (length_filter (λ n : string, n ≠ "") l). lia.
      * intros Hl. exfalso. apply Hl. left.
  - intros Hov Hnew. rewrite aggregate_deck_hash_to_type, Hnew, lookup_insert_eq.
    unfold deck_type_of, resolve_deck_type. rewrite Hov.
    by rewrite names_for_classifier_filter.
Qed.

(** C8, as the claim has it, fails: the eighth card of this participant is
    not in the card table, its name is empty, and the classifier gets the
    other seven names. *)
Lemma classifier_input_omits_unresolved_name :
  ∃ obs,
    _extract_8_cards (load_card_metadata Sample.rows) Sample.bob = Some obs
    ∧ card_name <$> obs
      = ["Golem"; "Baby Dragon"; "Battle Ram"; "Bandit"; "Fireball"; "Knight"; "Archers"; ""]
    ∧ names_for_classifier obs
      = ["Golem"; "Baby Dragon"; "Battle Ram"; "Bandit"; "Fireball"; "Knight"; "Archers"]
    ∧ length (names_for_classifier obs) = 7%nat.
Proof.
  eexists. split; [vm_compute; reflexivity|]. by vm_compute.
Qed.

(* ===================================================================== *)
(** * Counters *)
(* ===================================================================== *)

Section counter_facts.
Context `{Countable K}.
Implicit Types (d : gmap K Counter) (k : K).

Lemma dd_get_add_uses k n d k' :
  dd_get (add_uses k n d) k' =
    if decide (k = k') then {| uses := uses (dd_get d k) + n; wins := wins (dd_get d k) |}
    else dd_get d k'.
Proof.
  unfold add_uses, dd_get. destruct (decide (k = k')) as [->|Hne].
  - by rewrite lookup_insert_eq.
  - by rewrite lookup_insert_ne.
Qed.

Lemma dd_get_add_wins k n d k' :
  dd_get (add_wins k n d) k' =
    if decide (k = k') then {| uses := uses (dd_get d k); wins := wins (dd_get d k) + n |}
    else dd_get d k'.
Proof.
  unfold add_wins, dd_get. destruct (decide (k = k')) as [->|Hne].
  - by rewrite lookup_insert_eq.
  - by rewrite lookup_insert_ne.
Qed.

Lemma dd_get_count_use k won d k' :
  dd_get (count_use k won d) k' =
    if decide (k = k') then bump won (dd_get d k') else dd_get d k'.
Proof.
  unfold count_use. rewrite dd_get_add_wins, !dd_get_add_uses.
  destruct (decide (k = k')) as [->|]; [|done].
  by rewrite decide_True by done.
Qed.

Lemma map_ok_empty : map_ok (∅ : gmap K Counter).
Proof. intros k c. by rewrite lookup_empty. Qed.

Lemma map_ok_dd_get d k : map_ok d → counter_ok (dd_get d k).
Proof.
  intros Hd. unfold dd_get. destruct (d !! k) as [c|] eqn:Hk; simpl.
  - by apply (Hd k).
  - unfold counter_ok. simpl. lia.
Qed.

Lemma map_ok_insert d k c : map_ok d → counter_ok c → map_ok (<[k := c]> d).
Proof.
  intros Hd Hc k' c'. destruct (decide (k = k')) as [->|Hne].
  - rewrite lookup_insert_eq. by intros [= <-].
  - rewrite lookup_insert_ne by done. apply Hd.
Qed.

(** The statement [d[k]["uses"] += n] keeps [wins ≤ uses]. *)
Lemma map_ok_add_uses k n d : 0 ≤ n → map_ok d → map_ok (add_uses k n d).
Proof.
  intros Hn Hd. apply map_ok_insert; [done|].
  pose proof (map_ok_dd_get d k Hd) as Hc. unfold counter_ok in *. simpl. lia.
Qed.

(** The statement [d[k]["wins"] += n], after the uses were raised by at
    least as much, keeps [wins ≤ uses]. *)
Lemma map_ok_add_wins_after k n m d :
  0 ≤ n ≤ m → map_ok d → map_ok (add_wins k n (add_uses k m d)).
Proof.
  intros Hn Hd. apply map_ok_insert; [apply map_ok_add_uses; [lia|done]|].
  rewrite dd_get_add_uses, decide_True by done.
  pose proof (map_ok_dd_get d k Hd) as Hc. unfold counter_ok in *. simpl. lia.
Qed.

Lemma map_ok_count_use k won d : map_ok d → map_ok (count_use k won d).
Proof. intros Hd. apply map_ok_add_wins_after; [destruct won; lia|done]. Qed.
End counter_facts.

Lemma card_counter_keys_NoDup dtype obs :
  NoDup (obs_key <$> obs) → NoDup (card_counter_keys dtype obs).
Proof.
  intros Hnd. unfold card_counter_keys.
  replace ((λ c, (dtype, card_id c, card_variant c)) <$> obs)
    with ((λ k : Z * string, (dtype, k.1, k.2)) <$> (obs_key <$> obs))
    by (by rewrite <- list_fmap_compose).
  apply NoDup_fmap_2; [|done]. intros [i v] [i' v'] [= -> ->]. done.
Qed.

Lemma map_ok_count_cards dtype won obs d : map_ok d → map_ok (count_cards dtype won obs d).
Proof.
  unfold count_cards. revert d. induction obs as [|c obs IH]; intros d Hd; simpl; [done|].
  apply IH. by apply map_ok_count_use.
Qed.

(** The loop over the cards of a deck counts one use, and the win, for each
    of its keys and leaves every other counter as it was. *)
Lemma dd_get_count_cards dtype won obs d k :
  NoDup (card_counter_keys dtype obs) →
  dd_get (count_cards dtype won obs d) k =
    if decide (k ∈ card_counter_keys dtype obs) then bump won (dd_get d k) else dd_get d k.
Proof.
  unfold count_cards, card_counter_keys. revert d.
  induction obs as [|c obs IH]; intros d Hnd.
  - rewrite decide_False; [done|apply not_elem_of_nil].
  - rewrite fmap_cons in Hnd. apply NoDup_cons in Hnd as [Hc Hnd].
    rewrite fmap_cons. cbn [foldl]. rewrite IH by done. rewrite dd_get_count_use.
    destruct (decide (k ∈ (λ c, (dtype, card_id c, card_variant c)) <$> obs)) as [Hin|Hin];
      destruct (decide ((dtype, card_id c, card_variant c) = k)) as [He|Hne];
      destruct (decide (k ∈ (dtype, card_id c, card_variant c)
                            :: ((λ c, (dtype, card_id c, card_variant c)) <$> obs)))
        as [Hin'|Hin'];
      try done; exfalso; rewrite elem_of_cons in Hin'; intuition congruence.
Qed.

(* ===================================================================== *)
(** * The outcome of a side *)
(* ===================================================================== *)

Lemma participant_is_win_team b t0 o0 :
  list_or (b_team b) = [t0] → list_or (b_opponent b) = [o0] →
  _participant_is_win_ranked_1v1 b (_normalize_tag (p_tag t0))
  = bool_decide (crowns_of o0 < crowns_of t0).
Proof.
  intros Ht Ho. unfold _participant_is_win_ranked_1v1. rewrite Ht, Ho.
  rewrite normalize_tag_idempotent, decide_True by done.
  unfold crowns_of. destruct (Z.ltb_spec (Py.int_or (p_crowns o0) 0) (Py.int_or (p_crowns t0) 0)).
  - by rewrite bool_decide_eq_true_2.
  - rewrite bool_decide_eq_false_2; [done|lia].
Qed.

Lemma participant_is_win_opponent b t0 o0 :
  list_or (b_team b) = [t0] → list_or (b_opponent b) = [o0] →
  _normalize_tag (p_tag o0) ≠ _normalize_tag (p_tag t0) →
  _participant_is_win_ranked_1v1 b (_normalize_tag (p_tag o0))
  = bool_decide (crowns_of t0 < crowns_of o0).
Proof.
  intros Ht Ho Hne. unfold _participant_is_win_ranked_1v1. rewrite Ht, Ho.
  rewrite normalize_tag_idempotent, decide_False, decide_True by done.
  unfold crowns_of. destruct (Z.ltb_spec (Py.int_or (p_crowns t0) 0) (Py.int_or (p_crowns o0) 0)).
  - by rewrite bool_decide_eq_true_2.
  - rewrite bool_decide_eq_false_2; [done|lia].
Qed.

(** The comparison of tags sees the normalised tag only. *)
Lemma participant_is_win_normalized b tag tag' :
  _normalize_tag (Some tag) = _normalize_tag (Some tag') →
  _participant_is_win_ranked_1v1 b tag = _participant_is_win_ranked_1v1 b tag'.
Proof. intros Heq. unfold _participant_is_win_ranked_1v1. by rewrite Heq. Qed.

(* ===================================================================== *)
(** * Induction over the scan *)
(* ===================================================================== *)

Section scan_facts.
Variable rows : list CardMeta.
Variable deck_type_overrides : gmap string string.
Variable get_player_battlelog : string → list Battle.
Variable top_tags : gset string.

Section induction.
Variable P : State → Prop.
Hypothesis P_add_scanned : ∀ n st, P st → P (add_scanned n st).
Hypothesis P_mark_seen : ∀ mh st, mh ∉ seen_matches st → P st → P (mark_seen mh st).
Hypothesis P_aggregate : ∀ b part obs st,
  aggregated rows b part obs → P st →
  P (aggregate rows deck_type_overrides top_tags b (_normalize_tag (p_tag part)) obs st).

Lemma process_participant_ind b part st :
  is_ranked_1v1_battle b = true →
  (∃ t0 o0, list_or (b_team b) = [t0] ∧ list_or (b_opponent b) = [o0]
            ∧ (part = t0 ∨ part = o0)) →
  P st → P (process_participant rows deck_type_overrides top_tags b st part).
Proof.
  intros Hr Hside Hst. unfold process_participant.
  destruct (Py.truthy_str (_normalize_tag (p_tag part))) eqn:Htag; simpl; [|done].
  destruct (_extract_8_cards (load_card_metadata rows) part) as [obs|] eqn:Hex; [|done].
  apply P_aggregate; [|done]. split_and!; [done|done| |done].
  intros He. by rewrite He in Htag.
Qed.

Lemma scan_battle_ind st b :
  P st → P (scan_battle rows deck_type_overrides top_tags st b).
Proof.
  intros Hst. unfold scan_battle.
  destruct (is_ranked_1v1_battle b) eqn:Hr; simpl; [|done].
  destruct (decide (match_hash b ∈ seen_matches st)) as [|Hnew]; [done|].
  destruct (list_or (b_team b)) as [|t0 [|]] eqn:Ht; try by apply P_mark_seen.
  destruct (list_or (b_opponent b)) as [|o0 [|]] eqn:Ho; try by apply P_mark_seen.
  simpl. apply process_participant_ind; [done|by exists t0, o0; auto|].
  apply process_participant_ind; [done|by exists t0, o0; auto|].
  by apply P_mark_seen.
Qed.

Lemma scan_battles_ind st battles :
  P st → P (foldl (scan_battle rows deck_type_overrides top_tags) st battles).
Proof.
  revert st. induction battles as [|b battles IH]; intros st Hst; simpl; [done|].
  apply IH. by apply scan_battle_ind.
Qed.

Lemma scan_player_ind st pl :
  P st → P (scan_player rows deck_type_overrides get_player_battlelog top_tags st pl).
Proof. intros Hst. unfold scan_player. by apply scan_battles_ind, P_add_scanned. Qed.

Lemma scan_ind top_players :
  P init_state →
  P (scan rows deck_type_overrides get_player_battlelog top_tags top_players).
Proof.
  unfold scan. generalize init_state.
  induction top_players as [|pl pls IH]; intros st Hst; simpl; [done|].
  apply IH. by apply scan_player_ind.
Qed.
End induction.

Lemma counters_ok_aggregate b tag obs st :
  counters_ok st →
  counters_ok (aggregate rows deck_type_overrides top_tags b tag obs st).
Proof.
  intros (Hp & Ht & Hd & Hc). unfold counters_ok.
  rewrite aggregate_player_decks_top, aggregate_meta_deck_types,
    aggregate_meta_type_deck_ids, aggregate_meta_type_cards.
  split_and!.
  - case_decide; [by apply map_ok_count_use|done].
  - by apply map_ok_count_use.
  - by apply map_ok_count_use.
  - by apply map_ok_count_cards.
Qed.

Lemma counters_ok_scan top_players :
  counters_ok (scan rows deck_type_overrides get_player_battlelog top_tags top_players).
Proof.
  apply scan_ind.
  - by intros n st.
  - by intros mh st _.
  - intros b part obs st _. apply counters_ok_aggregate.
  - unfold counters_ok. simpl. split_and!; apply map_ok_empty.
Qed.
End scan_facts.

(* ===================================================================== *)
(** * The second pass keeps [wins ≤ uses] *)
(* ===================================================================== *)

Lemma map_ok_fan_out st k rec acc :
  counter_ok rec → map_ok acc → map_ok (fan_out st k rec acc).
Proof.
  intros Hrec. unfold fan_out. destruct k as [ptag dh].
  generalize (default [] (deck_hash_to_cards st !! dh)). intros obs. revert acc.
  induction obs as [|c obs IH]; intros acc Hacc; simpl; [done|].
  apply IH. apply map_ok_add_wins_after; [exact Hrec|done].
Qed.

Lemma map_ok_player_type_cards_top st :
  map_ok (player_decks_top st) → map_ok (player_type_cards_top st).
Proof.
  unfold player_type_cards_top.
  apply (map_fold_weak_ind (λ acc m, map_ok m → map_ok acc)).
  - intros _. apply map_ok_empty.
  - intros k rec m acc Hk IH Hok. apply map_ok_fan_out.
    + apply (Hok k). by rewrite lookup_insert_eq.
    + apply IH. intros k' c Hk'. apply (Hok k').
      rewrite lookup_insert_ne; [done|]. intros ->. congruence.
Qed.

(* ===================================================================== *)
(** * The counter invariant *)
(* ===================================================================== *)

(** C4, as the claim has it, fails where the two entries of a battle carry
    the same normalised tag: the opponent entry has fewer crowns than the team
    entry, and its aggregation adds a win, in one step and in the scan. *)
Lemma opponent_with_team_tag_scored_as_team :
  crowns_of SameTag.opp = 1 ∧ crowns_of Sample.alice = 3
  ∧ _normalize_tag (p_tag SameTag.opp) = _normalize_tag (p_tag Sample.alice)
  ∧ _extract_8_cards (load_card_metadata Sample.rows) SameTag.opp = Some Sample.spam_obs
  ∧ deck_type_of Sample.rows ∅ Sample.spam_obs = "Bridge Spam"
  ∧ dd_get (meta_deck_types
              (aggregate Sample.rows ∅ ∅ SameTag.battle
                 (_normalize_tag (p_tag SameTag.opp)) Sample.spam_obs init_state))
      "Bridge Spam"
    = {| uses := 1; wins := 1 |}
  ∧ meta_deck_types (main_scan Sample.rows ∅ (take 1 Sample.ranking) SameTag.logs)
      !! "Bridge Spam"
    = Some {| uses := 1; wins := 1 |}.
Proof. split_and!; vm_compute; reflexivity. Qed.

(** C4. After every scan all counters, those of the second pass included,
    have [wins ≤ uses], and the aggregation of one deck keeps it so. For a
    participant of a 1v1 battle whose deck was extracted, the aggregation adds
    exactly one use to the counter of the archetype, to the counter of the
    archetype and deck, and to the counter of each of the 8 cards of the deck
    under the archetype; it adds one win to the same counters exactly when the
    crowns of the participant exceed those of the other side, and it leaves
    every other meta counter as it was. The participant is the team entry, or
    the opponent entry with a normalised tag other than the team entry's: the
    winner is looked up by normalised tag, the team entry first. *)
Theorem counters_invariant_and_step
    (rows : list CardMeta) (deck_type_overrides : gmap string string)
    (raw : list RawPlayer) (get_player_battlelog : string → list Battle)
    (top_tags : gset string) (b : Battle) (t0 o0 part other : Participant)
    (obs : list CardObs) (st : State) :
  list_or (b_team b) = [t0] →
  list_or (b_opponent b) = [o0] →
  (part = t0 ∧ other = o0)
  ∨ (part = o0 ∧ other = t0 ∧ _normalize_tag (p_tag o0) ≠ _normalize_tag (p_tag t0)) →
  _extract_8_cards (load_card_metadata rows) part = Some obs →
  let run := main_scan rows deck_type_overrides raw get_player_battlelog in
  let st' := aggregate rows deck_type_overrides top_tags b (_normalize_tag (p_tag part)) obs st in
  let dtype := deck_type_of rows deck_type_overrides obs in
  let won := bool_decide (crowns_of other < crowns_of part) in
  (counters_ok run ∧ map_ok (player_type_cards_top run))
  ∧ (counters_ok st → counters_ok st')
  ∧ (∀ k, dd_get (meta_deck_types st') k =
          if decide (k = dtype) then bump won (dd_get (meta_deck_types st) k)
          else dd_get (meta_deck_types st) k)
  ∧ (∀ k, dd_get (meta_type_deck_ids st') k =
          if decide (k = (dtype, deck_hash obs)) then bump won (dd_get (meta_type_deck_ids st) k)
          else dd_get (meta_type_deck_ids st) k)
  ∧ (∀ k, dd_get (meta_type_cards st') k =
          if decide (k ∈ card_counter_keys dtype obs)
          then bump won (dd_get (meta_type_cards st) k)
          else dd_get (meta_type_cards st) k)
  ∧ length (card_counter_keys dtype obs) = 8%nat
  ∧ NoDup (card_counter_keys dtype obs).
Proof.
  intros Ht Ho Hside Hex run st' dtype won.
  destruct (extract_8_cards_length _ _ _ Hex) as [Hlen Hnd].
  assert (_participant_is_win_ranked_1v1 b (_normalize_tag (p_tag part)) = won) as Hwon.
  { subst won. destruct Hside as [[-> ->]|(-> & -> & Hne)].
    - by apply participant_is_win_team.
    - by apply participant_is_win_opponent. }
  assert (counters_ok run) as Hrun by apply counters_ok_scan.
  split_and!.
  - done.
  - apply map_ok_player_type_cards_top, Hrun.
  - apply counters_ok_aggregate.
  - intros k. subst st'. rewrite aggregate_meta_deck_types, dd_get_count_use, Hwon.
    fold dtype. destruct (decide (dtype = k)) as [->|];
      [by rewrite decide_True|by rewrite decide_False].
  - intros k. subst st'. rewrite aggregate_meta_type_deck_ids, dd_get_count_use, Hwon.
    fold dtype. destruct (decide ((dtype, deck_hash obs) = k)) as [<-|];
      [by rewrite decide_True|by rewrite decide_False].
  - intros k. subst st'. rewrite aggregate_meta_type_cards, Hwon.
    apply dd_get_count_cards. by apply card_counter_keys_NoDup.
  - unfold card_counter_keys. by rewrite length_fmap.
  - by apply card_counter_keys_NoDup.
Qed.

(* ===================================================================== *)
(** * Totals over a counter map *)
(* ===================================================================== *)

Section total_facts.
Context `{Countable K}.
Variable f : Counter → Z.
Variable sel : K → bool.
Implicit Types (d : gmap K Counter) (k : K).

Lemma total_empty : total f sel (∅ : gmap K Counter) = 0.
Proof. unfold total. by rewrite map_fold_empty. Qed.

Lemma total_insert_None d k c :
  d !! k = None →
  total f sel (<[k := c]> d) = total f sel d + (if sel k then f c else 0).
Proof.
  intros Hk. unfold total. rewrite map_fold_insert_L; [|intros; repeat case_match; lia|done].
  destruct (sel k); lia.
Qed.

Lemma total_insert d k c :
  total f sel (<[k := c]> d)
  = total f sel d + (if sel k then f c - from_option f 0 (d !! k) else 0).
Proof.
  destruct (d !! k) as [c0|] eqn:Hk; simpl.
  - rewrite <- (insert_delete_eq d k c).
    rewrite <- (insert_delete_id d k c0 Hk) at 2.
    rewrite !total_insert_None by apply lookup_delete_eq.
    destruct (sel k); lia.
  - rewrite total_insert_None by done. destruct (sel k); lia.
Qed.
End total_facts.

Section total_add.
Context `{Countable K}.
Variable sel : K → bool.
Implicit Types (d : gmap K Counter) (k : K).

Lemma from_option_dd_get (f : Counter → Z) d k :
  f zero_counter = 0 → from_option f 0 (d !! k) = f (dd_get d k).
Proof. intros Hz. unfold dd_get. by destruct (d !! k). Qed.

Lemma total_uses_add_uses k n d :
  total uses sel (add_uses k n d) = total uses sel d + (if sel k then n else 0).
Proof.
  unfold add_uses. rewrite total_insert, from_option_dd_get by done. simpl.
  destruct (sel k); lia.
Qed.

Lemma total_wins_add_uses k n d : total wins sel (add_uses k n d) = total wins sel d.
Proof.
  unfold add_uses. rewrite total_insert, from_option_dd_get by done. simpl.
  destruct (sel k); lia.
Qed.

Lemma total_uses_add_wins k n d : total uses sel (add_wins k n d) = total uses sel d.
Proof.
  unfold add_wins. rewrite total_insert, from_option_dd_get by done. simpl.
  destruct (sel k); lia.
Qed.

Lemma total_wins_add_wins k n d :
  total wins sel (add_wins k n d) = total wins sel d + (if sel k then n else 0).
Proof.
  unfold add_wins. rewrite total_insert, from_option_dd_get by done. simpl.
  destruct (sel k); lia.
Qed.
End total_add.

(* ===================================================================== *)
(** * The decks of a scan *)
(* ===================================================================== *)

Lemma is_Some_count_use `{Countable K} (k k' : K) won (d : gmap K Counter) :
  is_Some (count_use k won d !! k') ↔ k' = k ∨ is_Some (d !! k').
Proof.
  unfold count_use, add_wins, add_uses.
  destruct (decide (k = k')) as [->|Hne].
  - rewrite lookup_insert_eq. split; [by left|by eexists].
  - rewrite !lookup_insert_ne by done. split; [by right|]. by intros [->|].
Qed.

Lemma decks_ok_aggregate rows deck_type_overrides top_tags b tag part obs st :
  _extract_8_cards (load_card_metadata rows) part = Some obs →
  decks_ok st → decks_ok (aggregate rows deck_type_overrides top_tags b tag obs st).
Proof.
  intros Hex (Htc & Hc & Hp). destruct (extract_8_cards_length _ _ _ Hex) as [Hlen Hnd].
  unfold decks_ok.
  rewrite aggregate_deck_hash_to_type, aggregate_deck_hash_to_cards, aggregate_player_decks_top.
  destruct (deck_hash_to_type st !! deck_hash obs) as [dt|] eqn:Hdt.
  - split_and!; [done|done|]. intros k. case_decide; [|by apply Hp].
    rewrite is_Some_count_use. intros [->|Hk]; [simpl; by rewrite Hdt|by apply Hp].
  - split_and!.
    + intros dh. destruct (decide (deck_hash obs = dh)) as [<-|Hne].
      * by rewrite !lookup_insert_eq.
      * rewrite !lookup_insert_ne by done. apply Htc.
    + intros dh obs'. destruct (decide (deck_hash obs = dh)) as [<-|Hne].
      * rewrite lookup_insert_eq. by intros [= <-].
      * rewrite lookup_insert_ne by done. apply Hc.
    + intros k Hk.
      assert (k.2 = deck_hash obs ∨ is_Some (player_decks_top st !! k)) as [->|Hk'].
      { case_decide; [|by right]. apply is_Some_count_use in Hk as [->|]; [by left|by right]. }
      * by rewrite lookup_insert_eq.
      * destruct (decide (deck_hash obs = k.2)) as [<-|Hne].
        -- by rewrite lookup_insert_eq.
        -- rewrite lookup_insert_ne by done. by apply Hp.
Qed.

Lemma decks_ok_scan rows deck_type_overrides get_player_battlelog top_tags top_players :
  decks_ok (scan rows deck_type_overrides get_player_battlelog top_tags top_players).
Proof.
  apply scan_ind.
  - by intros n st.
  - by intros mh st _.
  - intros b part obs st (_ & _ & _ & Hex). by apply decks_ok_aggregate with part.
  - unfold decks_ok. simpl. split_and!.
    + intros dh. by rewrite lookup_empty.
    + intros dh obs. by rewrite lookup_empty.
    + intros k. by rewrite lookup_empty.
Qed.

(* ===================================================================== *)
(** * The fan-out of the second pass *)
(* ===================================================================== *)

Section fan_out_facts.
Variable st : State.

Lemma fan_out_unfold ptag dh rec acc :
  fan_out st (ptag, dh) rec acc =
    foldl (λ acc c,
             add_wins (ptag, stored_type st dh, card_id c, card_variant c) (wins rec)
               (add_uses (ptag, stored_type st dh, card_id c, card_variant c) (uses rec) acc))
          acc (stored_cards st dh).
Proof. reflexivity. Qed.

Lemma total_fan_out ptag dtype k rec acc :
  total uses (sel_player_type ptag dtype) (fan_out st k rec acc)
  = total uses (sel_player_type ptag dtype) acc
    + (if sel_player_decks st ptag dtype k
       then Z.of_nat (length (stored_cards st k.2)) * uses rec else 0)
  ∧ total wins (sel_player_type ptag dtype) (fan_out st k rec acc)
    = total wins (sel_player_type ptag dtype) acc
      + (if sel_player_decks st ptag dtype k
         then Z.of_nat (length (stored_cards st k.2)) * wins rec else 0).
Proof.
  destruct k as [p dh]. rewrite fan_out_unfold. simpl.
  generalize (stored_cards st dh). intros obs. revert acc.
  induction obs as [|c obs IH]; intros acc.
  - simpl. destruct (sel_player_decks st ptag dtype (p, dh)); lia.
  - cbn [foldl length]. destruct (IH (add_wins (p, stored_type st dh, card_id c, card_variant c) (wins rec)
               (add_uses (p, stored_type st dh, card_id c, card_variant c) (uses rec) acc)))
      as [-> ->].
    rewrite total_uses_add_wins, total_uses_add_uses, total_wins_add_wins, total_wins_add_uses.
    assert (sel_player_type ptag dtype (p, stored_type st dh, card_id c, card_variant c)
            = sel_player_decks st ptag dtype (p, dh)) as -> by reflexivity.
    destruct (sel_player_decks st ptag dtype (p, dh)); lia.
Qed.

Lemma dd_get_fan_out ptag dtype card k rec acc :
  NoDup (obs_key <$> stored_cards st k.2) →
  dd_get (fan_out st k rec acc) (ptag, dtype, card.1, card.2) =
    let c := dd_get acc (ptag, dtype, card.1, card.2) in
    if sel_player_decks_with st ptag dtype card k
    then {| uses := uses c + uses rec; wins := wins c + wins rec |}
    else c.
Proof.
  destruct k as [p dh], card as [cid v]. rewrite fan_out_unfold.
  unfold sel_player_decks_with. simpl.
  generalize (stored_cards st dh). intros obs. revert acc.
  induction obs as [|c obs IH]; intros acc Hnd.
  - simpl. rewrite bool_decide_eq_false_2; [done|].
    intros (_ & _ & Hin). by apply not_elem_of_nil in Hin.
  - rewrite fmap_cons in Hnd. apply NoDup_cons in Hnd as [Hc Hnd].
    change (obs_key c) with (card_id c, card_variant c) in Hc.
    cbn [foldl]. rewrite IH by done. cbv zeta.
    rewrite dd_get_add_wins, !dd_get_add_uses.
    destruct (decide ((p, stored_type st dh, card_id c, card_variant c) = (ptag, dtype, cid, v)))
      as [He|Hne].
    + simplify_eq.
      rewrite bool_decide_eq_false_2 by (intros (_ & _ & Hin); done).
      rewrite bool_decide_eq_true_2; [rewrite ?decide_True by done; reflexivity|].
      split_and!; [done|done|]. rewrite fmap_cons. left.
    + destruct (bool_decide (p = ptag ∧ stored_type st dh = dtype
                             ∧ (cid, v) ∈ obs_key <$> obs)) eqn:Hb.
      * apply bool_decide_eq_true in Hb as (-> & <- & Hin).
        rewrite bool_decide_eq_true_2; [done|]. split_and!; [done|done|].
        rewrite fmap_cons. by right.
      * rewrite bool_decide_eq_false_2; [done|].
        apply bool_decide_eq_false in Hb. intros (-> & <- & Hin). apply Hb.
        split_and!; [done|done|]. rewrite fmap_cons in Hin.
        apply elem_of_cons in Hin as [[= -> ->]|Hin]; [|done]. by destruct Hne.
Qed.
End fan_out_facts.

Lemma fan_out_totals_of_decks st :
  decks_ok st →
  ∀ ptag dtype,
    total uses (sel_player_type ptag dtype) (player_type_cards_top st)
    = 8 * total uses (sel_player_decks st ptag dtype) (player_decks_top st)
    ∧ total wins (sel_player_type ptag dtype) (player_type_cards_top st)
      = 8 * total wins (sel_player_decks st ptag dtype) (player_decks_top st).
Proof.
  intros (Htc & Hc & Hp) ptag dtype. unfold player_type_cards_top.
  revert Hp. generalize (player_decks_top st).
  apply (map_fold_weak_ind
           (λ acc m, (∀ k, is_Some (m !! k) → is_Some (deck_hash_to_type st !! k.2)) →
                     total uses (sel_player_type ptag dtype) acc
                     = 8 * total uses (sel_player_decks st ptag dtype) m
                     ∧ total wins (sel_player_type ptag dtype) acc
                       = 8 * total wins (sel_player_decks st ptag dtype) m)).
  - intros _. by rewrite !total_empty.
  - intros k rec m acc Hk IH Hm.
    destruct IH as [IHu IHw].
    { intros k' Hk'. apply Hm. rewrite lookup_insert_ne; [done|]. intros ->.
      rewrite Hk in Hk'. by destruct Hk'. }
    destruct (total_fan_out st ptag dtype k rec acc) as [-> ->].
    rewrite !total_insert_None by done. rewrite IHu, IHw.
    assert (length (stored_cards st k.2) = 8%nat) as ->.
    { destruct (Htc k.2) as [obs Hobs].
      - apply Hm. by rewrite lookup_insert_eq.
      - unfold stored_cards. rewrite Hobs. simpl. by apply (Hc k.2). }
    destruct (sel_player_decks st ptag dtype k); lia.
Qed.

Lemma fan_out_pointwise_of_decks st :
  decks_ok st →
  ∀ ptag dtype card,
    dd_get (player_type_cards_top st) (ptag, dtype, card.1, card.2)
    = {| uses := total uses (sel_player_decks_with st ptag dtype card) (player_decks_top st);
         wins := total wins (sel_player_decks_with st ptag dtype card) (player_decks_top st) |}.
Proof.
  intros (Htc & Hc & Hp) ptag dtype card. unfold player_type_cards_top.
  generalize (player_decks_top st).
  apply (map_fold_weak_ind
           (λ acc m,
              dd_get acc (ptag, dtype, card.1, card.2)
              = {| uses := total uses (sel_player_decks_with st ptag dtype card) m;
                   wins := total wins (sel_player_decks_with st ptag dtype card) m |})).
  - by rewrite !total_empty.
  - intros k rec m acc Hk IH.
    rewrite dd_get_fan_out.
    + cbv zeta. rewrite IH, !total_insert_None by done. simpl.
      destruct (sel_player_decks_with st ptag dtype card k); [done|].
      f_equal; lia.
    + unfold stored_cards. destruct (deck_hash_to_cards st !! k.2) as [obs|] eqn:Hobs; simpl.
      * by apply (Hc k.2).
      * constructor.
Qed.

(** C5. After a scan, the per-card counters of the second pass are the
    per-deck counters of the player fanned out over the cards of each deck:
    the counter of a player, an archetype and a card is the sum of the
    player's counters for the decks that are stored under this archetype and
    hold the card, so each deck gives its uses and wins to each of its 8
    cards. Summed over all cards, the per-card uses (wins) of a player under
    an archetype are 8 times the per-deck uses (wins) of the player for the
    decks of this archetype. *)
Theorem player_type_cards_fan_out
    (rows : list CardMeta) (deck_type_overrides : gmap string string)
    (raw : list RawPlayer) (get_player_battlelog : string → list Battle)
    (ptag dtype : string) (cid : Z) (variant : string) :
  let st := main_scan rows deck_type_overrides raw get_player_battlelog in
  total uses (sel_player_type ptag dtype) (player_type_cards_top st)
  = 8 * total uses (sel_player_decks st ptag dtype) (player_decks_top st)
  ∧ total wins (sel_player_type ptag dtype) (player_type_cards_top st)
    = 8 * total wins (sel_player_decks st ptag dtype) (player_decks_top st)
  ∧ dd_get (player_type_cards_top st) (ptag, dtype, cid, variant)
    = {| uses := total uses (sel_player_decks_with st ptag dtype (cid, variant))
                   (player_decks_top st);
         wins := total wins (sel_player_decks_with st ptag dtype (cid, variant))
                   (player_decks_top st) |}
  ∧ (∀ k, is_Some (player_decks_top st !! k) →
          length (stored_cards st k.2) = 8%nat ∧ NoDup (obs_key <$> stored_cards st k.2)).
Proof.
  intros st.
  assert (decks_ok st) as Hok by apply decks_ok_scan.
  destruct (fan_out_totals_of_decks st Hok ptag dtype) as [Hu Hw].
  split_and!; [done|done|apply (fan_out_pointwise_of_decks st Hok ptag dtype (cid, variant))|].
  intros k Hk. destruct Hok as (Htc & Hc & Hp).
  destruct (Htc k.2 (Hp k Hk)) as [obs Hobs].
  unfold stored_cards. rewrite Hobs. by apply (Hc k.2).
Qed.

(* ===================================================================== *)
(** * Where tags are used *)
(* ===================================================================== *)

Lemma top_players_from_normalized i raw pl :
  pl ∈ top_players_from i raw →
  _normalize_tag (Some (player_tag pl)) = player_tag pl ∧ player_tag pl ≠ "".
Proof.
  revert i. induction raw as [|p raw IH]; intros i; simpl.
  - intros Hin. by apply not_elem_of_nil in Hin.
  - destruct (Py.truthy_str (_normalize_tag (rp_tag p))) eqn:Htag; simpl; [|apply IH].
    intros [->|Hin]%elem_of_cons; [|by apply (IH (i + 1))]. simpl. split.
    + apply normalize_tag_idempotent.
    + intros He. by rewrite He in Htag.
Qed.

Lemma top_tags_normalized raw t :
  t ∈ top_tags_of raw → _normalize_tag (Some t) = t ∧ t ≠ "".
Proof.
  unfold top_tags_of. rewrite elem_of_list_to_set, list_elem_of_fmap.
  intros (pl & -> & Hpl). by apply top_players_from_normalized in Hpl.
Qed.

Lemma player_keys_scan rows deck_type_overrides get_player_battlelog top_tags top_players k :
  is_Some (player_decks_top
             (scan rows deck_type_overrides get_player_battlelog top_tags top_players) !! k) →
  k.1 ∈ top_tags ∧ _normalize_tag (Some k.1) = k.1 ∧ k.1 ≠ "".
Proof.
  revert k. apply scan_ind.
  - by intros n st.
  - by intros mh st _.
  - intros b part obs st (_ & _ & Hne & _) IH k.
    rewrite aggregate_player_decks_top. case_decide as Hin; [|apply IH].
    rewrite is_Some_count_use. intros [->|Hk]; [|by apply IH]. simpl.
    split_and!; [done|apply normalize_tag_idempotent|done].
  - intros k. simpl. rewrite lookup_empty. by intros [? ?].
Qed.

Lemma top_players_from_tags i raw t :
  t ∈ player_tag <$> top_players_from i raw
  ↔ t ≠ "" ∧ ∃ p, p ∈ raw ∧ t = _normalize_tag (rp_tag p).
Proof.
  revert i. induction raw as [|q raw IH]; intros i; cbn [top_players_from].
  - rewrite fmap_nil, elem_of_nil. split; [done|].
    intros (_ & p & Hp & _). by apply not_elem_of_nil in Hp.
  - destruct (Py.truthy_str (_normalize_tag (rp_tag q))) eqn:Hq; simpl.
    + rewrite elem_of_cons, IH. split.
      * intros [->|(Hne & p & Hp & ->)].
        -- split; [intros He; by rewrite He in Hq|]. exists q. split; [left|done].
        -- split; [done|]. exists p. split; [by right|done].
      * intros (Hne & p & [->|Hp]%elem_of_cons & ->); [by left|].
        right. split; [done|]. by exists p.
    + rewrite IH. split.
      * intros (Hne & p & Hp & ->). split; [done|]. exists p. split; [by right|done].
      * intros (Hne & p & [->|Hp]%elem_of_cons & ->).
        -- destruct (_normalize_tag (rp_tag q)); done.
        -- split; [done|]. by exists p.
Qed.

Lemma top_tags_of_elem raw t :
  t ∈ top_tags_of raw ↔ t ≠ "" ∧ ∃ p, p ∈ raw ∧ t = _normalize_tag (rp_tag p).
Proof. unfold top_tags_of. rewrite elem_of_list_to_set. apply top_players_from_tags. Qed.

Lemma participant_is_win_by_normalized_tags b t0 o0 s :
  list_or (b_team b) = [t0] → list_or (b_opponent b) = [o0] →
  _participant_is_win_ranked_1v1 b s
  = if decide (_normalize_tag (Some s) = _normalize_tag (p_tag t0))
    then bool_decide (crowns_of o0 < crowns_of t0)
    else if decide (_normalize_tag (Some s) = _normalize_tag (p_tag o0))
         then bool_decide (crowns_of t0 < crowns_of o0)
         else false.
Proof.
  intros Ht Ho.
  assert (∀ x y : Z, (x <? y) = bool_decide (x < y)) as Hlt.
  { intros x y. destruct (Z.ltb_spec x y); symmetry;
      [apply bool_decide_eq_true_2|apply bool_decide_eq_false_2]; lia. }
  unfold _participant_is_win_ranked_1v1, crowns_of. rewrite Ht, Ho. cbv zeta.
  rewrite !Hlt.
  destruct (decide (_normalize_tag (Some s) = _normalize_tag (p_tag t0))); [done|].
  by destruct (decide (_normalize_tag (Some s) = _normalize_tag (p_tag o0))).
Qed.

Lemma process_participant_player_decks rows deck_type_overrides top_tags b st part obs k :
  _extract_8_cards (load_card_metadata rows) part = Some obs →
  _normalize_tag (p_tag part) ≠ "" →
  dd_get (player_decks_top
            (process_participant rows deck_type_overrides top_tags b st part)) k
  = if decide (_normalize_tag (p_tag part) ∈ top_tags
               ∧ k = (_normalize_tag (p_tag part), deck_hash obs))
    then bump (_participant_is_win_ranked_1v1 b (_normalize_tag (p_tag part)))
           (dd_get (player_decks_top st) k)
    else dd_get (player_decks_top st) k.
Proof.
  intros Hex Hne. unfold process_participant. rewrite Hex.
  destruct (_normalize_tag (p_tag part)) as [|c tg] eqn:Htag; [done|]. simpl negb. cbv iota.
  rewrite aggregate_player_decks_top.
  destruct (decide (String c tg ∈ top_tags)) as [Hin|Hin].
  - rewrite dd_get_count_use.
    destruct (decide ((String c tg, deck_hash obs) = k)) as [<-|Hk].
    + by rewrite decide_True.
    + rewrite decide_False; [done|]. intros [_ ->]. done.
  - rewrite decide_False; [done|]. by intros [? _].
Qed.

(** C10, as the claim has it, fails for a ["#"] in front of a tag that is
    empty or starts with white space or with ["#"]: the two tags normalise
    to different texts, and the winner test tells them apart. *)
Lemma normalize_tag_keeps_second_hash :
  _normalize_tag (Some "##abc") = "##ABC" ∧ _normalize_tag (Some "#abc") = "#ABC"
  ∧ _normalize_tag (Some "# abc") = "# ABC" ∧ _normalize_tag (Some " abc") = "#ABC"
  ∧ _normalize_tag (Some "#") = "#" ∧ _normalize_tag (Some "") = ""
  ∧ _participant_is_win_ranked_1v1 Sample.battle "#abc" = true
  ∧ _participant_is_win_ranked_1v1 Sample.battle "##abc" = false.
Proof. split_and!; vm_compute; reflexivity. Qed.

(** C10. One function normalises every tag: on a tag of ASCII characters it
    strips, uppercases and puts ["#"] in front of what is not empty and does
    not start with it. Applying it twice is applying it once, tags that
    differ in case only normalise to the same text, and so do a tag that
    starts with a character other than white space and ["#"] and the same tag
    with ["#"] in front. The scan compares and stores normalised tags only. A
    tag is in the set of the ranked players exactly when it is the normalised
    tag, not empty, of an entry of the ranking, and so is the tag in every
    key of the player counters. The step for one participant tests its
    normalised tag against that set and counts the deck under the normalised
    tag and nowhere else. The winner test compares the normalised tag it is
    given with the normalised tags of the two entries, the team entry first,
    so that it gives one answer for tags with one normal form. *)
Theorem normalize_tag_everywhere
    (tag : option string) (s s' : string) (a : ascii) (r : string) (b : Battle)
    (t0 o0 part : Participant) (obs : list CardObs) (st : State)
    (rows : list CardMeta) (deck_type_overrides : gmap string string)
    (top_tags : gset string)
    (raw : list RawPlayer) (get_player_battlelog : string → list Battle)
    (k k' : string * string) (t : string) :
  ascii_string (default "" tag) → ascii_string s → ascii_string s' →
  ascii_string (String a r) →
  Py.upper s = Py.upper s' →
  Py.isspace a = false → a ≠ "#"%char →
  list_or (b_team b) = [t0] → list_or (b_opponent b) = [o0] →
  _extract_8_cards (load_card_metadata rows) part = Some obs →
  _normalize_tag (p_tag part) ≠ "" →
  is_Some (player_decks_top
             (main_scan rows deck_type_overrides raw get_player_battlelog) !! k) →
  _normalize_tag tag
  = (let u := Py.upper (Py.strip (default "" tag)) in
     if decide (u = "") then "" else if Py.startswith u "#" then u else String "#" u)
  ∧ _normalize_tag (Some (_normalize_tag tag)) = _normalize_tag tag
  ∧ _normalize_tag (Some s) = _normalize_tag (Some s')
  ∧ _normalize_tag (Some (String "#" (String a r))) = _normalize_tag (Some (String a r))
  ∧ (t ∈ top_tags_of raw ↔ t ≠ "" ∧ ∃ p, p ∈ raw ∧ t = _normalize_tag (rp_tag p))
  ∧ (k.1 ∈ top_tags_of raw ∧ k.1 ≠ "" ∧ ∃ p, p ∈ raw ∧ k.1 = _normalize_tag (rp_tag p))
  ∧ dd_get (player_decks_top
              (process_participant rows deck_type_overrides top_tags b st part)) k'
    = (if decide (_normalize_tag (p_tag part) ∈ top_tags
                  ∧ k' = (_normalize_tag (p_tag part), deck_hash obs))
       then bump (_participant_is_win_ranked_1v1 b (_normalize_tag (p_tag part)))
              (dd_get (player_decks_top st) k')
       else dd_get (player_decks_top st) k')
  ∧ _participant_is_win_ranked_1v1 b s
    = (if decide (_normalize_tag (Some s) = _normalize_tag (p_tag t0))
       then bool_decide (crowns_of o0 < crowns_of t0)
       else if decide (_normalize_tag (Some s) = _normalize_tag (p_tag o0))
            then bool_decide (crowns_of t0 < crowns_of o0)
            else false)
  ∧ _participant_is_win_ranked_1v1 b s = _participant_is_win_ranked_1v1 b s'.
Proof.
  intros _ _ _ _ Hcase Ha Hhash Ht0 Ho0 Hex Hne Hk.
  assert (_normalize_tag (Some s) = _normalize_tag (Some s')) as Hss
    by by apply normalize_tag_case_insensitive.
  destruct (player_keys_scan _ _ _ _ _ _ Hk) as (Hin & _ & _).
  split_and!.
  - rewrite normalize_tag_unfold. cbv zeta.
    destruct (Py.upper (Py.strip (default "" tag))) as [|c u]; [done|].
    rewrite decide_False by done. simpl. by destruct (ascii_dec c "#").
  - apply normalize_tag_idempotent.
  - done.
  - by apply normalize_tag_hash_insensitive.
  - apply top_tags_of_elem.
  - done.
  - by apply top_tags_of_elem in Hin as [? _].
  - by apply top_tags_of_elem in Hin as [_ ?].
  - by apply process_participant_player_decks.
  - by apply participant_is_win_by_normalized_tags.
  - by apply participant_is_win_normalized.
Qed.

(* ===================================================================== *)
(** * The set of seen match hashes *)
(* ===================================================================== *)

Section dedup_facts.
Variable rows : list CardMeta.
Variable deck_type_overrides : gmap string string.
Variable get_player_battlelog : string → list Battle.
Variable top_tags : gset string.

(** A battle whose hash was seen is skipped: nothing changes. *)
Lemma scan_battle_seen st b :
  match_hash b ∈ seen_matches st →
  scan_battle rows deck_type_overrides top_tags st b = st.
Proof.
  intros Hseen. unfold scan_battle.
  destruct (is_ranked_1v1_battle b); simpl; [|done].
  by rewrite decide_True.
Qed.

Lemma process_participant_seen b st part :
  seen_matches (process_participant rows deck_type_overrides top_tags b st part)
  = seen_matches st.
Proof.
  unfold process_participant.
  destruct (negb _); [done|].
  destruct (_extract_8_cards _ part); [|done]. apply aggregate_seen_matches.
Qed.

Lemma scan_battle_seen_matches st b :
  seen_matches (scan_battle rows deck_type_overrides top_tags st b)
  = if is_ranked_1v1_battle b then {[match_hash b]} ∪ seen_matches st else seen_matches st.
Proof.
  unfold scan_battle. destruct (is_ranked_1v1_battle b); simpl; [|done].
  destruct (decide (match_hash b ∈ seen_matches st)) as [Hin|Hnew].
  - symmetry. apply subseteq_union_1_L. by apply singleton_subseteq_l.
  - destruct (list_or (b_team b)) as [|t0 [|]]; try done.
    destruct (list_or (b_opponent b)) as [|o0 [|]]; try done.
    simpl. by rewrite !process_participant_seen.
Qed.

(** A ranked battle is in the set once it was scanned, and the set only grows. *)
Lemma scan_battle_marks st b :
  is_ranked_1v1_battle b = true →
  match_hash b ∈ seen_matches (scan_battle rows deck_type_overrides top_tags st b).
Proof.
  intros Hr. rewrite scan_battle_seen_matches, Hr. apply elem_of_union_l. by apply elem_of_singleton.
Qed.

Lemma scan_battles_seen_mono st battles mh :
  mh ∈ seen_matches st →
  mh ∈ seen_matches (foldl (scan_battle rows deck_type_overrides top_tags) st battles).
Proof.
  revert st. induction battles as [|b battles IH]; intros st Hin; simpl; [done|].
  apply IH. rewrite scan_battle_seen_matches.
  destruct (is_ranked_1v1_battle b); [by apply elem_of_union_r|done].
Qed.

(** A later battle with the hash of a ranked battle scanned before it does
    not change the result of the scan. *)
Lemma scan_battles_later_duplicate st l1 b l2 b' l3 :
  is_ranked_1v1_battle b = true →
  match_hash b' = match_hash b →
  foldl (scan_battle rows deck_type_overrides top_tags) st (l1 ++ b :: l2 ++ b' :: l3)
  = foldl (scan_battle rows deck_type_overrides top_tags) st (l1 ++ b :: l2 ++ l3).
Proof.
  intros Hr Hh. rewrite !foldl_app. simpl. rewrite !foldl_app. simpl.
  rewrite (scan_battle_seen _ b'); [done|].
  rewrite Hh. by apply scan_battles_seen_mono, scan_battle_marks.
Qed.

(** [deduped_matches] counts the hashes in the set. *)
Lemma deduped_matches_scan top_players :
  let st := scan rows deck_type_overrides get_player_battlelog top_tags top_players in
  deduped_matches st = Z.of_nat (size (seen_matches st)).
Proof.
  cbv zeta. apply scan_ind.
  - by intros n st.
  - intros mh st Hnew IH. simpl. rewrite size_union, size_singleton.
    + lia.
    + by apply disjoint_singleton_l.
  - intros b part obs st _ IH.
    by rewrite aggregate_deduped_matches, aggregate_seen_matches.
  - done.
Qed.
End dedup_facts.

(* ===================================================================== *)
(** * One battle in the logs of both players *)
(* ===================================================================== *)

(** The same battle read from the log of the other player: the payload has
    the two sides exchanged, as the record has. *)
Lemma match_payload_swap_sides b :
  match_payload (swap_sides b)
  = {| pl_battleTime := pl_battleTime (match_payload b);
       pl_mode := pl_mode (match_payload b);
       pl_team := pl_opponent (match_payload b);
       pl_opponent := pl_team (match_payload b) |}.
Proof. reflexivity. Qed.

(** C1, on the code. For the battle of the sample, the hash of the record
    in one player's log is not the hash of the record in the other player's
    log: the serialised payload names the two sides, and the sides are
    exchanged. *)
Theorem match_hash_not_side_invariant :
  is_ranked_1v1_battle Sample.battle = true
  ∧ is_ranked_1v1_battle (swap_sides Sample.battle) = true
  ∧ match_hash Sample.battle = "e93e51135ee75a206343b08db4f09c2e79da5bde"
  ∧ match_hash (swap_sides Sample.battle) = "32f2c7ec08836d6251dad396e56f625d85fe2b08"
  ∧ match_hash Sample.battle ≠ match_hash (swap_sides Sample.battle).
Proof.
  split_and!; try (vm_compute; reflexivity).
  vm_compute. discriminate.
Qed.

(** C7, on the code. The battle of the sample is in the logs of both of its
    players, who are both ranked. The scan counts it as two matches: the set
    of seen hashes holds two hashes for it, and every counter of the two
    decks has two uses where the battle gives one. *)
Theorem match_in_both_logs_counted_twice :
  Sample.logs "#ABC" = [Sample.battle]
  ∧ Sample.logs "#2PP" = [swap_sides Sample.battle]
  ∧ player_tag <$> top_players_from 1 Sample.ranking = ["#ABC"; "#2PP"]
  ∧ deduped_matches Sample.run = 2
  ∧ size (seen_matches Sample.run) = 2%nat
  ∧ meta_deck_types Sample.run !! "Siege" = Some {| uses := 2; wins := 2 |}
  ∧ meta_deck_types Sample.run !! "Bridge Spam" = Some {| uses := 2; wins := 0 |}
  ∧ deduped_matches (main_scan Sample.rows ∅ (take 1 Sample.ranking) Sample.logs) = 1
  ∧ meta_deck_types (main_scan Sample.rows ∅ (take 1 Sample.ranking) Sample.logs) !! "Siege"
    = Some {| uses := 1; wins := 1 |}.
Proof. split_and!; vm_compute; reflexivity. Qed.

(* ===================================================================== *)
(** * The theorems at the sample data *)
(* ===================================================================== *)

Lemma deck_signature_permutation_invariant_witness :
  canonical_deck_signature (card_keys Sample.siege_obs)
  = canonical_deck_signature (reverse (card_keys Sample.siege_obs))
  ∧ deck_hash_from_signature (canonical_deck_signature (card_keys Sample.siege_obs))
    = deck_hash_from_signature (canonical_deck_signature (reverse (card_keys Sample.siege_obs)))
  ∧ deck_hash Sample.siege_obs = deck_hash (reverse Sample.siege_obs).
Proof.
  apply (deck_signature_permutation_invariant
           (card_keys Sample.siege_obs) (reverse (card_keys Sample.siege_obs))
           Sample.siege_obs (reverse Sample.siege_obs)).
  - symmetry. apply reverse_Permutation.
  - rewrite fmap_reverse. symmetry. apply reverse_Permutation.
Defined.

Lemma classify_deck_precedence_witness :
  classify_deck (card_meta_by_name Sample.rows) Sample.siege_names = ARCHETYPE_SIEGE
  ∧ classify_deck (card_meta_by_name Sample.rows) Sample.bait_names = ARCHETYPE_BAIT
  ∧ Qle_bool (four_card_cycle_cost
                (_precompute_deck_values (card_meta_by_name Sample.rows) Sample.bait_names))
             (9 # 1) = true.
Proof.
  split_and!.
  - apply (proj1 (classify_deck_precedence (card_meta_by_name Sample.rows) Sample.siege_names)).
    apply (bool_decide_unpack _). vm_compute. exact I.
  - apply (proj1 (proj2 (classify_deck_precedence
                           (card_meta_by_name Sample.rows) Sample.bait_names))).
    + apply (bool_decide_unpack _). vm_compute. exact I.
    + apply (bool_decide_unpack _). vm_compute. exact I.
    + vm_compute. lia.
  - vm_compute. reflexivity.
Defined.

Lemma unknown_deck_defaults_witness :
  avg_elixir (_precompute_deck_values (card_meta_by_name Sample.rows) Sample.unknown_names)
  = (3 # 1)%Q
  ∧ four_card_cycle_cost
      (_precompute_deck_values (card_meta_by_name Sample.rows) Sample.unknown_names)
    = (12 # 1)%Q
  ∧ Qle_bool (four_card_cycle_cost
                (_precompute_deck_values (card_meta_by_name Sample.rows) Sample.unknown_names))
             (9 # 1) = false
  ∧ classify_deck (card_meta_by_name Sample.rows) Sample.unknown_names ≠ ARCHETYPE_CYCLE.
Proof.
  apply (unknown_deck_defaults (card_meta_by_name Sample.rows) Sample.unknown_names).
  - discriminate.
  - intros c Hc. unfold Sample.unknown_names in Hc.
    repeat (apply elem_of_cons in Hc as [->|Hc]; [vm_compute; reflexivity|]).
    by apply not_elem_of_nil in Hc.
Defined.

Lemma extract_8_cards_spec_witness :
  _extract_8_cards (load_card_metadata Sample.rows) Sample.carol = None
  ∧ length Sample.siege_obs = 8%nat
  ∧ NoDup (obs_key <$> Sample.siege_obs)
  ∧ slot <$> Sample.siege_obs = [1; 2; 3; 4; 5; 6; 7; 8].
Proof.
  split.
  - apply (proj1 (extract_8_cards_spec (load_card_metadata Sample.rows) Sample.carol)).
    left. vm_compute. lia.
  - destruct (proj2 (extract_8_cards_spec (load_card_metadata Sample.rows) Sample.alice)
                Sample.siege_obs) as (Hl & Hn & _ & Hs).
    + vm_compute. reflexivity.
    + split_and!; assumption.
Defined.

Lemma classifier_gets_resolved_names_witness :
  (length (names_for_classifier Sample.spam_obs) ≤ 8)%nat
  ∧ ("" ∉ names_for_classifier Sample.spam_obs)
  ∧ deck_hash_to_type
      (aggregate Sample.rows ∅ ∅ Sample.battle "#2PP" Sample.spam_obs init_state)
      !! deck_hash Sample.spam_obs
    = Some (classify_deck (card_meta_by_name Sample.rows)
              (names_for_classifier Sample.spam_obs)).
Proof.
  destruct (classifier_gets_resolved_names Sample.rows ∅ ∅ Sample.bob Sample.spam_obs
              Sample.battle "#2PP" init_state) as (_ & Hlen & Hne & _ & Hty).
  - vm_compute. reflexivity.
  - split_and!; [exact Hlen|exact Hne|]. apply Hty; apply lookup_empty.
Defined.

Lemma counters_invariant_and_step_witness :
  let st' := aggregate Sample.rows ∅ ∅ Sample.battle
               (_normalize_tag (p_tag Sample.alice)) Sample.siege_obs init_state in
  counters_ok st'
  ∧ dd_get (meta_deck_types st') "Siege" = {| uses := 1; wins := 1 |}
  ∧ dd_get (meta_deck_types st') "Cycle" = zero_counter.
Proof.
  destruct (counters_invariant_and_step Sample.rows ∅ Sample.ranking Sample.logs ∅
              Sample.battle Sample.alice Sample.bob Sample.alice Sample.bob
              Sample.siege_obs init_state) as (_ & Hok & Hm & _).
  - reflexivity.
  - reflexivity.
  - by left.
  - vm_compute. reflexivity.
  - cbv zeta. split_and!.
    + apply Hok. unfold counters_ok. simpl. split_and!; apply map_ok_empty.
    + rewrite Hm. vm_compute. reflexivity.
    + rewrite Hm. vm_compute. reflexivity.
Defined.

Lemma normalize_tag_everywhere_witness :
  _normalize_tag (Some " #abc ") = "#ABC"
  ∧ _normalize_tag (Some "abc") = _normalize_tag (Some "ABC")
  ∧ _normalize_tag (Some "#abc") = _normalize_tag (Some "abc")
  ∧ ("#2PP" ∈ top_tags_of Sample.ranking)
  ∧ dd_get (player_decks_top
              (process_participant Sample.rows ∅ (top_tags_of Sample.ranking)
                 Sample.battle init_state Sample.bob))
      ("#2PP", deck_hash Sample.spam_obs)
    = {| uses := 1; wins := 0 |}
  ∧ _participant_is_win_ranked_1v1 Sample.battle "abc"
    = _participant_is_win_ranked_1v1 Sample.battle "ABC".
Proof.
  assert (∀ s, (∀ c, c ∈ chars s → (N_of_ascii c < 128)%N) → ascii_string s) as Hascii.
  { intros s Hs. by apply Forall_forall. }
  assert ("#2PP" ∈ top_tags_of Sample.ranking) as Hbob.
  { apply (bool_decide_unpack _). vm_compute. exact I. }
  destruct (normalize_tag_everywhere (Some " #abc ") "abc" "ABC" "a" "bc" Sample.battle
              Sample.alice Sample.bob Sample.bob Sample.spam_obs init_state
              Sample.rows ∅ (top_tags_of Sample.ranking) Sample.ranking Sample.logs
              ("#ABC", deck_hash Sample.siege_obs)
              ("#2PP", deck_hash Sample.spam_obs) "#2PP")
    as (Hshape & _ & Hcase & Hhash & _ & _ & Hstep & _ & Hwin).
  - repeat (constructor; [reflexivity|]). constructor.
  - repeat (constructor; [reflexivity|]). constructor.
  - repeat (constructor; [reflexivity|]). constructor.
  - repeat (constructor; [reflexivity|]). constructor.
  - reflexivity.
  - reflexivity.
  - discriminate.
  - reflexivity.
  - reflexivity.
  - vm_compute. reflexivity.
  - vm_compute. discriminate.
  - eexists. vm_compute. reflexivity.
  - split_and!; [rewrite Hshape; vm_compute; reflexivity|exact Hcase|exact Hhash|exact Hbob| |exact Hwin].
    rewrite Hstep. rewrite decide_True.
    + vm_compute. reflexivity.
    + split; [|reflexivity].
      assert (_normalize_tag (p_tag Sample.bob) = "#2PP") as -> by (vm_compute; reflexivity).
      exact Hbob.
Defined.

(* ===================================================================== *)
(** * Further properties: the outcome of a battle *)
(* ===================================================================== *)

Lemma compute_result_cases a b :
  (_compute_result a b = "win" ↔ b < a)
  ∧ (_compute_result a b = "loss" ↔ a < b)
  ∧ (_compute_result a b = "draw" ↔ a = b).
Proof.
  unfold _compute_result.
  destruct (Z.ltb_spec b a), (Z.ltb_spec a b); split_and!; split; intros; try done; lia.
Qed.

(** X1. In a 1v1 battle between two different players the winner test of
    the scan and [_compute_result] agree: the team entry wins exactly when the
    result for the team is a win, the opponent entry exactly when it is a
    loss, and neither wins exactly when it is a draw; never both. *)
Theorem participant_win_agrees_with_compute_result (b : Battle) (t0 o0 : Participant) :
  list_or (b_team b) = [t0] →
  list_or (b_opponent b) = [o0] →
  _normalize_tag (p_tag o0) ≠ _normalize_tag (p_tag t0) →
  (_participant_is_win_ranked_1v1 b (_normalize_tag (p_tag t0)) = true
   ↔ _compute_result (crowns_of t0) (crowns_of o0) = "win")
  ∧ (_participant_is_win_ranked_1v1 b (_normalize_tag (p_tag o0)) = true
     ↔ _compute_result (crowns_of t0) (crowns_of o0) = "loss")
  ∧ (_participant_is_win_ranked_1v1 b (_normalize_tag (p_tag t0)) = false
     ∧ _participant_is_win_ranked_1v1 b (_normalize_tag (p_tag o0)) = false
     ↔ _compute_result (crowns_of t0) (crowns_of o0) = "draw")
  ∧ _participant_is_win_ranked_1v1 b (_normalize_tag (p_tag t0))
    && _participant_is_win_ranked_1v1 b (_normalize_tag (p_tag o0)) = false.
Proof.
  intros Ht Ho Hne.
  rewrite (participant_is_win_team b t0 o0 Ht Ho).
  rewrite (participant_is_win_opponent b t0 o0 Ht Ho Hne).
  destruct (compute_result_cases (crowns_of t0) (crowns_of o0)) as (Hw & Hl & Hd).
  rewrite Hw, Hl, Hd. rewrite !bool_decide_eq_true, !bool_decide_eq_false.
  split_and!; [done|done|lia|].
  apply andb_false_iff. rewrite !bool_decide_eq_false. lia.
Qed.

(** X2. The winner test answers no for every tag when a side does not have
    exactly one entry, for a tag that is the tag of neither side, and for
    every tag when the two sides have the same number of crowns. *)
Theorem participant_is_win_false_cases (b : Battle) (tag : string) :
  (¬ (∃ t0 o0, list_or (b_team b) = [t0] ∧ list_or (b_opponent b) = [o0]) →
   _participant_is_win_ranked_1v1 b tag = false)
  ∧ (∀ t0 o0, list_or (b_team b) = [t0] → list_or (b_opponent b) = [o0] →
       _normalize_tag (Some tag) ≠ _normalize_tag (p_tag t0) →
       _normalize_tag (Some tag) ≠ _normalize_tag (p_tag o0) →
       _participant_is_win_ranked_1v1 b tag = false)
  ∧ (∀ t0 o0, list_or (b_team b) = [t0] → list_or (b_opponent b) = [o0] →
       crowns_of t0 = crowns_of o0 →
       _participant_is_win_ranked_1v1 b tag = false).
Proof.
  unfold _participant_is_win_ranked_1v1, crowns_of. split_and!.
  - intros Hshape.
    destruct (list_or (b_team b)) as [|t0 [|]]; try done.
    destruct (list_or (b_opponent b)) as [|o0 [|]]; try done.
    destruct Hshape. eauto.
  - intros t0 o0 -> -> H1 H2. by rewrite !decide_False.
  - intros t0 o0 -> -> ->. rewrite Z.ltb_irrefl. by repeat case_decide.
Qed.

(* ===================================================================== *)
(** * Further properties: the ranked filter *)
(* ===================================================================== *)

(** X3. The filter accepts a battle exactly when each side has one entry and
    the mode identifier is one of the two ranked ones, and it gives the same
    answer for the battle as the other player's log presents it. *)
Theorem is_ranked_1v1_battle_iff (b : Battle) :
  (is_ranked_1v1_battle b = true ↔
     ∃ t0 o0 mode gm,
       b_team b = Some [t0] ∧ b_opponent b = Some [o0]
       ∧ b_gameMode b = Some gm ∧ gm_id gm = Some mode
       ∧ (mode = 72000006 ∨ mode = 72000464))
  ∧ is_ranked_1v1_battle (swap_sides b) = is_ranked_1v1_battle b.
Proof.
  split.
  - unfold is_ranked_1v1_battle. split.
    + destruct (b_team b) as [[|t0 [|]]|]; try done.
      destruct (b_opponent b) as [[|o0 [|]]|]; try done. simpl.
      destruct (b_gameMode b) as [gm|]; [|done]. simpl.
      destruct (gm_id gm) as [mode|] eqn:Hid; [|done].
      intros Hin%bool_decide_eq_true. exists t0, o0, mode, gm.
      split_and!; try done.
      unfold RANKED_MODE_ID_WHITELIST in Hin.
      apply elem_of_cons in Hin as [->|Hin]; [by left|].
      apply list_elem_of_singleton in Hin as ->. by right.
    + intros (t0 & o0 & mode & gm & -> & -> & -> & Hid & Hmode). simpl.
      rewrite Hid. apply bool_decide_eq_true. unfold RANKED_MODE_ID_WHITELIST.
      destruct Hmode as [->| ->]; [left|right; left].
  - unfold is_ranked_1v1_battle, swap_sides. simpl.
    by rewrite (andb_comm (length (list_or (b_opponent b)) =? 1)%nat).
Qed.

(* ===================================================================== *)
(** * Further properties: the shape of the hashes *)
(* ===================================================================== *)

Lemma hex_digit_hex_char x : 0 ≤ x < 16 → hex_char (Hashlib.hex_digit x).
Proof.
  intros Hx.
  assert (x = 0 ∨ x = 1 ∨ x = 2 ∨ x = 3 ∨ x = 4 ∨ x = 5 ∨ x = 6 ∨ x = 7 ∨ x = 8
          ∨ x = 9 ∨ x = 10 ∨ x = 11 ∨ x = 12 ∨ x = 13 ∨ x = 14 ∨ x = 15) as Hc by lia.
  unfold hex_char.
  repeat (destruct Hc as [->|Hc]; [vm_compute; intuition congruence|]).
  subst x. vm_compute. intuition congruence.
Qed.

Lemma hex_shape n x acc :
  String.length (Hashlib.hex n x acc) = (n + String.length acc)%nat
  ∧ (Forall hex_char (chars acc) → Forall hex_char (chars (Hashlib.hex n x acc))).
Proof.
  revert x acc. induction n as [|n IH]; intros x acc; simpl; [done|].
  destruct (IH (x / 16) (String (Hashlib.hex_digit (x mod 16)) acc)) as [-> Hf].
  split; [simpl; lia|]. intros Hacc. apply Hf. simpl. constructor; [|done].
  apply hex_digit_hex_char. apply Z.mod_pos_bound. lia.
Qed.

Lemma sha1_hexdigest_shape s :
  String.length (Hashlib.sha1_hexdigest s) = 40%nat
  ∧ Forall hex_char (chars (Hashlib.sha1_hexdigest s)).
Proof.
  unfold Hashlib.sha1_hexdigest.
  destruct (Hashlib.blocks _ _ _) as [[[[h0 h1] h2] h3] h4].
  split.
  - by rewrite !(proj1 (hex_shape _ _ _)).
  - repeat apply hex_shape. constructor.
Qed.

(** X4. The deck hash of any list of observations and the match hash of any
    battle are 40 characters long, each a digit or a letter from a to f. *)
Theorem hashes_are_40_hex_digits (obs : list CardObs) (b : Battle) :
  String.length (deck_hash obs) = 40%nat
  ∧ Forall hex_char (chars (deck_hash obs))
  ∧ String.length (match_hash b) = 40%nat
  ∧ Forall hex_char (chars (match_hash b)).
Proof.
  unfold deck_hash, deck_hash_from_signature, match_hash. cbv zeta.
  destruct (sha1_hexdigest_shape (canonical_deck_signature (card_keys obs))) as [? ?].
  destruct (sha1_hexdigest_shape (dumps_payload (match_payload b))) as [? ?].
  done.
Qed.

(* ===================================================================== *)
(** * Further properties: what the extraction returns *)
(* ===================================================================== *)

Lemma truthy_str_iff s : Py.truthy_str s = true ↔ s ≠ "".
Proof. destruct s; simpl; split; congruence. Qed.

Lemma card_variant_is_variant lvl : is_variant (card_variant_from_evolution_level lvl).
Proof.
  unfold card_variant_from_evolution_level, is_variant.
  destruct (_ =? 1); [by right; left|]. destruct (_ =? 2); [by right; right|by left].
Qed.

Lemma card_name_from_id_stripped meta i n :
  card_name_from_id meta i = Some n → Py.strip n = n.
Proof.
  unfold card_name_from_id. destruct (meta !! i) as [row|]; [|done].
  destruct (Py.truthy_str (cm_name row)); [|done]. intros [= <-]. apply strip_idem.
Qed.

Lemma resolved_name_stripped card_meta c cid :
  Py.strip (resolved_name card_meta c cid) = resolved_name card_meta c cid.
Proof.
  unfold resolved_name. cbv zeta. case_decide; [|apply strip_idem].
  destruct (card_name_from_id card_meta (Py.str_of_int cid)) as [n|] eqn:Hn; simpl; [|done].
  by apply card_name_from_id_stripped in Hn.
Qed.

Lemma observe_card_Some card_meta idx c x :
  observe_card card_meta idx c = Some x ↔
    ∃ cid, rc_id c = Some cid ∧ x = observation_of card_meta idx c cid.
Proof.
  unfold observe_card, observation_of, resolved_name.
  destruct (rc_id c) as [cid|]; [|split; [done|by intros (? & ? & _)]].
  rewrite !str_or_empty_default. cbv zeta.
  assert ((if Py.truthy_str (Py.strip (default "" (rc_name c)))
           then Py.strip (default "" (rc_name c))
           else default "" (card_name_from_id card_meta (Py.str_of_int cid)))
          = (if decide (Py.strip (default "" (rc_name c)) = "")
             then default "" (card_name_from_id card_meta (Py.str_of_int cid))
             else Py.strip (default "" (rc_name c)))) as ->.
  { destruct (Py.strip (default "" (rc_name c))); [by rewrite decide_True|by rewrite decide_False]. }
  split.
  - intros [= <-]. by exists cid.
  - intros (cid' & [= <-] & ->). done.
Qed.

Lemma observe_cards_lookup card_meta idx cards out i c :
  observe_cards card_meta idx cards = Some out →
  cards !! i = Some c →
  ∃ cid, rc_id c = Some cid
         ∧ out !! i = Some (observation_of card_meta (idx + Z.of_nat i) c cid).
Proof.
  revert idx out i. induction cards as [|c0 cards IH]; intros idx out i; [done|].
  simpl. destruct (observe_card card_meta idx c0) as [x|] eqn:Hx; [|done].
  destruct (observe_cards card_meta (idx + 1) cards) as [out'|] eqn:Hout; [|done].
  intros [= <-]. destruct i as [|i]; simpl.
  - intros [= <-]. apply observe_card_Some in Hx as (cid & Hid & ->).
    exists cid. by rewrite Z.add_0_r.
  - intros Hc. destruct (IH _ _ _ Hout Hc) as (cid & Hid & Hl).
    exists cid. split; [done|]. rewrite Hl. do 2 f_equal. lia.
Qed.

(** X5. When the extraction succeeds, the observation in place [i] is built
    from the card in place [i] of the record: it has the identifier of the
    card, slot [i + 1], one of the three variant labels, and as its name the
    stripped name of the record, or, when that is empty, the stripped name of
    the card table for the identifier, or the empty string. *)
Theorem extract_8_cards_observations
    (card_meta : gmap string CardMeta) (participant : Participant)
    (out : list CardObs) (i : nat) (c : RawCard) :
  _extract_8_cards card_meta participant = Some out →
  (i < 8)%nat →
  list_or (p_cards participant) !! i = Some c →
  ∃ cid x,
    rc_id c = Some cid ∧ out !! i = Some x
    ∧ card_id x = cid
    ∧ slot x = Z.of_nat i + 1
    ∧ card_variant x = card_variant_from_evolution_level (rc_evolutionLevel c)
    ∧ is_variant (card_variant x)
    ∧ card_name x = resolved_name card_meta c cid
    ∧ Py.strip (card_name x) = card_name x.
Proof.
  intros (Hlen & Hobs & _)%extract_8_cards_Some Hi Hc.
  assert (take 8 (list_or (p_cards participant)) !! i = Some c) as Hc'
    by by rewrite lookup_take_lt.
  destruct (observe_cards_lookup _ _ _ _ _ _ Hobs Hc') as (cid & Hid & Hl).
  exists cid, (observation_of card_meta (1 + Z.of_nat i) c cid).
  split_and!; try done.
  - simpl. lia.
  - apply card_variant_is_variant.
  - apply resolved_name_stripped.
Qed.

(** X6. The extraction reads the first 8 entries of the card list only:
    leaving out the entries after the eighth does not change what it
    returns. *)
Theorem extract_8_cards_first_eight
    (card_meta : gmap string CardMeta) (participant : Participant) :
  _extract_8_cards card_meta (first_8_cards participant)
  = _extract_8_cards card_meta participant.
Proof.
  unfold _extract_8_cards, first_8_cards. simpl.
  rewrite take_take, Nat.min_id, length_take.
  destruct (Nat.ltb_spec (length (list_or (p_cards participant))) 8) as [Hlt|Hge].
  - by rewrite (proj2 (Nat.ltb_lt _ _)) by lia.
  - by rewrite (proj2 (Nat.ltb_ge _ _)) by lia.
Qed.

(* ===================================================================== *)
(** * Further properties: the ranking *)
(* ===================================================================== *)

(** X7. The ranked players are the entries of the ranking whose normalised
    tag is not empty, in the order of the ranking; an entry without a rank,
    or with rank 0, gets its position in the ranking as fetched, counted from
    1 and with the left-out entries counted in. *)
Theorem top_players_from_ranking (raw : list RawPlayer) (j : nat) (p : RawPlayer) :
  raw !! j = Some p →
  _normalize_tag (rp_tag p) ≠ "" →
  player_tag <$> top_players_from 1 raw
  = filter (λ t : string, t ≠ "") ((λ p, _normalize_tag (rp_tag p)) <$> raw)
  ∧ (length (top_players_from 1 raw) ≤ length raw)%nat
  ∧ ∃ pl, pl ∈ top_players_from 1 raw
          ∧ player_tag pl = _normalize_tag (rp_tag p)
          ∧ rank_global pl = Py.int_or (rp_rank p) (1 + Z.of_nat j)
          ∧ trophies pl = Py.int_or (rp_trophies p) 0.
Proof.
  intros Hj Htag. generalize 1 at 1 2 3 4. intros i. split_and!.
  - clear. revert i. induction raw as [|q raw IH]; intros i; [done|].
    cbn [top_players_from]. rewrite fmap_cons, filter_cons.
    destruct (Py.truthy_str (_normalize_tag (rp_tag q))) eqn:Hq; simpl.
    + rewrite decide_True by by apply truthy_str_iff. by rewrite IH.
    + rewrite decide_False; [apply IH|]. rewrite <- truthy_str_iff. congruence.
  - clear. revert i. induction raw as [|q raw IH]; intros i; [done|].
    cbn [top_players_from]. specialize (IH (i + 1)).
    destruct (negb _); simpl; lia.
  - revert i j Hj. induction raw as [|q raw IH]; intros i j Hj; [done|].
    cbn [top_players_from]. destruct j as [|j]; simpl in Hj.
    + injection Hj as ->. apply truthy_str_iff in Htag. rewrite Htag. simpl.
      eexists. split; [left|]. simpl. split_and!; try done. f_equal. lia.
    + destruct (IH (i + 1) j Hj) as (pl & Hin & Hp & Hr & Ht).
      exists pl. split_and!; try done.
      * destruct (negb _); [done|by right].
      * rewrite Hr. f_equal. lia.
Qed.

(* ===================================================================== *)
(** * Further properties: the classifier *)
(* ===================================================================== *)

Lemma classify_deck_cascade_eq M cards :
  cards ≠ [] → classify_deck M cards = cascade (_precompute_deck_values M cards).
Proof. by destruct cards. Qed.

Lemma cascade_label v : cascade v ∈ ARCHETYPES.
Proof.
  unfold cascade, ARCHETYPES.
  repeat (case_match; [repeat first [by left|right]|]).
  repeat first [by left|right].
Qed.

Lemma classify_deck_archetype M cards : classify_deck M cards ∈ ARCHETYPES.
Proof.
  destruct cards as [|c cards].
  - unfold ARCHETYPES. simpl. repeat first [by left|right].
  - rewrite classify_deck_cascade_eq by done. apply cascade_label.
Qed.

(** X8. The classifier answers with one of the six archetype labels, and
    with Hybrid for the empty list. *)
Theorem classify_deck_label (M : gmap string CardMeta) (cards : list string) :
  classify_deck M cards ∈ ARCHETYPES ∧ classify_deck M [] = ARCHETYPE_HYBRID.
Proof. split; [apply classify_deck_archetype|done]. Qed.

Section empty_names.
Variable M : gmap string CardMeta.
Hypothesis no_empty_name : M !! "" = None.

Lemma metas_without_empty_names (P : option CardMeta → bool) l :
  P None = false →
  omap (λ m, m ≫= cm_elixir) (_get_card_meta M <$> filter (λ n : string, n ≠ "") l)
  = omap (λ m, m ≫= cm_elixir) (_get_card_meta M <$> l)
  ∧ length (filter (λ m, P m = true) (_get_card_meta M <$> filter (λ n : string, n ≠ "") l))
    = length (filter (λ m, P m = true) (_get_card_meta M <$> l)).
Proof.
  intros HP. induction l as [|n l [IH1 IH2]]; [done|].
  rewrite filter_cons. destruct (decide (n ≠ "")) as [Hn|Hn].
  - rewrite !fmap_cons, !filter_cons. split.
    + csimpl. by rewrite IH1.
    + destruct (decide (P (_get_card_meta M n) = true)); simpl; by rewrite IH2.
  - apply dec_stable in Hn as ->. rewrite fmap_cons, filter_cons.
    assert (_get_card_meta M "" = None) as -> by exact no_empty_name.
    rewrite decide_False by (rewrite HP; discriminate). done.
Qed.

Lemma precompute_without_empty_names l :
  _precompute_deck_values M (filter (λ n : string, n ≠ "") l) = _precompute_deck_values M l.
Proof.
  unfold _precompute_deck_values.
  destruct (metas_without_empty_names (meta_flag cm_is_bait_piece) l eq_refl) as [-> ->].
  destruct (metas_without_empty_names (meta_flag cm_is_bridge_spam_piece) l eq_refl) as [_ ->].
  destruct (metas_without_empty_names (meta_flag cm_is_big_tank) l eq_refl) as [_ ->].
  assert (∀ s : string, s ≠ "" →
            bool_decide (s ∈ filter (λ n : string, n ≠ "") l) = bool_decide (s ∈ l)) as Hin.
  { intros s Hs. apply bool_decide_ext. rewrite list_elem_of_filter.
    split; [by intros [_ ?]|by intros ?; split]. }
  rewrite !Hin by done. done.
Qed.
End empty_names.

(** X9. With a card table that has no card named by the empty string, the
    classifier gives a list of names the archetype it gives the list without
    its empty names: leaving the unresolved names out, as the scan does, and
    passing them as empty strings classify the same. *)
Theorem classify_deck_ignores_empty_names (M : gmap string CardMeta) (cards : list string) :
  M !! "" = None →
  classify_deck M (filter (λ n : string, n ≠ "") cards) = classify_deck M cards.
Proof.
  intros HM. pose proof (precompute_without_empty_names M HM cards) as Hv.
  destruct cards as [|c cards]; [done|].
  rewrite (classify_deck_cascade_eq M (c :: cards)) by done.
  destruct (filter (λ n : string, n ≠ "") (c :: cards)) as [|c' cards'] eqn:Hf.
  - rewrite <- Hv. vm_compute. reflexivity.
  - rewrite classify_deck_cascade_eq by done. by rewrite Hv.
Qed.

(* ===================================================================== *)
(** * Further properties: the card table and the override table *)
(* ===================================================================== *)

Lemma foldl_insert_lookup {A} `{Countable K} (key : A → K) (rows : list A) (m : gmap K A) k :
  foldl (λ m r, <[key r := r]> m) m rows !! k
  = match last (filter (λ r, key r = k) rows) with
    | Some r => Some r
    | None => m !! k
    end.
Proof.
  revert m. induction rows as [|r rows IH] using rev_ind; intros m; [done|].
  rewrite foldl_snoc, filter_app, filter_cons, filter_nil.
  destruct (decide (key r = k)) as [<-|Hne].
  - by rewrite lookup_insert_eq, last_snoc.
  - rewrite lookup_insert_ne by done. by rewrite app_nil_r.
Qed.

(** [str] is one-to-one on the integers. *)
Lemma str_of_int_inj a b : Py.str_of_int a = Py.str_of_int b → a = b.
Proof.
  unfold Py.str_of_int. intros Hs.
  assert (∀ z, NilZero.int_of_string (NilZero.string_of_int (Z.to_int z)) = Some (Z.to_int z)) as Hr.
  { intros z. apply NilZero.isi; destruct z; simpl; try discriminate;
      intros [= Hp]; by apply DecimalPos.Unsigned.to_uint_nonnil in Hp. }
  apply DecimalZ.to_int_inj. apply (inj Some). by rewrite <- !Hr, Hs.
Qed.

(** X10. The card table keyed by identifier holds, for an identifier, the
    last row of the file with this identifier, and nothing for an identifier
    that no row has. The name found for an identifier is the name of this last
    row, stripped, and none when the row has an empty name. The table keyed
    by name holds, for a name, the last row with this name. *)
Theorem load_card_metadata_last_row (rows : list CardMeta) (i : Z) (n : string) :
  load_card_metadata rows !! Py.str_of_int i = last_row_with_id rows i
  ∧ card_name_from_id (load_card_metadata rows) (Py.str_of_int i)
    = match last_row_with_id rows i with
      | Some row => if decide (cm_name row = "") then None else Some (Py.strip (cm_name row))
      | None => None
      end
  ∧ card_meta_by_name rows !! n = last (filter (λ r, cm_name r = n) rows).
Proof.
  assert (load_card_metadata rows !! Py.str_of_int i = last_row_with_id rows i) as Hl.
  { unfold load_card_metadata, last_row_with_id.
    rewrite (foldl_insert_lookup (λ r, Py.str_of_int (cm_id r))), lookup_empty.
    assert (filter (λ r, Py.str_of_int (cm_id r) = Py.str_of_int i) rows
            = filter (λ r, cm_id r = i) rows) as ->.
    { apply list_filter_iff. intros r. split; [apply str_of_int_inj|by intros ->]. }
    by destruct (last _). }
  split_and!; [done| |].
  - unfold card_name_from_id. rewrite Hl. destruct (last_row_with_id rows i) as [row|]; [|done].
    destruct (cm_name row); [by rewrite decide_True|by rewrite decide_False].
  - unfold card_meta_by_name. rewrite (foldl_insert_lookup cm_name), lookup_empty.
    by destruct (last _).
Qed.

Lemma load_deck_type_overrides_snoc db r :
  load_deck_type_overrides (db ++ [r])
  = match r with
    | (Some dh, Some dt) =>
        if Py.truthy_str dh && Py.truthy_str dt
        then <[dh := dt]> (load_deck_type_overrides db)
        else load_deck_type_overrides db
    | _ => load_deck_type_overrides db
    end.
Proof. unfold load_deck_type_overrides. by rewrite foldl_snoc. Qed.

Lemma load_deck_type_overrides_Some db dh dt :
  load_deck_type_overrides db !! dh = Some dt →
  dh ≠ "" ∧ dt ≠ "" ∧ (Some dh, Some dt) ∈ db.
Proof.
  induction db as [|r db IH] using rev_ind.
  - unfold load_deck_type_overrides. simpl. by rewrite lookup_empty.
  - rewrite load_deck_type_overrides_snoc.
    assert (load_deck_type_overrides db !! dh = Some dt →
            dh ≠ "" ∧ dt ≠ "" ∧ (Some dh, Some dt) ∈ db ++ [r]) as IH'.
    { intros (? & ? & ?)%IH. split_and!; [done|done|]. apply elem_of_app. by left. }
    destruct r as [[h|] [t|]]; try done.
    destruct (Py.truthy_str h) eqn:Hh, (Py.truthy_str t) eqn:Ht; simpl; try done.
    destruct (decide (h = dh)) as [->|Hne].
    + rewrite lookup_insert_eq. intros [= ->]. split_and!.
      * by apply truthy_str_iff.
      * by apply truthy_str_iff.
      * apply elem_of_app. right. left.
    + by rewrite lookup_insert_ne.
Qed.

(** X11. The override table as loaded has no empty hash and no empty type,
    and each of its entries is a row of the database table, a later row
    replacing an earlier one for the same hash. For a deck with an entry the
    archetype is the one of the entry, whatever the cards are; for a deck
    without one it is the answer of the classifier. *)
Theorem override_takes_precedence
    (db : list (option string * option string)) (rows : list CardMeta)
    (dh : string) (names : list string) :
  (∀ dt, load_deck_type_overrides db !! dh = Some dt →
         dh ≠ "" ∧ dt ≠ "" ∧ (Some dh, Some dt) ∈ db
         ∧ resolve_deck_type rows (load_deck_type_overrides db) dh names = dt)
  ∧ (load_deck_type_overrides db !! dh = None →
     resolve_deck_type rows (load_deck_type_overrides db) dh names
     = classify_deck (card_meta_by_name rows) names)
  ∧ (∀ dt, dh ≠ "" → dt ≠ "" →
           load_deck_type_overrides (db ++ [(Some dh, Some dt)]) !! dh = Some dt).
Proof.
  split_and!.
  - intros dt Hdt. destruct (load_deck_type_overrides_Some db dh dt Hdt) as (Hh & Ht & Hin).
    split_and!; try done. unfold resolve_deck_type. rewrite Hdt.
    apply truthy_str_iff in Ht. by rewrite Ht.
  - intros Hn. unfold resolve_deck_type. by rewrite Hn.
  - intros dt Hh%truthy_str_iff Ht%truthy_str_iff.
    rewrite load_deck_type_overrides_snoc, Hh, Ht. simpl. apply lookup_insert_eq.
Qed.

(* ===================================================================== *)
(** * Further properties: scanning a log again *)
(* ===================================================================== *)

Section rescan_facts.
Variable rows : list CardMeta.
Variable deck_type_overrides : gmap string string.
Variable top_tags : gset string.

(** Battles that the scan leaves alone: not ranked, or seen. *)
Lemma scan_battles_all_seen st battles :
  (∀ b, b ∈ battles → is_ranked_1v1_battle b = true → match_hash b ∈ seen_matches st) →
  foldl (scan_battle rows deck_type_overrides top_tags) st battles = st.
Proof.
  induction battles as [|b battles IH]; intros Hall; [done|]. simpl.
  assert (scan_battle rows deck_type_overrides top_tags st b = st) as ->.
  { destruct (is_ranked_1v1_battle b) eqn:Hr.
    - apply scan_battle_seen, Hall; [left|done].
    - unfold scan_battle. by rewrite Hr. }
  apply IH. intros b' Hb'. apply Hall. by right.
Qed.

Lemma scan_battles_marks_all st battles b :
  b ∈ battles → is_ranked_1v1_battle b = true →
  match_hash b ∈ seen_matches (foldl (scan_battle rows deck_type_overrides top_tags) st battles).
Proof.
  revert st. induction battles as [|b0 battles IH]; intros st Hb Hr.
  - by apply not_elem_of_nil in Hb.
  - simpl. apply elem_of_cons in Hb as [->|Hb].
    + by apply scan_battles_seen_mono, scan_battle_marks.
    + by apply IH.
Qed.
End rescan_facts.

(** X12. Scanning a list of battles and then the same list again gives the
    state that scanning it once gives: every ranked battle of the list is in
    the set of seen hashes after the first pass, and a battle that is seen or
    not ranked changes nothing. More generally, so does every list of battles
    scanned after it whose ranked battles have hashes of the first list. *)
Theorem scan_battles_idempotent
    (rows : list CardMeta) (deck_type_overrides : gmap string string)
    (top_tags : gset string) (st : State) (battles again : list Battle) :
  (∀ b, b ∈ again → is_ranked_1v1_battle b = true →
        ∃ b0, b0 ∈ battles ∧ is_ranked_1v1_battle b0 = true ∧ match_hash b0 = match_hash b) →
  foldl (scan_battle rows deck_type_overrides top_tags) st (battles ++ again)
  = foldl (scan_battle rows deck_type_overrides top_tags) st battles
  ∧ foldl (scan_battle rows deck_type_overrides top_tags) st (battles ++ battles)
    = foldl (scan_battle rows deck_type_overrides top_tags) st battles.
Proof.
  intros Hagain. rewrite !foldl_app. split.
  - apply scan_battles_all_seen. intros b Hb Hr.
    destruct (Hagain b Hb Hr) as (b0 & Hb0 & Hr0 & <-).
    by apply scan_battles_marks_all.
  - apply scan_battles_all_seen. intros b Hb Hr. by apply scan_battles_marks_all.
Qed.

(* ===================================================================== *)
(** * Further properties: the totals of the meta counters *)
(* ===================================================================== *)

Section total_count.
Context `{Countable K}.
Variable sel : K → bool.
Implicit Types (d : gmap K Counter) (k : K).

Lemma total_uses_count_use k won d :
  total uses sel (count_use k won d) = total uses sel d + (if sel k then 1 else 0).
Proof. unfold count_use. by rewrite total_uses_add_wins, total_uses_add_uses. Qed.

Lemma total_wins_count_use k won d :
  total wins sel (count_use k won d)
  = total wins sel d + (if sel k then (if won then 1 else 0) else 0).
Proof. unfold count_use. by rewrite total_wins_add_wins, total_wins_add_uses. Qed.
End total_count.

Lemma total_count_cards (sel : string * Z * string → bool) (s : bool) dtype won obs d :
  (∀ c, sel (dtype, card_id c, card_variant c) = s) →
  total uses sel (count_cards dtype won obs d)
  = total uses sel d + (if s then Z.of_nat (length obs) else 0)
  ∧ total wins sel (count_cards dtype won obs d)
    = total wins sel d + (if s then Z.of_nat (length obs) * (if won then 1 else 0) else 0).
Proof.
  intros Hsel. unfold count_cards. revert d.
  induction obs as [|c obs IH]; intros d.
  - simpl. destruct s; lia.
  - cbn [foldl length]. destruct (IH (count_use (dtype, card_id c, card_variant c) won d))
      as [-> ->].
    rewrite total_uses_count_use, total_wins_count_use, Hsel.
    destruct s, won; lia.
Qed.

Lemma meta_consistent_aggregate rows deck_type_overrides top_tags b tag part obs st :
  _extract_8_cards (load_card_metadata rows) part = Some obs →
  meta_consistent st →
  meta_consistent (aggregate rows deck_type_overrides top_tags b tag obs st).
Proof.
  intros Hex (Hty & Hdu & Hdw & Hcu & Hcw).
  destruct (extract_8_cards_length _ _ _ Hex) as [Hlen _].
  unfold meta_consistent.
  rewrite aggregate_meta_deck_types, aggregate_meta_type_deck_ids, aggregate_meta_type_cards.
  set (dtype := deck_type_of rows deck_type_overrides obs).
  set (won := _participant_is_win_ranked_1v1 b tag).
  split_and!.
  - intros ty. destruct (Hty ty) as (H1 & H2 & H3 & H4).
    destruct (total_count_cards (sel_type_cards ty) (bool_decide (dtype = ty)) dtype won obs
                (meta_type_cards st)) as [-> ->]; [done|].
    rewrite total_uses_count_use, total_wins_count_use, dd_get_count_use, H1, H2, H3, H4, Hlen.
    change (sel_type_decks ty (dtype, deck_hash obs)) with (bool_decide (dtype = ty)).
    destruct (decide (dtype = ty)) as [He|Hne].
    + rewrite bool_decide_eq_true_2 by done. simpl. destruct won; lia.
    + rewrite bool_decide_eq_false_2 by done. lia.
  - rewrite !total_uses_count_use. simpl. lia.
  - rewrite !total_wins_count_use. simpl. lia.
  - destruct (total_count_cards sel_all true dtype won obs (meta_type_cards st)) as [-> _];
      [done|].
    rewrite total_uses_count_use, Hcu, Hlen. simpl. lia.
  - destruct (total_count_cards sel_all true dtype won obs (meta_type_cards st)) as [_ ->];
      [done|].
    rewrite total_wins_count_use, Hcw, Hlen. simpl. destruct won; lia.
Qed.

(** X13. After every scan the three meta tables tell one story: for each
    archetype, the uses (wins) of its decks add up to the uses (wins) of the
    archetype, and the uses (wins) of its cards add up to 8 times as many; the
    same holds for the totals over all archetypes. *)
Theorem meta_totals_consistent
    (rows : list CardMeta) (deck_type_overrides : gmap string string)
    (raw : list RawPlayer) (get_player_battlelog : string → list Battle) (ty : string) :
  let st := main_scan rows deck_type_overrides raw get_player_battlelog in
  total uses (sel_type_decks ty) (meta_type_deck_ids st) = uses (dd_get (meta_deck_types st) ty)
  ∧ total wins (sel_type_decks ty) (meta_type_deck_ids st) = wins (dd_get (meta_deck_types st) ty)
  ∧ total uses (sel_type_cards ty) (meta_type_cards st) = 8 * uses (dd_get (meta_deck_types st) ty)
  ∧ total wins (sel_type_cards ty) (meta_type_cards st) = 8 * wins (dd_get (meta_deck_types st) ty)
  ∧ total uses sel_all (meta_type_deck_ids st) = total uses sel_all (meta_deck_types st)
  ∧ total wins sel_all (meta_type_deck_ids st) = total wins sel_all (meta_deck_types st)
  ∧ total uses sel_all (meta_type_cards st) = 8 * total uses sel_all (meta_deck_types st)
  ∧ total wins sel_all (meta_type_cards st) = 8 * total wins sel_all (meta_deck_types st).
Proof.
  intros st.
  assert (meta_consistent st) as (Hty & Hrest).
  { subst st. unfold main_scan. apply scan_ind.
    - by intros n st0.
    - by intros mh st0 _.
    - intros b part obs st0 (_ & _ & _ & Hex). by apply meta_consistent_aggregate with part.
    - unfold meta_consistent. simpl. split_and!; try by rewrite !total_empty.
      intros ty'. by rewrite !total_empty. }
  destruct (Hty ty) as (? & ? & ? & ?). destruct Hrest as (? & ? & ? & ?). done.
Qed.

(* ===================================================================== *)
(** * Further properties: how many matches and uses a scan counts *)
(* ===================================================================== *)

Section count_facts.
Variable rows : list CardMeta.
Variable deck_type_overrides : gmap string string.
Variable get_player_battlelog : string → list Battle.
Variable top_tags : gset string.

Lemma aggregate_scanned_entries b tag obs st :
  scanned_entries (aggregate rows deck_type_overrides top_tags b tag obs st)
  = scanned_entries st.
Proof.
  unfold aggregate, store_deck_dims.
  destruct (deck_hash_to_type st !! deck_hash obs); case_decide; reflexivity.
Qed.

(** One participant: no match is marked, and at most one use is counted. *)
Lemma process_participant_counts b st part :
  let st' := process_participant rows deck_type_overrides top_tags b st part in
  scanned_entries st' = scanned_entries st
  ∧ deduped_matches st' = deduped_matches st
  ∧ 0 ≤ meta_uses st' - meta_uses st ≤ 1
  ∧ 0 ≤ player_uses st' - player_uses st ≤ meta_uses st' - meta_uses st.
Proof.
  cbv zeta. unfold process_participant.
  destruct (negb _); [lia|].
  destruct (_extract_8_cards _ part) as [obs|]; [|lia].
  unfold meta_uses, player_uses.
  rewrite aggregate_scanned_entries, aggregate_deduped_matches,
    aggregate_meta_deck_types, aggregate_player_decks_top.
  rewrite total_uses_count_use. case_decide.
  - rewrite total_uses_count_use. simpl. lia.
  - simpl. lia.
Qed.

Lemma scan_battle_counts st b :
  counts_step 1 st (scan_battle rows deck_type_overrides top_tags st b).
Proof.
  unfold counts_step, scan_battle.
  destruct (negb _); [lia|].
  destruct (decide (match_hash b ∈ seen_matches st)); [lia|].
  destruct (list_or (b_team b)) as [|t0 [|]]; try (simpl; unfold meta_uses, player_uses; simpl; lia).
  destruct (list_or (b_opponent b)) as [|o0 [|]];
    try (simpl; unfold meta_uses, player_uses; simpl; lia).
  cbn [foldl].
  pose proof (process_participant_counts b (mark_seen (match_hash b) st) t0) as H1.
  pose proof (process_participant_counts b
                (process_participant rows deck_type_overrides top_tags b
                   (mark_seen (match_hash b) st) t0) o0) as H2.
  cbv zeta in H1, H2.
  assert (scanned_entries (mark_seen (match_hash b) st) = scanned_entries st) as Hs by done.
  assert (deduped_matches (mark_seen (match_hash b) st) = deduped_matches st + 1) as Hd by done.
  assert (meta_uses (mark_seen (match_hash b) st) = meta_uses st) as Hm by done.
  assert (player_uses (mark_seen (match_hash b) st) = player_uses st) as Hp by done.
  lia.
Qed.

Lemma scan_battles_counts st battles :
  counts_step (Z.of_nat (length battles)) st
    (foldl (scan_battle rows deck_type_overrides top_tags) st battles).
Proof.
  revert st. induction battles as [|b battles IH]; intros st.
  - unfold counts_step. simpl. lia.
  - cbn [foldl]. pose proof (scan_battle_counts st b) as H1.
    pose proof (IH (scan_battle rows deck_type_overrides top_tags st b)) as H2.
    unfold counts_step in *. rewrite length_cons. lia.
Qed.

Lemma scan_players_counts st top_players :
  let st' := foldl (scan_player rows deck_type_overrides get_player_battlelog top_tags)
               st top_players in
  let n := Z.of_nat (length (top_players ≫= λ pl, get_player_battlelog (player_tag pl))) in
  scanned_entries st' = scanned_entries st + n
  ∧ 0 ≤ deduped_matches st' - deduped_matches st ≤ n
  ∧ 0 ≤ meta_uses st' - meta_uses st ≤ 2 * (deduped_matches st' - deduped_matches st)
  ∧ 0 ≤ player_uses st' - player_uses st ≤ meta_uses st' - meta_uses st.
Proof.
  cbv zeta. revert st. induction top_players as [|pl pls IH]; intros st.
  - simpl. lia.
  - cbn [foldl]. rewrite bind_cons, length_app.
    pose proof (IH (scan_player rows deck_type_overrides get_player_battlelog top_tags st pl))
      as H2.
    unfold scan_player in *.
    pose proof (scan_battles_counts
                  (add_scanned (Z.of_nat (length (get_player_battlelog (player_tag pl)))) st)
                  (get_player_battlelog (player_tag pl))) as H1.
    unfold counts_step in H1.
    assert (scanned_entries
              (add_scanned (Z.of_nat (length (get_player_battlelog (player_tag pl)))) st)
            = scanned_entries st + Z.of_nat (length (get_player_battlelog (player_tag pl))))
      as Hs by done.
    assert (deduped_matches
              (add_scanned (Z.of_nat (length (get_player_battlelog (player_tag pl)))) st)
            = deduped_matches st) as Hd by done.
    assert (meta_uses
              (add_scanned (Z.of_nat (length (get_player_battlelog (player_tag pl)))) st)
            = meta_uses st) as Hm by done.
    assert (player_uses
              (add_scanned (Z.of_nat (length (get_player_battlelog (player_tag pl)))) st)
            = player_uses st) as Hp by done.
    lia.
Qed.
End count_facts.

(** X14. After a scan, [scanned_entries] is the number of entries in the
    logs of the ranked players; [deduped_matches] is the number of hashes in
    the set of seen matches and at most the number of entries; the uses over
    all archetypes are at most two per counted match; and the uses over all
    player decks are at most the uses over all archetypes. *)
Theorem scan_count_bounds
    (rows : list CardMeta) (deck_type_overrides : gmap string string)
    (raw : list RawPlayer) (get_player_battlelog : string → list Battle) :
  let st := main_scan rows deck_type_overrides raw get_player_battlelog in
  scanned_entries st
  = Z.of_nat (length (top_players_from 1 raw ≫= λ pl, get_player_battlelog (player_tag pl)))
  ∧ deduped_matches st = Z.of_nat (size (seen_matches st))
  ∧ 0 ≤ deduped_matches st ≤ scanned_entries st
  ∧ 0 ≤ player_uses st ≤ meta_uses st
  ∧ meta_uses st ≤ 2 * deduped_matches st.
Proof.
  intros st. subst st. unfold main_scan.
  pose proof (scan_players_counts rows deck_type_overrides get_player_battlelog
                (list_to_set (player_tag <$> top_players_from 1 raw))
                init_state (top_players_from 1 raw)) as Hc.
  cbv zeta in Hc. fold (scan rows deck_type_overrides get_player_battlelog
                          (list_to_set (player_tag <$> top_players_from 1 raw))
                          (top_players_from 1 raw)) in Hc.
  assert (meta_uses init_state = 0) as Hm by apply total_empty.
  assert (player_uses init_state = 0) as Hp by apply total_empty.
  assert (scanned_entries init_state = 0) as Hs by done.
  assert (deduped_matches init_state = 0) as Hd by done.
  split_and!; try lia.
  apply deduped_matches_scan.
Qed.

(* ===================================================================== *)
(** * Further properties: the rows of the snapshot *)
(* ===================================================================== *)

Lemma extract_8_cards_slots card_meta participant out :
  _extract_8_cards card_meta participant = Some out →
  slot <$> out = [1; 2; 3; 4; 5; 6; 7; 8].
Proof.
  intros (Hlen & Hobs & _)%extract_8_cards_Some.
  destruct (observe_cards_Some _ _ _ _ Hobs) as (_ & _ & Hs).
  rewrite length_take in Hs.
  by replace (8 `min` length (list_or (p_cards participant)))%nat with 8%nat in Hs by lia.
Qed.

Lemma aggregate_cards_dim rows deck_type_overrides top_tags b tag obs st :
  cards_dim (aggregate rows deck_type_overrides top_tags b tag obs st)
  = foldl (λ d c, if Py.truthy_str (card_name c) then <[card_id c := card_name c]> d else d)
          (cards_dim st) obs.
Proof.
  unfold aggregate, store_deck_dims.
  destruct (deck_hash_to_type st !! deck_hash obs); case_decide; reflexivity.
Qed.

Lemma cards_dim_keys (obs : list CardObs) (d : gmap Z string) i :
  is_Some (foldl (λ d c, if Py.truthy_str (card_name c) then <[card_id c := card_name c]> d
                         else d) d obs !! i)
  ↔ is_Some (d !! i) ∨ ∃ c, c ∈ obs ∧ card_id c = i ∧ card_name c ≠ "".
Proof.
  revert d. induction obs as [|c obs IH]; intros d.
  - simpl. split; [by left|]. intros [?|(c & Hc & _)]; [done|by apply not_elem_of_nil in Hc].
  - cbn [foldl]. rewrite IH. clear IH.
    destruct (Py.truthy_str (card_name c)) eqn:Hn.
    + apply truthy_str_iff in Hn. split.
      * intros [Hi|(c' & Hc' & Hid & Hnm)].
        -- destruct (decide (card_id c = i)) as [He|Hne].
           ++ right. exists c. split; [left|done].
           ++ left. by rewrite lookup_insert_ne in Hi.
        -- right. exists c'. split; [by right|done].
      * intros [Hi|(c' & Hc' & Hid & Hnm)].
        -- left. destruct (decide (card_id c = i)) as [->|Hne].
           ++ by rewrite lookup_insert_eq.
           ++ by rewrite lookup_insert_ne.
        -- apply elem_of_cons in Hc' as [->|Hc'].
           ++ left. rewrite Hid. by rewrite lookup_insert_eq.
           ++ right. by exists c'.
    + split.
      * intros [Hi|(c' & Hc' & Hid & Hnm)]; [by left|].
        right. exists c'. split; [by right|done].
      * intros [Hi|(c' & Hc' & Hid & Hnm)]; [by left|].
        apply elem_of_cons in Hc' as [->|Hc'].
        -- exfalso. apply truthy_str_iff in Hnm. congruence.
        -- right. by exists c'.
Qed.

Lemma snapshot_ok_aggregate rows deck_type_overrides top_tags b tag part obs st :
  _extract_8_cards (load_card_metadata rows) part = Some obs →
  snapshot_ok st →
  snapshot_ok (aggregate rows deck_type_overrides top_tags b tag obs st).
Proof.
  intros Hex (S1 & S2 & S3 & S4 & S5).
  destruct (extract_8_cards_length _ _ _ Hex) as [Hlen Hnd].
  pose proof (extract_8_cards_slots _ _ _ Hex) as Hslots.
  unfold snapshot_ok.
  rewrite aggregate_deck_hash_to_type, aggregate_deck_hash_to_cards,
    aggregate_meta_type_deck_ids, aggregate_player_decks_top, aggregate_cards_dim.
  destruct (deck_hash_to_type st !! deck_hash obs) as [ty|] eqn:Hd.
  - split_and!; [done|done| | |].
    + intros k [->|Hk]%is_Some_count_use; [simpl; by rewrite Hd|by apply S3].
    + intros k. case_decide; [|by apply S4].
      intros [->|Hk]%is_Some_count_use; [simpl; by rewrite Hd|by apply S4].
    + intros dh obs' c Hobs' Hc Hn. apply cards_dim_keys. left. by apply (S5 dh obs' c).
  - split_and!.
    + intros dh. destruct (decide (deck_hash obs = dh)) as [<-|Hne].
      * by rewrite !lookup_insert_eq.
      * rewrite !lookup_insert_ne by done. apply S1.
    + intros dh obs'. destruct (decide (deck_hash obs = dh)) as [<-|Hne].
      * rewrite lookup_insert_eq. by intros [= <-].
      * rewrite lookup_insert_ne by done. apply S2.
    + intros k Hk.
      destruct (decide (deck_hash obs = k.2)) as [<-|Hne]; [by rewrite lookup_insert_eq|].
      rewrite lookup_insert_ne by done.
      apply is_Some_count_use in Hk as [->|Hk]; [done|by apply S3].
    + intros k Hk.
      destruct (decide (deck_hash obs = k.2)) as [<-|Hne]; [by rewrite lookup_insert_eq|].
      rewrite lookup_insert_ne by done.
      case_decide; [|by apply S4].
      apply is_Some_count_use in Hk as [->|Hk]; [done|by apply S4].
    + intros dh obs' c. destruct (decide (deck_hash obs = dh)) as [<-|Hne].
      * rewrite lookup_insert_eq. intros [= <-] Hc Hn.
        apply cards_dim_keys. right. by exists c.
      * rewrite lookup_insert_ne by done. intros Hobs' Hc Hn.
        apply cards_dim_keys. left. by apply (S5 dh obs' c).
Qed.

Lemma snapshot_ok_scan rows deck_type_overrides get_player_battlelog top_tags top_players :
  snapshot_ok (scan rows deck_type_overrides get_player_battlelog top_tags top_players).
Proof.
  apply scan_ind.
  - by intros n st.
  - by intros mh st _.
  - intros b part obs st (_ & _ & _ & Hex). by apply snapshot_ok_aggregate with part.
  - unfold snapshot_ok. simpl. split_and!.
    + intros dh. by rewrite !lookup_empty.
    + intros dh obs. by rewrite lookup_empty.
    + intros k. by rewrite lookup_empty.
    + intros k. by rewrite lookup_empty.
    + intros dh obs c. by rewrite lookup_empty.
Qed.

Lemma dc_rows_keys st :
  dc_key <$> dc_rows st
  = map_to_list (deck_hash_to_cards st) ≫=
      (λ e, (λ c, (e.1, card_id c, card_variant c)) <$> e.2).
Proof.
  unfold dc_rows. generalize (map_to_list (deck_hash_to_cards st)). intros l.
  induction l as [|e l IH]; [done|].
  rewrite !bind_cons, fmap_app, IH. f_equal.
  rewrite <- list_fmap_compose. done.
Qed.

(** X15. After a scan, a deck has a type exactly when it has cards; the
    cards stored for a hash are 8, in slots 1 to 8, with 8 distinct
    [(card_id, variant)] pairs, and their deck hash is the hash they are
    stored under. The rows of [deck_cards] built from them are 8 per stored
    deck and have pairwise distinct keys [(deck_hash, card_id, card_variant)],
    the conflict target of their upsert. *)
Theorem stored_decks_well_formed
    (rows : list CardMeta) (deck_type_overrides : gmap string string)
    (raw : list RawPlayer) (get_player_battlelog : string → list Battle)
    (dh : string) :
  let st := main_scan rows deck_type_overrides raw get_player_battlelog in
  (is_Some (deck_hash_to_type st !! dh) ↔ is_Some (deck_hash_to_cards st !! dh))
  ∧ (∀ obs, deck_hash_to_cards st !! dh = Some obs →
            deck_hash obs = dh ∧ length obs = 8%nat ∧ NoDup (obs_key <$> obs)
            ∧ slot <$> obs = [1; 2; 3; 4; 5; 6; 7; 8])
  ∧ NoDup (dc_key <$> dc_rows st)
  ∧ length (dc_rows st) = (8 * size (deck_hash_to_cards st))%nat.
Proof.
  intros st.
  assert (snapshot_ok st) as (S1 & S2 & _) by apply snapshot_ok_scan.
  split_and!; [apply S1|apply S2| |].
  - rewrite dc_rows_keys. apply NoDup_bind.
    + intros [h1 o1] [h2 o2] y H1%elem_of_map_to_list H2%elem_of_map_to_list.
      simpl. intros (c1 & -> & _)%list_elem_of_fmap (c2 & [= <- _ _] & _)%list_elem_of_fmap.
      rewrite H1 in H2. by injection H2 as <-.
    + intros [h o] Ho%elem_of_map_to_list. simpl.
      destruct (S2 _ _ Ho) as (_ & _ & Hnd & _).
      replace ((λ c, (h, card_id c, card_variant c)) <$> o)
        with ((λ k : Z * string, (h, k.1, k.2)) <$> (obs_key <$> o))
        by (by rewrite <- list_fmap_compose).
      apply NoDup_fmap_2; [|done]. by intros [i v] [i' v'] [= -> ->].
    + apply NoDup_map_to_list.
  - rewrite <- length_map_to_list. unfold dc_rows.
    assert (Forall (λ e : string * list CardObs, length e.2 = 8%nat)
              (map_to_list (deck_hash_to_cards st))) as Hall.
    { apply Forall_forall. intros [h o] Ho%elem_of_map_to_list. by destruct (S2 _ _ Ho) as (_ & ? & _). }
    induction Hall as [|e l He Hl IH]; [done|].
    rewrite bind_cons, length_app, length_fmap, IH, He. simpl. lia.
Qed.

Lemma deck_type_labels_elem st ty :
  ty ∈ deck_type_labels st ↔ ∃ dh, deck_hash_to_type st !! dh = Some ty.
Proof.
  unfold deck_type_labels. rewrite (sort_perm String.leb), elem_of_elements,
    elem_of_list_to_set, list_elem_of_fmap.
  split.
  - intros ([dh ty'] & -> & Hin%elem_of_map_to_list). by exists dh.
  - intros (dh & Hdh). exists (dh, ty). split; [done|]. by apply elem_of_map_to_list.
Qed.

(** X16. After a scan, every deck that a counter names is a stored deck, and
    every player that a counter names is a ranked player: the hash in a key
    of the meta deck counters and of the player deck counters is a key of the
    stored deck types, and the tag in a key of the player deck counters is
    the tag of a ranked player. A card of a stored deck that has a name is in
    the card dimension; a card without a name is stored with its deck and
    need not be there. The list of deck type labels has no label twice and
    holds exactly the types stored for the decks. *)
Theorem counter_keys_name_stored_decks
    (rows : list CardMeta) (deck_type_overrides : gmap string string)
    (raw : list RawPlayer) (get_player_battlelog : string → list Battle) :
  let st := main_scan rows deck_type_overrides raw get_player_battlelog in
  (∀ k, is_Some (meta_type_deck_ids st !! k) → is_Some (deck_hash_to_type st !! k.2))
  ∧ (∀ k, is_Some (player_decks_top st !! k) →
          k.1 ∈ player_tag <$> top_players_from 1 raw
          ∧ is_Some (deck_hash_to_type st !! k.2))
  ∧ (∀ dh obs c, deck_hash_to_cards st !! dh = Some obs → c ∈ obs → card_name c ≠ "" →
                 is_Some (cards_dim st !! card_id c))
  ∧ (∀ ty, ty ∈ deck_type_labels st ↔ ∃ dh, deck_hash_to_type st !! dh = Some ty)
  ∧ NoDup (deck_type_labels st).
Proof.
  intros st.
  assert (snapshot_ok st) as (_ & _ & S3 & S4 & S5) by apply snapshot_ok_scan.
  split_and!; [apply S3| |apply S5|apply deck_type_labels_elem|].
  - intros k Hk. split; [|by apply S4].
    subst st. unfold main_scan in Hk.
    apply player_keys_scan in Hk as (Hin & _). by apply elem_of_list_to_set in Hin.
  - unfold deck_type_labels. rewrite (sort_perm String.leb). apply NoDup_elements.
Qed.

(** What the theorem leaves out is not there in general. The eighth card of
    the second deck of the sample run has no name: it is stored with the deck
    and counted, and the card dimension does not have it. *)
Example unnamed_card_not_in_cards_dim :
  (card_id <$> default [] (deck_hash_to_cards Sample.run !! deck_hash Sample.spam_obs)) !! 7%nat
  = Some 99
  ∧ meta_type_cards Sample.run !! ("Bridge Spam", 99, "normal")
    = Some {| uses := 2; wins := 0 |}
  ∧ cards_dim Sample.run !! 99 = None.
Proof. split_and!; vm_compute; reflexivity. Qed.

(** A deck met twice under two archetypes is stored under the first, and the
    counters of the second are kept under an archetype that is not a label. *)
Example counter_type_not_a_label :
  deck_hash (default [] (_extract_8_cards (load_card_metadata Sample.rows) Renamed.bob_renamed))
  = deck_hash Sample.spam_obs
  ∧ deck_hash_to_type Renamed.run !! deck_hash Sample.spam_obs = Some "Bridge Spam"
  ∧ deck_type_labels Renamed.run = ["Bridge Spam"]
  ∧ meta_deck_types Renamed.run !! "Siege" = Some {| uses := 1; wins := 1 |}
  ∧ meta_type_deck_ids Renamed.run !! ("Siege", deck_hash Sample.spam_obs)
    = Some {| uses := 1; wins := 1 |}.
Proof. split_and!; vm_compute; reflexivity. Qed.

(* ===================================================================== *)
(** * Further properties: reading a deck signature back *)
(* ===================================================================== *)

Lemma append_cons a s1 s2 : (String a s1 ++ s2)%string = String a (s1 ++ s2)%string.
Proof. reflexivity. Qed.

Lemma append_nil s : ("" ++ s)%string = s.
Proof. reflexivity. Qed.

Lemma chars_app s1 s2 : chars (s1 ++ s2)%string = chars s1 ++ chars s2.
Proof.
  induction s1 as [|a s1 IH]; [done|].
  rewrite append_cons. cbn [chars]. by rewrite IH.
Qed.

(** Two texts cut at the first separator. *)
Lemma append_sep_inj (c : ascii) p p' r r' :
  c ∉ chars p → c ∉ chars p' →
  (p ++ String c r)%string = (p' ++ String c r')%string → p = p' ∧ r = r'.
Proof.
  revert p'. induction p as [|a p IH]; intros [|a' p'] Hp Hp'.
  - rewrite !append_nil. by intros [= <-].
  - rewrite append_nil, append_cons. intros [= <- _]. exfalso. apply Hp'. left.
  - rewrite append_nil, append_cons. intros [= -> _]. exfalso. apply Hp. left.
  - rewrite !append_cons. intros [= <- Heq].
    destruct (IH p') as [-> ->]; [| |done|done].
    + intros Hin. apply Hp. by right.
    + intros Hin. apply Hp'. by right.
Qed.

Lemma join_cons_cons sep p q rest :
  Py.join sep (p :: q :: rest) = (p ++ sep ++ Py.join sep (q :: rest))%string.
Proof. reflexivity. Qed.

Lemma join_plain_nonempty p rest : plain_segment p → Py.join "|" (p :: rest) ≠ "".
Proof.
  intros [Hne _]. destruct rest as [|q rest]; [done|].
  rewrite join_cons_cons. by destruct p.
Qed.

Lemma join_inj l l' :
  Forall plain_segment l → Forall plain_segment l' →
  Py.join "|" l = Py.join "|" l' → l = l'.
Proof.
  intros Hl. revert l'. induction Hl as [|p rest Hp Hrest IH]; intros l' Hl' Heq.
  - destruct Hl' as [|p' rest' Hp' _]; [done|].
    symmetry in Heq. by apply join_plain_nonempty in Heq.
  - destruct Hl' as [|p' rest' Hp' Hrest']; [by apply join_plain_nonempty in Heq|].
    destruct rest as [|q rest], rest' as [|q' rest'].
    + simpl in Heq. by subst.
    + rewrite join_cons_cons in Heq. simpl Py.join at 1 in Heq.
      exfalso. destruct Hp as [_ Hp]. apply Hp. rewrite Heq, chars_app.
      apply elem_of_app. right. left.
    + rewrite join_cons_cons in Heq. simpl Py.join at 2 in Heq.
      exfalso. destruct Hp' as [_ Hp']. apply Hp'. rewrite <- Heq, chars_app.
      apply elem_of_app. right. left.
    + rewrite !join_cons_cons in Heq.
      change ("|" ++ ?x)%string with (String "|" x) in Heq.
      apply append_sep_inj in Heq as [-> Heq]; [|apply Hp|apply Hp'].
      f_equal. by apply IH.
Qed.

Lemma string_of_uint_chars d :
  Forall numeral_char (chars (NilEmpty.string_of_uint d)).
Proof.
  induction d; simpl; constructor; try done; right; vm_compute; split; congruence.
Qed.

Lemma str_of_int_chars (i : Z) : Forall numeral_char (chars (Py.str_of_int i)).
Proof.
  unfold Py.str_of_int, NilZero.string_of_int, NilZero.string_of_uint.
  assert (Forall numeral_char (chars "0")) as H0.
  { constructor; [|constructor]. right. vm_compute. split; congruence. }
  destruct (Z.to_int i) as [d|d].
  - destruct d; try exact H0; apply (string_of_uint_chars (_ _)).
  - simpl. constructor; [by left|].
    destruct d; try exact H0; apply (string_of_uint_chars (_ _)).
Qed.

Lemma str_of_int_nonempty (i : Z) : Py.str_of_int i ≠ "".
Proof.
  unfold Py.str_of_int, NilZero.string_of_int, NilZero.string_of_uint.
  destruct (Z.to_int i) as [d|d] eqn:Hd; [|done].
  destruct d; try done.
Qed.

Lemma numeral_char_not_sep a : numeral_char a → a ≠ ":"%char ∧ a ≠ "|"%char.
Proof.
  intros [->|Hr]; [split; discriminate|].
  split; intros ->; vm_compute in Hr; destruct Hr as [H1 H2]; by (apply H1 || apply H2).
Qed.

Lemma variant_chars v : is_variant v → "|"%char ∉ chars v.
Proof.
  intros [->|[->| ->]]; simpl; intros Hin;
    repeat (apply elem_of_cons in Hin as [Hin|Hin]; [discriminate|]);
    by apply not_elem_of_nil in Hin.
Qed.

Lemma pipeline_key_segment k : pipeline_key k → plain_segment (card_segment k).
Proof.
  intros [[i Hi] Hv]. unfold plain_segment, card_segment. rewrite Hi. split.
  - pose proof (str_of_int_nonempty i). by destruct (Py.str_of_int i).
  - rewrite chars_app. change (":" ++ k.2)%string with (String ":" k.2).
    simpl. rewrite elem_of_app, elem_of_cons. intros [Hin|[?|Hin]]; [|done|].
    + pose proof (str_of_int_chars i) as Hc. rewrite Forall_forall in Hc.
      by apply Hc, numeral_char_not_sep in Hin as [_ ?].
    + by apply variant_chars in Hin.
Qed.

Lemma card_segment_inj k k' :
  pipeline_key k → pipeline_key k' → card_segment k = card_segment k' → k = k'.
Proof.
  intros [[i Hi] _] [[i' Hi'] _]. destruct k as [c v], k' as [c' v']. simpl in *.
  unfold card_segment. simpl. change (":" ++ ?x)%string with (String ":" x).
  intros Heq. apply append_sep_inj in Heq as [-> ->]; [done| |].
  - subst c. intros Hin. pose proof (str_of_int_chars i) as Hc. rewrite Forall_forall in Hc.
    by apply Hc, numeral_char_not_sep in Hin as [? _].
  - subst c'. intros Hin. pose proof (str_of_int_chars i') as Hc. rewrite Forall_forall in Hc.
    by apply Hc, numeral_char_not_sep in Hin as [? _].
Qed.

Lemma fmap_eq_inj_on {A B} (P : A → Prop) (f : A → B) l l' :
  (∀ x y, P x → P y → f x = f y → x = y) →
  Forall P l → Forall P l' → f <$> l = f <$> l' → l = l'.
Proof.
  intros Hf Hl. revert l'. induction Hl as [|x l Hx Hl IH]; intros [|y l'] Hl' Heq;
    try done.
  rewrite !fmap_cons in Heq. injection Heq as Hxy Heq.
  apply Forall_cons in Hl' as [Hy Hl']. f_equal; [by apply Hf|by apply IH].
Qed.

Lemma card_keys_pipeline obs :
  Forall (λ c, is_variant (card_variant c)) obs → Forall pipeline_key (card_keys obs).
Proof.
  unfold card_keys. intros Hv. apply Forall_fmap. eapply Forall_impl; [exact Hv|].
  intros c Hc. split; [by exists (card_id c)|done].
Qed.

Lemma canonical_deck_signature_inj keys keys' :
  Forall pipeline_key keys → Forall pipeline_key keys' →
  canonical_deck_signature keys = canonical_deck_signature keys' → keys ≡ₚ keys'.
Proof.
  intros Hk Hk'. unfold canonical_deck_signature. cbv zeta. intros Heq.
  assert (Forall pipeline_key (Py.sort cardkey_leb keys)) as Hs
    by by rewrite (sort_perm cardkey_leb).
  assert (Forall pipeline_key (Py.sort cardkey_leb keys')) as Hs'
    by by rewrite (sort_perm cardkey_leb).
  apply join_inj in Heq.
  - apply (fmap_eq_inj_on pipeline_key card_segment) in Heq;
      [|apply card_segment_inj|done|done].
    by rewrite <- (sort_perm cardkey_leb keys), Heq, (sort_perm cardkey_leb).
  - apply Forall_fmap. eapply Forall_impl; [exact Hs|]. apply pipeline_key_segment.
  - apply Forall_fmap. eapply Forall_impl; [exact Hs'|]. apply pipeline_key_segment.
Qed.

(** X17. Two decks with variants among the three labels have the same
    signature only if they have the same [(card_id, variant)] pairs, up to
    their order: the signature can be read back, so two different decks can
    share a deck hash only when SHA-1 collides on their signatures. *)
Theorem deck_signature_injective (obs obs' : list CardObs) :
  Forall (λ c, is_variant (card_variant c)) obs →
  Forall (λ c, is_variant (card_variant c)) obs' →
  canonical_deck_signature (card_keys obs) = canonical_deck_signature (card_keys obs') →
  obs_key <$> obs ≡ₚ obs_key <$> obs'.
Proof.
  intros Hv Hv' Heq.
  apply canonical_deck_signature_inj in Heq; [|by apply card_keys_pipeline..].
  assert (∀ l : list CardObs,
            card_keys l = (λ k : Z * string, (Py.str_of_int k.1, k.2)) <$> (obs_key <$> l)) as Hk.
  { intros l. unfold card_keys. by rewrite <- list_fmap_compose. }
  rewrite !Hk in Heq.
  apply Permutation_map_inv in Heq as (l3 & Hl3 & Hp).
  assert (Inj (=) (=) (λ k : Z * string, (Py.str_of_int k.1, k.2))) as Hinj.
  { intros [i v] [i' v'] [= Hi ->]. simpl in Hi. apply str_of_int_inj in Hi. by subst. }
  apply (inj (fmap _)) in Hl3. subst l3. by symmetry.
Qed.

(* ===================================================================== *)
(** * Further properties: the deck type summary *)
(* ===================================================================== *)

Section summary_facts.
Variable M : gmap string CardMeta.
Implicit Types (stats : gmap string Summary.Bucket).

Lemma sum_buckets_empty f : Summary.sum_buckets f ∅ = 0.
Proof. unfold Summary.sum_buckets. by rewrite map_fold_empty. Qed.

Lemma sum_buckets_insert_None f stats k b :
  stats !! k = None →
  Summary.sum_buckets f (<[k := b]> stats) = Summary.sum_buckets f stats + f b.
Proof.
  intros Hk. unfold Summary.sum_buckets.
  rewrite map_fold_insert_L; [done|intros; lia|done].
Qed.

Lemma sum_buckets_update f stats k o :
  f Summary.empty_bucket = 0 →
  Summary.sum_buckets f (Summary.update_bucket k o stats)
  = Summary.sum_buckets f stats
    + (f (Summary.record_game o (default Summary.empty_bucket (stats !! k)))
       - f (default Summary.empty_bucket (stats !! k))).
Proof.
  intros Hf. unfold Summary.update_bucket.
  destruct (stats !! k) as [b|] eqn:Hk; simpl.
  - rewrite <- (insert_delete_eq stats k).
    rewrite <- (insert_delete_id stats k b Hk) at 2.
    rewrite !sum_buckets_insert_None by apply lookup_delete_eq. lia.
  - rewrite sum_buckets_insert_None by done. lia.
Qed.

Lemma bucket_ok_record_game o b :
  b = Summary.empty_bucket ∨ bucket_ok b → bucket_ok (Summary.record_game o b).
Proof.
  unfold bucket_ok. intros [->|Hb]; destruct o; simpl; lia.
Qed.

Lemma buckets_ok_update stats k o :
  (∀ ty b, stats !! ty = Some b → bucket_ok b) →
  ∀ ty b, Summary.update_bucket k o stats !! ty = Some b → bucket_ok b.
Proof.
  intros Hok ty b. unfold Summary.update_bucket.
  destruct (decide (k = ty)) as [->|Hne].
  - rewrite lookup_insert_eq. intros [= <-]. apply bucket_ok_record_game.
    destruct (stats !! ty) as [b0|] eqn:Hb0; simpl; [right; by apply (Hok ty)|by left].
  - rewrite lookup_insert_ne by done. apply Hok.
Qed.

Lemma summary_step_my s nb :
  (Summary.summarize_step M s nb).1
  = if decide (my_deck_valid nb)
    then Summary.update_bucket (classify_deck M (list_or (Summary.my_cards nb)))
           (Summary.my_outcome (Summary.result nb)) s.1
    else s.1.
Proof.
  unfold Summary.summarize_step, Summary.deck_type_if_8, my_deck_valid. simpl.
  destruct (Nat.eqb_spec (length (list_or (Summary.my_cards nb))) 8).
  - by rewrite decide_True.
  - by rewrite decide_False.
Qed.

Lemma summary_step_opp s nb :
  (Summary.summarize_step M s nb).2
  = if decide (opp_deck_valid nb)
    then Summary.update_bucket (classify_deck M (list_or (Summary.opp_cards nb)))
           (Summary.opp_outcome (Summary.result nb)) s.2
    else s.2.
Proof.
  unfold Summary.summarize_step, Summary.deck_type_if_8, opp_deck_valid. simpl.
  destruct (Nat.eqb_spec (length (list_or (Summary.opp_cards nb))) 8).
  - by rewrite decide_True.
  - by rewrite decide_False.
Qed.

Lemma buckets_labelled_update stats cards o :
  (∀ ty b, stats !! ty = Some b → bucket_ok b ∧ ty ∈ ARCHETYPES) →
  ∀ ty b, Summary.update_bucket (classify_deck M cards) o stats !! ty = Some b →
    bucket_ok b ∧ ty ∈ ARCHETYPES.
Proof.
  intros Hok ty b Hb. split.
  - eapply buckets_ok_update; [|exact Hb]. intros ty' b' Hb'. by apply (Hok ty').
  - destruct (decide (classify_deck M cards = ty)) as [<-|Hne].
    + apply classify_deck_archetype.
    + unfold Summary.update_bucket in Hb. rewrite lookup_insert_ne in Hb by done.
      by apply (Hok ty b).
Qed.

Lemma outcome_mirror r (bm bo : Summary.Bucket) :
  Summary.wins (Summary.record_game (Summary.my_outcome r) bm) - Summary.wins bm
  = Summary.losses (Summary.record_game (Summary.opp_outcome r) bo) - Summary.losses bo
  ∧ Summary.losses (Summary.record_game (Summary.my_outcome r) bm) - Summary.losses bm
    = Summary.wins (Summary.record_game (Summary.opp_outcome r) bo) - Summary.wins bo
  ∧ Summary.draws (Summary.record_game (Summary.my_outcome r) bm) - Summary.draws bm
    = Summary.draws (Summary.record_game (Summary.opp_outcome r) bo) - Summary.draws bo.
Proof.
  unfold Summary.my_outcome, Summary.opp_outcome.
  destruct (decide (r = Some "win")); [simpl; lia|].
  destruct (decide (r = Some "loss")); simpl; lia.
Qed.

Lemma games_record_game o b :
  Summary.games (Summary.record_game o b) = Summary.games b + 1.
Proof. by destruct o. Qed.

Lemma summary_inv_step battles s nb :
  summary_inv battles s → summary_inv (battles ++ [nb]) (Summary.summarize_step M s nb).
Proof.
  intros (Hmy & Hopp & Hgm & Hgo & Hmirror). unfold summary_inv.
  rewrite summary_step_my, summary_step_opp.
  rewrite !filter_app, !length_app, !filter_cons, !filter_nil.
  split_and!.
  - destruct (decide (my_deck_valid nb)); [|done]. by apply buckets_labelled_update.
  - destruct (decide (opp_deck_valid nb)); [|done]. by apply buckets_labelled_update.
  - destruct (decide (my_deck_valid nb)); simpl; [|lia].
    rewrite sum_buckets_update, games_record_game by done. lia.
  - destruct (decide (opp_deck_valid nb)); simpl; [|lia].
    rewrite sum_buckets_update, games_record_game by done. lia.
  - intros [Hall Hnb]%Forall_app. apply Forall_cons in Hnb as [Hnb _].
    destruct (Hmirror Hall) as (H1 & H2 & H3).
    destruct (decide (my_deck_valid nb)) as [Hv|Hv];
      destruct (decide (opp_deck_valid nb)) as [Hv'|Hv']; try tauto.
    rewrite !sum_buckets_update by done.
    pose proof (outcome_mirror (Summary.result nb)
      (default Summary.empty_bucket
         (s.1 !! classify_deck M (list_or (Summary.my_cards nb))))
      (default Summary.empty_bucket
         (s.2 !! classify_deck M (list_or (Summary.opp_cards nb))))) as Hm.
    lia.
Qed.

Lemma summary_inv_foldl battles0 s battles :
  summary_inv battles0 s →
  summary_inv (battles0 ++ battles) (foldl (Summary.summarize_step M) s battles).
Proof.
  revert battles0 s. induction battles as [|nb battles IH]; intros battles0 s Hs.
  - by rewrite app_nil_r.
  - cbn [foldl]. rewrite (cons_middle nb), app_assoc. apply IH. by apply summary_inv_step.
Qed.

Lemma summary_inv_stats battles : summary_inv battles (Summary.summarize_stats M battles).
Proof.
  apply (summary_inv_foldl [] (∅, ∅) battles).
  unfold summary_inv. simpl. rewrite !sum_buckets_empty.
  split_and!; try done; intros ty b; by rewrite lookup_empty.
Qed.
End summary_facts.

(** X18. In the two dictionaries of the deck type summary every bucket is
    kept under one of the six labels, has at least one game and has as many
    games as wins, losses and draws together. The games of the own dictionary
    are the battles whose own deck has 8 names, those of the opponent
    dictionary the battles whose opponent deck has 8 names: a battle with
    another number of names on a side is left out of that side's dictionary
    and nothing else is. *)
Theorem summarize_stats_accounting
    (M : gmap string CardMeta) (battles : list Summary.NormalizedBattle)
    (ty : string) (b : Summary.Bucket) :
  let my_stats := (Summary.summarize_stats M battles).1 in
  let opp_stats := (Summary.summarize_stats M battles).2 in
  (my_stats !! ty = Some b ∨ opp_stats !! ty = Some b → bucket_ok b ∧ ty ∈ ARCHETYPES)
  ∧ Summary.sum_buckets Summary.games my_stats
    = Z.of_nat (length (filter my_deck_valid battles))
  ∧ Summary.sum_buckets Summary.games opp_stats
    = Z.of_nat (length (filter opp_deck_valid battles)).
Proof.
  intros my_stats opp_stats.
  destruct (summary_inv_stats M battles) as (Hmy & Hopp & Hgm & Hgo & Hmirror).
  split_and!; [|done|done].
  intros [Hb|Hb]; [by apply Hmy|by apply Hopp].
Qed.

(** X19. When every battle has 8 names on both sides or on neither, the two
    dictionaries of the deck type summary mirror each other: the wins of the
    own decks are the losses of the opponent decks, the losses of the own
    decks are the wins of the opponent decks, and the draws and the games
    agree. *)
Theorem summarize_stats_mirror
    (M : gmap string CardMeta) (battles : list Summary.NormalizedBattle) :
  Forall (λ nb, my_deck_valid nb ↔ opp_deck_valid nb) battles →
  let my_stats := (Summary.summarize_stats M battles).1 in
  let opp_stats := (Summary.summarize_stats M battles).2 in
  Summary.sum_buckets Summary.wins my_stats = Summary.sum_buckets Summary.losses opp_stats
  ∧ Summary.sum_buckets Summary.losses my_stats = Summary.sum_buckets Summary.wins opp_stats
  ∧ Summary.sum_buckets Summary.draws my_stats = Summary.sum_buckets Summary.draws opp_stats
  ∧ Summary.sum_buckets Summary.games my_stats = Summary.sum_buckets Summary.games opp_stats.
Proof.
  intros Hall my_stats opp_stats.
  destruct (summary_inv_stats M battles) as (Hmy & Hopp & Hgm & Hgo & Hmirror).
  destruct (Hmirror Hall) as (H1 & H2 & H3). split_and!; [done|done|done|].
  subst my_stats opp_stats. rewrite Hgm, Hgo. f_equal. f_equal.
  clear -Hall. induction Hall as [|nb battles Hnb _ IH]; [done|].
  rewrite !filter_cons.
  destruct (decide (my_deck_valid nb)), (decide (opp_deck_valid nb)); try tauto;
    simpl; by rewrite IH.
Qed.

(* ===================================================================== *)
(** * Further properties: the classifier and the order of the cards *)
(* ===================================================================== *)

Lemma qsum_foldl (a : Q) (l : list Q) : (foldl Qplus a l == a + qsum l)%Q.
Proof.
  unfold qsum. revert a. induction l as [|x l IH]; intros a; cbn [foldl].
  - ring.
  - rewrite (IH (a + x)%Q), (IH ((0 # 1) + x)%Q). ring.
Qed.

Lemma qsum_cons (x : Q) (l : list Q) : (qsum (x :: l) == x + qsum l)%Q.
Proof. unfold qsum at 1. cbn [foldl]. rewrite qsum_foldl. ring. Qed.

Lemma qsum_Forall2 (l l' : list Q) : Forall2 Qeq l l' → (qsum l == qsum l')%Q.
Proof.
  induction 1 as [|x x' l l' Hx _ IH]; [reflexivity|].
  by rewrite !qsum_cons, Hx, IH.
Qed.

Lemma qsum_Permutation (l l' : list Q) : l ≡ₚ l' → (qsum l == qsum l')%Q.
Proof.
  induction 1 as [|x l l' _ IH|x y l|l1 l2 l3 _ IH1 _ IH2].
  - reflexivity.
  - by rewrite !qsum_cons, IH.
  - rewrite !qsum_cons. ring.
  - by rewrite IH1.
Qed.

Lemma Qle_bool_Qeq (x x' y y' : Q) :
  (x == x')%Q → (y == y')%Q → Qle_bool x y = Qle_bool x' y'.
Proof.
  intros Hx Hy. apply eq_true_iff_eq. rewrite !Qle_bool_iff. by rewrite Hx, Hy.
Qed.

Lemma Qle_bool_total (x y : Q) : Qle_bool x y = false → Qle_bool y x = true.
Proof.
  intros H. apply Qle_bool_iff. apply Qlt_le_weak, Qnot_le_lt.
  intros Hle%Qle_bool_iff. congruence.
Qed.

Lemma Qle_bool_antisym (x y : Q) :
  Qle_bool x y = true → Qle_bool y x = true → (x == y)%Q.
Proof. rewrite !Qle_bool_iff. apply Qle_antisym. Qed.

Lemma Qle_bool_trans (x y z : Q) :
  Qle_bool x y = true → Qle_bool y z = true → Qle_bool x z = true.
Proof. rewrite !Qle_bool_iff. apply Qle_trans. Qed.

Lemma Forall2_Qeq_refl (l : list Q) : Forall2 Qeq l l.
Proof. induction l; constructor; [reflexivity|done]. Qed.

Lemma Forall2_Qeq_trans (l1 l2 l3 : list Q) :
  Forall2 Qeq l1 l2 → Forall2 Qeq l2 l3 → Forall2 Qeq l1 l3.
Proof.
  intros H. revert l3. induction H as [|x y l1 l2 Hxy _ IH]; intros l3 H3.
  - done.
  - inversion H3 as [|y' z l2' l3' Hyz Hl]; subst. constructor; [by rewrite Hxy|by apply IH].
Qed.

Lemma insert_sorted_Qeq (x : Q) (s s' : list Q) :
  Forall2 Qeq s s' →
  Forall2 Qeq (Py.insert_sorted Qle_bool x s) (Py.insert_sorted Qle_bool x s').
Proof.
  induction 1 as [|y y' s s' Hy Hs IH]; cbn [Py.insert_sorted].
  - apply Forall2_Qeq_refl.
  - rewrite (Qle_bool_Qeq x x y y') by (reflexivity || done).
    destruct (Qle_bool x y'); repeat constructor; done || reflexivity.
Qed.

Lemma insert_sorted_swap (x y : Q) (s : list Q) :
  Forall2 Qeq (Py.insert_sorted Qle_bool x (Py.insert_sorted Qle_bool y s))
              (Py.insert_sorted Qle_bool y (Py.insert_sorted Qle_bool x s)).
Proof.
  induction s as [|z s IH]; cbn [Py.insert_sorted].
  - destruct (Qle_bool x y) eqn:Hxy, (Qle_bool y x) eqn:Hyx.
    + pose proof (Qle_bool_antisym _ _ Hxy Hyx) as He.
      repeat constructor; [done|by symmetry].
    + apply Forall2_Qeq_refl.
    + apply Forall2_Qeq_refl.
    + apply Qle_bool_total in Hxy. congruence.
  - destruct (Qle_bool y z) eqn:Hyz, (Qle_bool x z) eqn:Hxz; cbn [Py.insert_sorted].
    + destruct (Qle_bool x y) eqn:Hxy, (Qle_bool y x) eqn:Hyx.
      * pose proof (Qle_bool_antisym _ _ Hxy Hyx) as He.
        constructor; [done|]. constructor; [by symmetry|]. apply Forall2_Qeq_refl.
      * rewrite Hyz. apply Forall2_Qeq_refl.
      * rewrite Hxz. apply Forall2_Qeq_refl.
      * apply Qle_bool_total in Hxy. congruence.
    + rewrite Hyz. destruct (Qle_bool x y) eqn:Hxy.
      * pose proof (Qle_bool_trans _ _ _ Hxy Hyz). congruence.
      * rewrite Hxz. apply Forall2_Qeq_refl.
    + rewrite Hxz. destruct (Qle_bool y x) eqn:Hyx.
      * pose proof (Qle_bool_trans _ _ _ Hyx Hxz). congruence.
      * rewrite Hyz. apply Forall2_Qeq_refl.
    + rewrite Hxz, Hyz. constructor; [reflexivity|done].
Qed.

Lemma sort_Permutation_Qeq (l l' : list Q) :
  l ≡ₚ l' → Forall2 Qeq (Py.sort Qle_bool l) (Py.sort Qle_bool l').
Proof.
  induction 1 as [|x l l' _ IH|x y l|l1 l2 l3 _ IH1 _ IH2]; cbn [Py.sort].
  - constructor.
  - by apply insert_sorted_Qeq.
  - apply insert_sorted_swap.
  - by eapply Forall2_Qeq_trans.
Qed.

Lemma cascade_ext (v v' : DeckValues) :
  has_xbow v = has_xbow v' → has_mortar v = has_mortar v' →
  bait_pieces v = bait_pieces v' → bridge_spam_count v = bridge_spam_count v' →
  big_tank_count v = big_tank_count v' →
  (four_card_cycle_cost v == four_card_cycle_cost v')%Q →
  (avg_elixir v == avg_elixir v')%Q →
  cascade v = cascade v'.
Proof.
  intros H1 H2 H3 H4 H5 H6 H7. unfold cascade.
  rewrite H1, H2, H3, H4, H5.
  rewrite (Qle_bool_Qeq _ (four_card_cycle_cost v') (9 # 1) (9 # 1)) by (done || reflexivity).
  by rewrite (Qle_bool_Qeq (7 # 2) (7 # 2) _ (avg_elixir v')) by (done || reflexivity).
Qed.

Lemma precompute_Permutation M (cards cards' : list string) :
  cards ≡ₚ cards' →
  cascade (_precompute_deck_values M cards) = cascade (_precompute_deck_values M cards').
Proof.
  intros Hp.
  assert (_get_card_meta M <$> cards ≡ₚ _get_card_meta M <$> cards') as Hm
    by (by apply fmap_Permutation).
  assert (omap (λ m : option CardMeta, m ≫= cm_elixir) (_get_card_meta M <$> cards)
          ≡ₚ omap (λ m : option CardMeta, m ≫= cm_elixir) (_get_card_meta M <$> cards')) as He
    by (by apply omap_Permutation).
  apply cascade_ext; unfold _precompute_deck_values; cbv zeta.
  all: rewrite <- (Permutation_length He).
  all: destruct (length _ =? 0)%nat; simpl.
  all: try reflexivity.
  all: try (apply bool_decide_ext; by rewrite Hp).
  all: try (apply Permutation_length; by apply filter_Permutation).
  - apply qsum_Forall2, Forall2_take. by apply sort_Permutation_Qeq.
  - by rewrite (qsum_Permutation _ _ He).
Qed.

(** X20. The archetype of a deck does not depend on the order in which its
    cards are listed: two lists with the same names, each as often, get the
    same label. The elixir costs of the listed cards are whole numbers, so
    that the sums of the source are exact. *)
Theorem classify_deck_order_independent
    (M : gmap string CardMeta) (cards cards' : list string) :
  cards ≡ₚ cards' →
  Forall (λ q, Qden q = 1%positive) (known_elixirs M cards) →
  classify_deck M cards = classify_deck M cards'.
Proof.
  intros Hp _. destruct cards as [|c cards].
  - by apply Permutation_nil_l in Hp as ->.
  - destruct cards' as [|c' cards']; [by apply Permutation_nil_r in Hp|].
    rewrite !classify_deck_cascade_eq by done. by apply precompute_Permutation.
Qed.

(* ===================================================================== *)
(** * Further properties: the two views of a battle in the summary *)
(* ===================================================================== *)

Lemma compute_result_flip (c1 c2 : Z) :
  _compute_result c2 c1 = flip_result (_compute_result c1 c2).
Proof.
  unfold _compute_result, flip_result.
  destruct (Z.ltb_spec c2 c1), (Z.ltb_spec c1 c2); try lia; reflexivity.
Qed.

Lemma entry_names_stripped cards : Forall (λ n, Py.strip n = n) (entry_names cards).
Proof.
  apply Forall_forall. intros n Hn. unfold entry_names in Hn.
  apply list_elem_of_omap in Hn as (c & _ & Hc).
  destruct (rc_name c) as [s|]; [|done]. destruct (Py.truthy_str s); [|done].
  injection Hc as <-. apply strip_idem.
Qed.

Lemma normalize_battle_mirror b :
  normalize_battle (swap_raw_sides b) = mirror <$> normalize_battle b.
Proof.
  unfold normalize_battle, swap_raw_sides. simpl.
  destruct (side_crowns (first_side (rb_team b))) as [c1|],
    (side_crowns (first_side (rb_opponent b))) as [c2|]; simpl; try done.
  destruct (side_cards (first_side (rb_team b))) as [m|],
    (side_cards (first_side (rb_opponent b))) as [o|]; simpl; try done.
  unfold mirror. simpl. by rewrite compute_result_flip.
Qed.

Lemma side_crowns_None side :
  side_crowns side = None ↔ ∃ e, side = Some e ∧ e_crowns e = Null.
Proof.
  destruct side as [e|]; simpl.
  - destruct (e_crowns e) eqn:He; simpl; split; try done.
    + by intros (e' & [= <-] & ?); congruence.
    + intros _. by exists e.
    + by intros (e' & [= <-] & ?); congruence.
  - split; [done|]. by intros (e & ? & _).
Qed.

Lemma side_cards_None side :
  side_cards side = None ↔ ∃ e, side = Some e ∧ e_cards e = Null.
Proof.
  destruct side as [e|]; simpl.
  - destruct (e_cards e) eqn:He; simpl; split; try done.
    + by intros (e' & [= <-] & ?); congruence.
    + intros _. by exists e.
    + by intros (e' & [= <-] & ?); congruence.
  - split; [done|]. by intros (e & ? & _).
Qed.

Lemma normalize_battle_None b :
  normalize_battle b = None
  ↔ has_null (first_side (rb_team b)) ∨ has_null (first_side (rb_opponent b)).
Proof.
  unfold normalize_battle, has_null. cbv zeta.
  destruct (side_crowns (first_side (rb_team b))) as [c1|] eqn:H1; simpl.
  2:{ apply side_crowns_None in H1 as (e & He & Hn). split; [|done].
      intros _. left. exists e. by split; [|left]. }
  destruct (side_crowns (first_side (rb_opponent b))) as [c2|] eqn:H2; simpl.
  2:{ apply side_crowns_None in H2 as (e & He & Hn). split; [|done].
      intros _. right. exists e. by split; [|left]. }
  destruct (side_cards (first_side (rb_team b))) as [m|] eqn:H3; simpl.
  2:{ apply side_cards_None in H3 as (e & He & Hn). split; [|done].
      intros _. left. exists e. by split; [|right]. }
  destruct (side_cards (first_side (rb_opponent b))) as [o|] eqn:H4; simpl.
  2:{ apply side_cards_None in H4 as (e & He & Hn). split; [|done].
      intros _. right. exists e. by split; [|right]. }
  split; [done|].
  intros [(e & He & [Hn|Hn])|(e & He & [Hn|Hn])].
  - assert (side_crowns (first_side (rb_team b)) = None) as Hc
      by (apply side_crowns_None; by exists e). congruence.
  - assert (side_cards (first_side (rb_team b)) = None) as Hc
      by (apply side_cards_None; by exists e). congruence.
  - assert (side_crowns (first_side (rb_opponent b)) = None) as Hc
      by (apply side_crowns_None; by exists e). congruence.
  - assert (side_cards (first_side (rb_opponent b)) = None) as Hc
      by (apply side_cards_None; by exists e). congruence.
Qed.

Lemma battle_of_swap b : battle_of (swap_raw_sides b) = swap_sides (battle_of b).
Proof. done. Qed.

Lemma is_ranked_1v1_battle_swap b :
  is_ranked_1v1_battle (swap_sides b) = is_ranked_1v1_battle b.
Proof.
  unfold is_ranked_1v1_battle, swap_sides. simpl.
  by rewrite (andb_comm (length (list_or (b_opponent b)) =? 1)%nat).
Qed.

Lemma filter_and_normalize_mirror (log : list RawBattle) :
  filter_and_normalize_ranked_1v1 (swap_raw_sides <$> log)
  = fmap (M := list) mirror <$> filter_and_normalize_ranked_1v1 log.
Proof.
  unfold filter_and_normalize_ranked_1v1. induction log as [|b log IH]; [done|].
  rewrite fmap_cons, !filter_cons, battle_of_swap, is_ranked_1v1_battle_swap.
  destruct (decide (is_ranked_1v1_battle (battle_of b) = true)); [|done].
  cbn [mapM]. rewrite IH, normalize_battle_mirror.
  destruct (normalize_battle b); simpl; [|done].
  by destruct (mapM normalize_battle (filter _ log)).
Qed.

Lemma outcome_flip (r : string) :
  Summary.my_outcome (Some (flip_result r)) = Summary.opp_outcome (Some r)
  ∧ Summary.opp_outcome (Some (flip_result r)) = Summary.my_outcome (Some r).
Proof.
  unfold flip_result.
  destruct (decide (r = "win")) as [->|Hw]; [done|].
  destruct (decide (r = "loss")) as [->|Hl]; [done|].
  unfold Summary.my_outcome, Summary.opp_outcome.
  rewrite !(decide_False (P := Some r = Some "win")) by congruence.
  by rewrite !(decide_False (P := Some r = Some "loss")) by congruence.
Qed.

Lemma summarize_step_mirror M s nb :
  Summary.summarize_step M (prod_swap s) (summary_input (mirror nb))
  = prod_swap (Summary.summarize_step M s (summary_input nb)).
Proof.
  destruct s as [s1 s2]. unfold Summary.summarize_step, prod_swap. simpl.
  destruct (outcome_flip (nb_result nb)) as [-> ->]. done.
Qed.

Lemma summarize_foldl_mirror M s l :
  foldl (Summary.summarize_step M) (prod_swap s) (summary_input <$> (mirror <$> l))
  = prod_swap (foldl (Summary.summarize_step M) s (summary_input <$> l)).
Proof.
  revert s. induction l as [|nb l IH]; intros s; [done|].
  cbn [fmap list_fmap foldl]. by rewrite summarize_step_mirror, IH.
Qed.

(** X21. Normalising a battle as the other player's log presents it gives
    the mirror image of normalising it as this player's log presents it: the
    two decks exchanged, win and loss exchanged, a draw kept, the time and
    the mode name unchanged; and where the one raises, so does the other. The
    normalisation raises exactly when the crowns or the cards of the first
    entry of a side are null; an absent key, an absent side and an empty side
    take the defaults. The result is one of win, loss and draw, and no name
    of a deck has white space around it. *)
Theorem normalize_battle_swap_sides (b : RawBattle) :
  normalize_battle (swap_raw_sides b) = mirror <$> normalize_battle b
  ∧ (normalize_battle b = None
     ↔ has_null (first_side (rb_team b)) ∨ has_null (first_side (rb_opponent b)))
  ∧ (∀ nb, normalize_battle b = Some nb →
       mirror (mirror nb) = nb
       ∧ (nb_result nb = "win" ∨ nb_result nb = "loss" ∨ nb_result nb = "draw")
       ∧ Forall (λ n, Py.strip n = n) (nb_my_cards nb ++ nb_opp_cards nb)).
Proof.
  split_and!.
  - apply normalize_battle_mirror.
  - apply normalize_battle_None.
  - intros nb. unfold normalize_battle.
    destruct (side_crowns (first_side (rb_team b))) as [c1|],
      (side_crowns (first_side (rb_opponent b))) as [c2|]; simpl; try done.
    destruct (side_cards (first_side (rb_team b))) as [m|],
      (side_cards (first_side (rb_opponent b))) as [o|]; simpl; try done.
    intros [= <-]. split_and!.
    + unfold mirror. simpl. f_equal. unfold flip_result, _compute_result.
      destruct (c2 <? c1); [done|]. by destruct (c1 <? c2).
    + simpl. unfold _compute_result. destruct (c2 <? c1); [by left|].
      destruct (c1 <? c2); [right; by left|right; by right].
    + simpl. apply Forall_app. split; apply entry_names_stripped.
Qed.

(** X22. The deck type summary of a battle log as the opponents' logs present
    it is the summary of the log with the two dictionaries exchanged: the
    filter keeps the same battles, each normalises to its mirror image, and
    the statistics of the own decks of one view are the statistics of the
    opponent decks of the other. *)
Theorem summary_of_swapped_log
    (M : gmap string CardMeta) (log : list RawBattle) (l : list Normalized) :
  filter_and_normalize_ranked_1v1 log = Some l →
  filter_and_normalize_ranked_1v1 (swap_raw_sides <$> log) = Some (mirror <$> l)
  ∧ length l = length (filter (λ b, is_ranked_1v1_battle (battle_of b) = true) log)
  ∧ Summary.summarize_stats M (summary_input <$> (mirror <$> l))
    = prod_swap (Summary.summarize_stats M (summary_input <$> l)).
Proof.
  intros Hl. split_and!.
  - by rewrite filter_and_normalize_mirror, Hl.
  - unfold filter_and_normalize_ranked_1v1 in Hl. symmetry.
    by apply length_mapM in Hl.
  - apply (summarize_foldl_mirror M (∅, ∅) l).
Qed.

(* ===================================================================== *)
(** * The further properties at the sample data *)
(* ===================================================================== *)

Lemma participant_win_agrees_with_compute_result_witness :
  _participant_is_win_ranked_1v1 Sample.battle (_normalize_tag (p_tag Sample.alice)) = true
  ∧ _participant_is_win_ranked_1v1 Sample.battle (_normalize_tag (p_tag Sample.bob)) = false.
Proof.
  destruct (participant_win_agrees_with_compute_result Sample.battle Sample.alice Sample.bob)
    as (Hw & _ & _ & Hnb).
  - reflexivity.
  - reflexivity.
  - vm_compute. discriminate.
  - assert (_participant_is_win_ranked_1v1 Sample.battle
              (_normalize_tag (p_tag Sample.alice)) = true) as Ha.
    { apply (proj2 Hw). vm_compute. reflexivity. }
    split; [exact Ha|]. rewrite Ha in Hnb. exact Hnb.
Defined.

Lemma extract_8_cards_observations_witness :
  ∃ x, Sample.siege_obs !! 0%nat = Some x
       ∧ card_id x = 27000008 ∧ slot x = 1
       ∧ card_variant x = "normal" ∧ card_name x = "X-Bow".
Proof.
  destruct (extract_8_cards_observations (load_card_metadata Sample.rows) Sample.alice
              Sample.siege_obs 0 (Sample.raw_card 27000008))
    as (cid & x & Hid & Hx & Hc & Hs & Hv & _ & Hn & _).
  - vm_compute. reflexivity.
  - lia.
  - reflexivity.
  - injection Hid as <-. exists x.
    split_and!; [exact Hx|exact Hc|exact Hs|rewrite Hv|rewrite Hn]; vm_compute; reflexivity.
Defined.

Lemma top_players_from_ranking_witness :
  ∃ pl, pl ∈ top_players_from 1 Sample.ranking
        ∧ player_tag pl = "#2PP" ∧ rank_global pl = 2 ∧ trophies pl = 8990.
Proof.
  destruct (top_players_from_ranking Sample.ranking 1
              {| rp_tag := Some "2pp"; rp_name := Some "bob";
                 rp_trophies := Some 8990; rp_rank := Some 2 |})
    as (_ & _ & pl & Hin & Ht & Hr & Htr).
  - reflexivity.
  - vm_compute. discriminate.
  - exists pl. split_and!; [exact Hin|rewrite Ht|rewrite Hr|rewrite Htr]; vm_compute; reflexivity.
Defined.

Lemma classify_deck_ignores_empty_names_witness :
  classify_deck (card_meta_by_name Sample.rows)
    (filter (λ n : string, n ≠ "") (card_name <$> Sample.spam_obs))
  = classify_deck (card_meta_by_name Sample.rows) (card_name <$> Sample.spam_obs).
Proof.
  apply (classify_deck_ignores_empty_names (card_meta_by_name Sample.rows)
           (card_name <$> Sample.spam_obs)).
  vm_compute. reflexivity.
Defined.

Lemma scan_battles_idempotent_witness :
  foldl (scan_battle Sample.rows ∅ (top_tags_of Sample.ranking)) init_state
    ([Sample.battle] ++ [Sample.battle])
  = foldl (scan_battle Sample.rows ∅ (top_tags_of Sample.ranking)) init_state [Sample.battle].
Proof.
  apply (scan_battles_idempotent Sample.rows ∅ (top_tags_of Sample.ranking) init_state
           [Sample.battle] [Sample.battle]).
  intros b Hb _. apply list_elem_of_singleton in Hb as ->.
  exists Sample.battle.
  split_and!; [apply list_elem_of_singleton; reflexivity|vm_compute; reflexivity|reflexivity].
Defined.

Lemma deck_signature_injective_witness :
  obs_key <$> Sample.siege_obs ≡ₚ obs_key <$> reverse Sample.siege_obs.
Proof.
  assert (Forall (λ c, is_variant (card_variant c)) Sample.siege_obs) as Hv.
  { apply Forall_forall. intros c Hc. vm_compute in Hc.
    repeat (apply elem_of_cons in Hc as [->|Hc]; [left; reflexivity|]).
    by apply not_elem_of_nil in Hc. }
  apply (deck_signature_injective Sample.siege_obs (reverse Sample.siege_obs)).
  - exact Hv.
  - apply Forall_reverse. exact Hv.
  - vm_compute. reflexivity.
Defined.

Lemma summarize_stats_mirror_witness :
  Summary.sum_buckets Summary.wins (Summary.summarize_stats (card_meta_by_name Sample.rows)
                                      SampleSummary.normalized).1
  = Summary.sum_buckets Summary.losses (Summary.summarize_stats (card_meta_by_name Sample.rows)
                                          SampleSummary.normalized).2.
Proof.
  apply (summarize_stats_mirror (card_meta_by_name Sample.rows) SampleSummary.normalized).
  unfold SampleSummary.normalized.
  repeat constructor; try (intros H; first [exact H|discriminate H]).
Defined.

Lemma classify_deck_order_independent_witness :
  classify_deck (card_meta_by_name Sample.rows) Sample.bait_names
  = classify_deck (card_meta_by_name Sample.rows) (reverse Sample.bait_names).
Proof.
  apply (classify_deck_order_independent (card_meta_by_name Sample.rows)
           Sample.bait_names (reverse Sample.bait_names)).
  - symmetry. apply reverse_Permutation.
  - vm_compute. repeat constructor.
Defined.

Lemma summary_of_swapped_log_witness :
  length SampleSummary.normalized_log = 1%nat
  ∧ filter_and_normalize_ranked_1v1 (swap_raw_sides <$> SampleSummary.log)
    = Some (mirror <$> SampleSummary.normalized_log)
  ∧ (Summary.summarize_stats (card_meta_by_name Sample.rows)
       (summary_input <$> (mirror <$> SampleSummary.normalized_log))).1 !! "Bait"
    = Some {| Summary.games := 1; Summary.wins := 0; Summary.losses := 1; Summary.draws := 0 |}.
Proof.
  destruct (summary_of_swapped_log (card_meta_by_name Sample.rows) SampleSummary.log
              SampleSummary.normalized_log) as (Hf & Hlen & Hs).
  - vm_compute. reflexivity.
  - split_and!; [rewrite Hlen; vm_compute; reflexivity|exact Hf|].
    rewrite Hs. vm_compute. reflexivity.
Defined.
